(** * E-paper 7.5 inch three-colour calendar display: panel driver, channel
    streaming and update sequencing.

    The development embeds the two sketches of the repository:
    - the scheduled calendar firmware: HTTP download of the two bitplanes,
      [streamChannelToDisplay], the red fallback and the update sequence
      [downloadAndDisplayCalendar] (module [Calendar]); the wake schedule
      and the time keeping (module [Schedule]); [setup] from boot to deep
      sleep, with [connectToWiFi], [synchronizeTime] and [updateCalendar]
      (module [System]);
    - the pattern demo firmware: [drawColorPattern] and the four patterns
      (module [Demo]); [runVictoryDemo] from boot (module [DemoRun]).
    Both sketches carry a textually identical copy of the low-level panel
    driver ([EPD_SendCommand], [EPD_SendData], [EPD_Send_1] .. [EPD_Send_4],
    [EPD_Reset], [EPD_7IN5_V1_Show]); it is embedded once byte by byte, in
    module [Driver], and once pin write by pin write, in module [Bus].

    Everything the firmware does to the outside world is recorded, in the
    order in which it happens, in an event log.  Everything the outside
    world does to the firmware (HTTP status codes, Content-Length, the bytes
    the peer delivers and when, the clock, the BUSY pin) is an explicit
    input.

    Conventions:
    - a byte is a [Z] in [0, 255]; [int] and [long] values are [Z]; in the
      modules [Driver], [Calendar] and [Demo] no arithmetic of the embedded
      code leaves the 32-bit range, except the [unsigned long] clock
      difference, whose wrap-around is written out; the modules [Schedule]
      and [System] write out the wrap-around of all [unsigned long]
      arithmetic; [parseISOTimestamp], whose input comes from the server,
      has no result where an [int] computation overflows or the array is
      read past its end;
    - the peer of a download is a script with one entry per pass of the
      streaming loop: what [http.connected()] answers, which bytes have
      newly reached the socket, and what [millis()] reads; a script that is
      used up is a peer that has closed the connection;
    - [stream->readBytes(buffer, n)] is asked for no more than
      [stream->available()] bytes and returns them all;
    - every call of [WiFi.status()] has its own answer, given as input;
      JSON decoding and [sscanf] are outside the embedding: the status
      reply is given by what they yield. *)

From Stdlib Require Import ZArith List Bool Lia.
Import ListNotations.
Local Open Scope Z_scope.

(** ** Constants *)

(** [#define DISPLAY_WIDTH 640], [#define DISPLAY_HEIGHT 384],
    [#define TOTAL_BYTES 122880  // 640*384/2] *)
Definition DISPLAY_WIDTH : Z := 640.
Definition DISPLAY_HEIGHT : Z := 384.
Definition TOTAL_BYTES : Z := 122880.

(** [HTTP_CODE_OK] of the ESP8266 HTTP client library. *)
Definition HTTP_CODE_OK : Z := 200.

(** ** Events *)

(** The four diagnostic counters of [streamChannelToDisplay]
    ([int blackBytes = 0, whiteBytes = 0, redPrepBytes = 0, otherBytes = 0]).
    They never exceed [TOTAL_BYTES], so the 32-bit [int] never wraps. *)
Record counters : Type := mkCounters {
  blackBytes : Z;
  whiteBytes : Z;
  redPrepBytes : Z;
  otherBytes : Z
}.

(** The two raw bitplane endpoints. *)
Inductive url : Type :=
| calendar_raw_url   (* /calendar_bw.raw  *)
| calendar_red_url.  (* /calendar_red.raw *)

(** The four verdicts of [diagnoseSizeIssues]. *)
Inductive size_verdict : Type :=
| QuarterSize      (* "File is 1/4 expected size!" *)
| DoubleSize       (* "File is 2x expected size!" *)
| UnexpectedSize   (* "Unexpected file size" *)
| PerfectSize.     (* "channel size is perfect!" *)

(** The serial diagnostics that carry information about the control flow.
    Progress output (every 10000 / 30000 bytes) is not recorded. *)
Inductive diag : Type :=
| NoWiFi                                         (* "No WiFi connection, skipping update" *)
| RequestFailed (u : url) (httpCode : Z)         (* "... HTTP request failed, code: " *)
| SizeDiagnosis (u : url) (v : size_verdict)     (* the output of diagnoseSizeIssues *)
| RedNotAvailable                                (* "Red channel not available, disabling red everywhere..." *)
| TimeoutWaiting                                 (* "Timeout waiting for ... channel data" *)
| Padding (missing : Z)                          (* "Padding ... channel: ..." *)
| ChannelComplete (c : counters) (received : Z)  (* final data analysis report *)
| NoBlackPixels                                  (* "WARNING: No black pixels (0x00) found in B/W channel!" *)
| ChannelFailed (u : url)                        (* "Failed to download ... channel" *)
| UpdateComplete.                                (* "3-color calendar update complete!" *)

(** One observable action.  [Cmd b] is [EPD_SendCommand(b)] (DC low, then
    the byte shifted out), [Dat b] is [EPD_SendData(b)] (DC high, then the
    byte shifted out).  A byte is a [Z] in [0, 255]. *)
Inductive event : Type :=
| Rst (level : bool)          (* digitalWrite(RST_PIN, level) *)
| Delay (ms : Z)              (* delay(ms) *)
| Cmd (b : Z)
| Dat (b : Z)
| HttpGet (u : url)           (* http.begin(client, u); http.GET() *)
| HttpEnd                     (* http.end() *)
| NetRead (chunk : list Z)    (* stream->readBytes(buffer, n) returned chunk *)
| Serial (d : diag).

(** ** The effect monad: a value together with the events it produced *)

Definition Eff (A : Type) : Type := (A * list event)%type.

Definition value {A : Type} (m : Eff A) : A := fst m.
Definition trace {A : Type} (m : Eff A) : list event := snd m.

Definition ret {A : Type} (a : A) : Eff A := (a, []).

Definition bind {A B : Type} (m : Eff A) (k : A -> Eff B) : Eff B :=
  let r := k (value m) in
  (value r, trace m ++ trace r).

Definition emit (e : event) : Eff unit := (tt, [e]).

Declare Scope eff_scope.
Delimit Scope eff_scope with eff.
Notation "x <- m ;; k" := (bind m (fun x => k))
  (at level 61, m at next level, right associativity) : eff_scope.
Notation "m ;; k" := (bind m (fun _ => k))
  (at level 61, right associativity) : eff_scope.
Local Open Scope eff_scope.

(** ** Projections of a log *)

(** What reaches the panel: the command and data bytes, in order. *)
Definition on_bus (e : event) : bool :=
  match e with Cmd _ | Dat _ => true | _ => false end.

Definition panel (l : list event) : list event := filter on_bus l.

(** The data bytes written to the panel. *)
Fixpoint panel_data (l : list event) : list Z :=
  match l with
  | [] => []
  | Dat b :: l' => b :: panel_data l'
  | _ :: l' => panel_data l'
  end.

(** The command bytes written to the panel. *)
Fixpoint panel_commands (l : list event) : list Z :=
  match l with
  | [] => []
  | Cmd b :: l' => b :: panel_commands l'
  | _ :: l' => panel_commands l'
  end.

(** The bytes taken from the peer. *)
Fixpoint net_bytes (l : list event) : list Z :=
  match l with
  | [] => []
  | NetRead chunk :: l' => chunk ++ net_bytes l'
  | _ :: l' => net_bytes l'
  end.

(** The HTTP requests issued. *)
Fixpoint requests (l : list event) : list url :=
  match l with
  | [] => []
  | HttpGet u :: l' => u :: requests l'
  | _ :: l' => requests l'
  end.

(** ** Counted loops *)

(** [for (long i = lo; i < hi; i++) body(i);] *)
Fixpoint count_up (i : Z) (passes : nat) : list Z :=
  match passes with
  | O => []
  | S passes' => i :: count_up (i + 1) passes'
  end.

Definition range (lo hi : Z) : list Z := count_up lo (Z.to_nat (hi - lo)).

Definition for_range (lo hi : Z) (body : Z -> Eff unit) : Eff unit :=
  fold_right (fun i rest => body i ;; rest) (ret tt) (range lo hi).

(** The final data analysis reports: the counters and the received total
    each one prints. *)
Fixpoint reports (l : list event) : list (counters * Z) :=
  match l with
  | [] => []
  | Serial (ChannelComplete c received) :: l' => (c, received) :: reports l'
  | _ :: l' => reports l'
  end.

(** ** The panel driver (identical in both sketches) *)

Module Driver.

Definition EPD_SendCommand (command : Z) : Eff unit := emit (Cmd command).

Definition EPD_SendData (data : Z) : Eff unit := emit (Dat data).

Definition EPD_Send_1 (c v1 : Z) : Eff unit :=
  EPD_SendCommand c ;;
  EPD_SendData v1.

Definition EPD_Send_2 (c v1 v2 : Z) : Eff unit :=
  EPD_SendCommand c ;;
  EPD_SendData v1 ;;
  EPD_SendData v2.

Definition EPD_Send_3 (c v1 v2 v3 : Z) : Eff unit :=
  EPD_SendCommand c ;;
  EPD_SendData v1 ;;
  EPD_SendData v2 ;;
  EPD_SendData v3.

Definition EPD_Send_4 (c v1 v2 v3 v4 : Z) : Eff unit :=
  EPD_SendCommand c ;;
  EPD_SendData v1 ;;
  EPD_SendData v2 ;;
  EPD_SendData v3 ;;
  EPD_SendData v4.

Definition EPD_Reset : Eff unit :=
  emit (Rst true) ;;
  emit (Delay 50) ;;
  emit (Rst false) ;;
  emit (Delay 5) ;;
  emit (Rst true) ;;
  emit (Delay 50).

(** [EPD_WaitUntilIdle]: [busy] lists the levels that successive
    [digitalRead(BUSY_PIN)] calls return ([true] = HIGH); once the list is
    used up the pin reads LOW.  [timeout] is the local counter.

    while (digitalRead(BUSY_PIN) == HIGH) {
      delay(20); timeout++; if (timeout > 500) return;
    }
    delay(20); *)
Fixpoint wait_busy (busy : list bool) (timeout : Z) : Eff unit :=
  match busy with
  | true :: busy' =>
      emit (Delay 20) ;;
      if timeout + 1 >? 500 then ret tt else wait_busy busy' (timeout + 1)
  | _ => emit (Delay 20)
  end.

Definition EPD_WaitUntilIdle (busy : list bool) : Eff unit := wait_busy busy 0.

Definition EPD_7in5_V1_Init (busy : list bool) : Eff Z :=
  EPD_Reset ;;
  EPD_Send_2 0x01 0x37 0x00 ;;               (* POWER_SETTING *)
  EPD_Send_2 0x00 0xCF 0x08 ;;               (* PANEL_SETTING *)
  EPD_Send_3 0x06 0xC7 0xCC 0x28 ;;          (* BOOSTER_SOFT_START *)
  EPD_SendCommand 0x04 ;;                    (* POWER_ON *)
  EPD_WaitUntilIdle busy ;;
  EPD_Send_1 0x30 0x3C ;;                    (* PLL_CONTROL *)
  EPD_Send_1 0x41 0x00 ;;                    (* TEMPERATURE_CALIBRATION *)
  EPD_Send_1 0x50 0x77 ;;                    (* VCOM_AND_DATA_INTERVAL_SETTING *)
  EPD_Send_1 0x60 0x22 ;;                    (* TCON_SETTING *)
  EPD_Send_4 0x61 0x02 0x80 0x01 0x80 ;;     (* RESOLUTION: 640x384 *)
  EPD_Send_1 0x82 0x1E ;;                    (* VCM_DC_SETTING *)
  EPD_Send_1 0xE5 0x03 ;;                    (* FLASH_MODE *)
  EPD_SendCommand 0x10 ;;                    (* Prepare for B/W data *)
  emit (Delay 2) ;;
  ret 0.

Definition EPD_7IN5_V1_Show : Eff unit :=
  EPD_SendCommand 0x12 ;;                    (* DISPLAY_REFRESH *)
  emit (Delay 100) ;;
  emit (Delay 3000).

End Driver.

(** ** The scheduled calendar firmware *)

Module Calendar.
Import Driver.

(** *** The peer *)

(** What one pass through the streaming loop observes.  The loop makes one
    pass per element of the script. *)
Record poll : Type := mkPoll {
  p_connected : bool;   (* the answer of http.connected() at the top of the pass *)
  p_arrived : list Z;   (* the bytes that reached the socket since the previous pass *)
  p_millis : Z          (* millis() after the delay(10), if this pass reads the clock *)
}.

(** An HTTP exchange as the sketch sees it: the status code returned by
    [http.GET()], the value of [http.getSize()] (the declared
    Content-Length; the library reports a missing header as -1), the value
    [millis()] has when the streaming loop is entered, and the behaviour of
    the peer during the loop.  After the last element of [h_peer] the peer
    has gone: [http.connected()] answers false. *)
Record HTTPClient : Type := mkHTTP {
  h_code : Z;
  h_size : Z;
  h_start : Z;
  h_peer : list poll
}.

(** *** streamChannelToDisplay *)

(** [bytesReceived], the four counters, and the bytes waiting in the
    socket ([stream->available()] is their number). *)
Record session : Type := mkSession {
  bytesReceived : Z;
  tally : counters;
  pending : list Z
}.

Inductive loop_exit : Type :=
| LoopDone    (* the while condition became false *)
| TimedOut.   (* return false from inside the loop *)

(** if (dataByte == 0x00) blackBytes++;
    else if (dataByte == 0x33) whiteBytes++;
    else if (dataByte == 0xCC) redPrepBytes++;
    else otherBytes++; *)
Definition classify (dataByte : Z) (c : counters) : counters :=
  if dataByte =? 0x00 then
    mkCounters (blackBytes c + 1) (whiteBytes c) (redPrepBytes c) (otherBytes c)
  else if dataByte =? 0x33 then
    mkCounters (blackBytes c) (whiteBytes c + 1) (redPrepBytes c) (otherBytes c)
  else if dataByte =? 0xCC then
    mkCounters (blackBytes c) (whiteBytes c) (redPrepBytes c + 1) (otherBytes c)
  else
    mkCounters (blackBytes c) (whiteBytes c) (redPrepBytes c) (otherBytes c + 1).

(** for (size_t i = 0; i < bytesRead; i++) {
      classify buffer[i]; EPD_SendData(buffer[i]);
    } *)
Fixpoint send_buffer (buffer : list Z) (c : counters) : Eff counters :=
  match buffer with
  | [] => ret c
  | dataByte :: rest =>
      let c' := classify dataByte c in
      EPD_SendData dataByte ;;
      send_buffer rest c'
  end.

(** The [while] loop.  [unsigned long] subtraction wraps at 2^32. *)
Fixpoint stream_loop (peer : list poll) (expectedBytes startTime : Z)
    (s : session) : Eff (loop_exit * session) :=
  match peer with
  | [] => ret (LoopDone, s)
  | p :: peer' =>
      let sock := pending s ++ p_arrived p in
      if p_connected p && (bytesReceived s <? expectedBytes)
                       && (bytesReceived s <? TOTAL_BYTES) then
        let availableBytes := Z.of_nat (length sock) in
        if availableBytes >? 0 then
          let maxToRead := Z.min (expectedBytes - bytesReceived s)
                                 (TOTAL_BYTES - bytesReceived s) in
          let bytesToRead := Z.min (Z.min availableBytes maxToRead) 1024 in
          let buffer := firstn (Z.to_nat bytesToRead) sock in
          let bytesRead := Z.of_nat (length buffer) in
          emit (NetRead buffer) ;;
          c <- send_buffer buffer (tally s) ;;
          stream_loop peer' expectedBytes startTime
            (mkSession (bytesReceived s + bytesRead) c
                       (skipn (Z.to_nat bytesToRead) sock))
        else
          emit (Delay 10) ;;
          if (p_millis p - startTime) mod 2 ^ 32 >? 30000 then
            emit (Serial TimeoutWaiting) ;;
            ret (TimedOut, mkSession (bytesReceived s) (tally s) sock)
          else
            stream_loop peer' expectedBytes startTime
              (mkSession (bytesReceived s) (tally s) sock)
      else ret (LoopDone, mkSession (bytesReceived s) (tally s) sock)
  end.

(** The padding block after the loop ([if (bytesReceived < TOTAL_BYTES)]). *)
Definition pad_channel (channelCommand received : Z) (c : counters)
    : Eff counters :=
  if received <? TOTAL_BYTES then
    emit (Serial (Padding (TOTAL_BYTES - received))) ;;
    let paddingValue := if channelCommand =? 0x10 then 0x33 else 0xFF in
    let c' :=
      if channelCommand =? 0x10 then
        mkCounters (blackBytes c) (whiteBytes c + (TOTAL_BYTES - received))
                   (redPrepBytes c) (otherBytes c)
      else c in
    for_range received TOTAL_BYTES (fun _ => EPD_SendData paddingValue) ;;
    ret c'
  else ret c.

Definition streamChannelToDisplay (http : HTTPClient) (channelCommand : Z)
    (expectedBytes : Z) : Eff bool :=
  EPD_SendCommand channelCommand ;;          (* 0x10 for B/W, 0x13 for Red *)
  r <- stream_loop (h_peer http) expectedBytes (h_start http)
         (mkSession 0 (mkCounters 0 0 0 0) []) ;;
  match fst r with
  | TimedOut => ret false
  | LoopDone =>
      let received := bytesReceived (snd r) in
      c <- pad_channel channelCommand received (tally (snd r)) ;;
      emit (Serial (ChannelComplete c received)) ;;
      (if (channelCommand =? 0x10) && (blackBytes c =? 0)
       then emit (Serial NoBlackPixels) else ret tt) ;;
      ret (received >? 0)
  end.

(** *** The two downloads *)

(** [diagnoseSizeIssues] only prints; the channel is named by its endpoint. *)
Definition size_verdict_of (contentLength : Z) : size_verdict :=
  if contentLength =? TOTAL_BYTES / 4 then QuarterSize
  else if contentLength =? TOTAL_BYTES * 2 then DoubleSize
  else if negb (contentLength =? TOTAL_BYTES) then UnexpectedSize
  else PerfectSize.

Definition diagnoseSizeIssues (contentLength : Z) (channel : url) : Eff unit :=
  emit (Serial (SizeDiagnosis channel (size_verdict_of contentLength))).

Definition downloadAndStreamBW (http : HTTPClient) : Eff bool :=
  emit (HttpGet calendar_raw_url) ;;
  let httpCode := h_code http in
  if negb (httpCode =? HTTP_CODE_OK) then
    emit (Serial (RequestFailed calendar_raw_url httpCode)) ;;
    emit HttpEnd ;;
    ret false
  else
    let contentLength := h_size http in
    diagnoseSizeIssues contentLength calendar_raw_url ;;
    success <- streamChannelToDisplay http 0x10 contentLength ;;
    emit HttpEnd ;;
    ret success.

Definition downloadAndStreamRed (http : HTTPClient) : Eff bool :=
  emit (HttpGet calendar_red_url) ;;
  let httpCode := h_code http in
  if negb (httpCode =? HTTP_CODE_OK) then
    emit (Serial (RequestFailed calendar_red_url httpCode)) ;;
    emit (Serial RedNotAvailable) ;;
    EPD_SendCommand 0x13 ;;                  (* Red channel *)
    for_range 0 TOTAL_BYTES (fun _ => EPD_SendData 0xFF) ;;
    emit HttpEnd ;;
    ret true                                 (* Continue even if red channel fails *)
  else
    let contentLength := h_size http in
    diagnoseSizeIssues contentLength calendar_red_url ;;
    success <- streamChannelToDisplay http 0x13 contentLength ;;
    emit HttpEnd ;;
    ret success.

(** *** The update *)

(** The surroundings of one update: whether WiFi is associated, what the
    BUSY pin reads during initialisation, and the two HTTP exchanges. *)
Record world : Type := mkWorld {
  wifi_connected : bool;
  busy_pin : list bool;
  bw_http : HTTPClient;
  red_http : HTTPClient
}.

Definition downloadAndDisplayCalendar (w : world) : Eff bool :=
  if negb (wifi_connected w) then
    emit (Serial NoWiFi) ;;
    ret false
  else
    EPD_7in5_V1_Init (busy_pin w) ;;
    okBW <- downloadAndStreamBW (bw_http w) ;;
    if negb okBW then
      emit (Serial (ChannelFailed calendar_raw_url)) ;;
      ret false
    else
      okRed <- downloadAndStreamRed (red_http w) ;;
      if negb okRed then
        emit (Serial (ChannelFailed calendar_red_url)) ;;
        ret false
      else
        EPD_7IN5_V1_Show ;;
        emit (Serial UpdateComplete) ;;
        ret true.

End Calendar.

(** ** The pattern demo firmware *)

Module Demo.
Import Driver.

Definition COLOR_BLACK : Z := 0.
Definition COLOR_WHITE : Z := 1.
Definition COLOR_RED : Z := 2.

(** The [switch] of phase 1: the B/W channel value of a colour. *)
Definition bwValue (color : Z) : Z :=
  if color =? COLOR_BLACK then 0x00
  else if color =? COLOR_WHITE then 0x33
  else if color =? COLOR_RED then 0xCC
  else 0x33.

(** The [switch] of phase 2: the red channel value of a colour. *)
Definition redValue (color : Z) : Z :=
  if color =? COLOR_BLACK then 0x00
  else if color =? COLOR_WHITE then 0x00
  else if color =? COLOR_RED then 0xFF
  else 0x00.

Definition drawColorPattern (getPixelColor : Z -> Z) : Eff unit :=
  EPD_SendCommand 0x10 ;;                    (* Switch to B/W channel *)
  for_range 0 TOTAL_BYTES
    (fun i => EPD_SendData (bwValue (getPixelColor i))) ;;
  EPD_SendCommand 0x13 ;;                    (* Switch to Red channel *)
  for_range 0 TOTAL_BYTES
    (fun i => EPD_SendData (redValue (getPixelColor i))) ;;
  EPD_7IN5_V1_Show.

(** The pixel function of [drawVictoryBanner] (C division truncates). *)
Definition victoryBanner (pixelIndex : Z) : Z :=
  let y := Z.quot pixelIndex (Z.quot DISPLAY_WIDTH 2) in
  if y <? 80 then COLOR_RED
  else if y <? 120 then COLOR_BLACK
  else if y <? 160 then COLOR_WHITE
  else if y <? 200 then COLOR_BLACK
  else if y <? 240 then COLOR_RED
  else COLOR_WHITE.

Definition drawVictoryBanner (busy : list bool) : Eff unit :=
  EPD_7in5_V1_Init busy ;;
  drawColorPattern victoryBanner.

(** The pixel function of [drawColorStripes]. *)
Definition colorStripes (pixelIndex : Z) : Z :=
  let x := Z.rem pixelIndex (Z.quot DISPLAY_WIDTH 2) * 2 in
  let stripe := Z.quot x 80 in
  let k := Z.rem stripe 3 in
  if k =? 0 then COLOR_BLACK
  else if k =? 1 then COLOR_WHITE
  else if k =? 2 then COLOR_RED
  else COLOR_WHITE.

Definition drawColorStripes (busy : list bool) : Eff unit :=
  EPD_7in5_V1_Init busy ;;
  drawColorPattern colorStripes.

(** The pixel function of [drawRedBorderFrame]. *)
Definition redBorderFrame (pixelIndex : Z) : Z :=
  let y := Z.quot pixelIndex (Z.quot DISPLAY_WIDTH 2) in
  let x := Z.rem pixelIndex (Z.quot DISPLAY_WIDTH 2) * 2 in
  if (x <? 40) || (x >=? DISPLAY_WIDTH - 40)
     || (y <? 40) || (y >=? DISPLAY_HEIGHT - 40) then COLOR_RED
  else if (x >=? 120) && (x <? DISPLAY_WIDTH - 120)
          && (y >=? 120) && (y <? DISPLAY_HEIGHT - 120) then COLOR_BLACK
  else COLOR_WHITE.

Definition drawRedBorderFrame (busy : list bool) : Eff unit :=
  EPD_7in5_V1_Init busy ;;
  drawColorPattern redBorderFrame.

(** The pixel function of [drawCheckerboard]. *)
Definition checkerboard (pixelIndex : Z) : Z :=
  let y := Z.quot pixelIndex (Z.quot DISPLAY_WIDTH 2) in
  let x := Z.rem pixelIndex (Z.quot DISPLAY_WIDTH 2) * 2 in
  let blockX := Z.quot x 60 in
  let blockY := Z.quot y 60 in
  let pattern := Z.rem (blockX + blockY) 3 in
  if pattern =? 0 then COLOR_BLACK
  else if pattern =? 1 then COLOR_WHITE
  else if pattern =? 2 then COLOR_RED
  else COLOR_WHITE.

Definition drawCheckerboard (busy : list bool) : Eff unit :=
  EPD_7in5_V1_Init busy ;;
  drawColorPattern checkerboard.

End Demo.

(** ** The bus transport, wire by wire (identical in both sketches) *)

Module Bus.

(** The output pins of the driver board. *)
Inductive pin : Type := PIN_SPI_SCK | PIN_SPI_DIN | CS_PIN | RST_PIN | DC_PIN.

(** [digitalWrite(p, level)]; [true] is HIGH / GPIO_PIN_SET. *)
Inductive wire : Type := DigitalWrite (p : pin) (level : bool).

(** The body of the loop of [EpdSpiTransferCallback], [passes] times:
    if ((data & 0x80) == 0) DIN low else DIN high; data <<= 1;
    SCK high; SCK low.   [data] is a [byte]: the shift drops bit 7. *)
Fixpoint shift_out (data : Z) (passes : nat) : list wire :=
  match passes with
  | O => []
  | S passes' =>
      DigitalWrite PIN_SPI_DIN (negb (Z.land data 0x80 =? 0))
      :: DigitalWrite PIN_SPI_SCK true
      :: DigitalWrite PIN_SPI_SCK false
      :: shift_out (Z.shiftl data 1 mod 256) passes'
  end.

Definition EpdSpiTransferCallback (data : Z) : list wire :=
  DigitalWrite CS_PIN false :: shift_out data 8 ++ [DigitalWrite CS_PIN true].

Definition EPD_SendCommand (command : Z) : list wire :=
  DigitalWrite DC_PIN false :: EpdSpiTransferCallback command.

Definition EPD_SendData (data : Z) : list wire :=
  DigitalWrite DC_PIN true :: EpdSpiTransferCallback data.

(** [initializeHardware] / the pin set-up of the demo's [setup]: the two
    writes that follow the [pinMode] calls. *)
Definition initializeHardware : list wire :=
  [DigitalWrite CS_PIN true; DigitalWrite PIN_SPI_SCK false].

End Bus.

(** ** The wake schedule of the calendar firmware *)

Module Schedule.

(** const int FIRST_UPDATE_MINUTES = 7 * 60 + 50;   // 7:50am
    const int LAST_UPDATE_MINUTES = 16 * 60 + 50;   // 4:50pm
    const int UPDATE_INTERVAL_MINUTES = 30; *)
Definition FIRST_UPDATE_MINUTES : Z := 7 * 60 + 50.
Definition LAST_UPDATE_MINUTES : Z := 16 * 60 + 50.
Definition UPDATE_INTERVAL_MINUTES : Z := 30.

Definition TOTAL_DAILY_UPDATES : Z :=
  Z.quot (LAST_UPDATE_MINUTES - FIRST_UPDATE_MINUTES) UPDATE_INTERVAL_MINUTES + 1.

(** The values [updateMinutes] takes in
    [for (int updateMinutes = FIRST_UPDATE_MINUTES;
          updateMinutes <= LAST_UPDATE_MINUTES;
          updateMinutes += UPDATE_INTERVAL_MINUTES)].
    The variable grows on every pass, so the loop makes no more than
    LAST - FIRST + 1 passes. *)
Fixpoint slots_from (updateMinutes : Z) (passes : nat) : list Z :=
  match passes with
  | O => []
  | S passes' =>
      if updateMinutes <=? LAST_UPDATE_MINUTES then
        updateMinutes :: slots_from (updateMinutes + UPDATE_INTERVAL_MINUTES) passes'
      else []
  end.

Definition update_slots : list Z :=
  slots_from FIRST_UPDATE_MINUTES
    (Z.to_nat (LAST_UPDATE_MINUTES - FIRST_UPDATE_MINUTES + 1)).

(** The loop returns true at the first slot within 5 minutes. *)
Definition shouldUpdateNow (currentMinutes : Z) : bool :=
  if currentMinutes <? 0 then true     (* If time not set, update anyway *)
  else existsb (fun updateMinutes => Z.abs (currentMinutes - updateMinutes) <=? 5)
               update_slots.

(** The loop returns the first slot after [currentMinutes]; past the last
    one, tomorrow's first. *)
Definition getNextUpdateMinutes (currentMinutes : Z) : Z :=
  match find (fun updateMinutes => updateMinutes >? currentMinutes) update_slots with
  | Some updateMinutes => updateMinutes
  | None => FIRST_UPDATE_MINUTES + 24 * 60
  end.

(** The three globals of time keeping:
    [unsigned long serverTimestamp, localTimeBase; bool timeSet]. *)
Record clock : Type := mkClock {
  timeSet : bool;
  serverTimestamp : Z;
  localTimeBase : Z
}.

(** [millis] is what [millis()] reads; [unsigned long] is 32 bits wide. *)
Definition getCurrentMinutesFromMidnight (t : clock) (millis : Z) : Z :=
  if negb (timeSet t) then -1
  else
    let elapsedMillis := (millis - localTimeBase t) mod 2 ^ 32 in
    let currentTimestamp := (serverTimestamp t + elapsedMillis / 1000) mod 2 ^ 32 in
    let secondsToday := currentTimestamp mod (24 * 60 * 60) in
    let currentHour := secondsToday / 3600 in
    let currentMinute := (secondsToday mod 3600) / 60 in
    currentHour * 60 + currentMinute.

(** The minutes [enterDeepSleepUntilNextUpdate] decides to sleep. *)
Definition sleepMinutes (currentMinutes : Z) : Z :=
  let nextUpdateMinutes := getNextUpdateMinutes currentMinutes in
  let sleepMinutes :=
    if nextUpdateMinutes >? currentMinutes then
      nextUpdateMinutes - currentMinutes
    else
      24 * 60 - currentMinutes + nextUpdateMinutes in
  Z.max 1 (sleepMinutes - 2).

(** [unsigned long sleepMicros = sleepMinutes * 60UL * 1000000UL;] *)
Definition sleepMicros (minutes : Z) : Z :=
  (((minutes mod 2 ^ 32) * 60) mod 2 ^ 32 * 1000000) mod 2 ^ 32.

(** [enterDeepSleepUntilNextUpdate]: the argument it passes to
    [ESP.deepSleep]. *)
Definition enterDeepSleepUntilNextUpdate (t : clock) (millis : Z) : Z :=
  sleepMicros (sleepMinutes (getCurrentMinutesFromMidnight t millis)).

(** An [int] is 32 bits wide; a signed computation whose result does not
    fit has no defined result. *)
Definition as_int (x : Z) : option Z :=
  if (- 2 ^ 31 <=? x) && (x <? 2 ^ 31) then Some x else None.

Definition and_then {A B : Type} (o : option A) (k : A -> option B) : option B :=
  match o with
  | Some a => k a
  | None => None
  end.

(** int daysInMonth[] = {31, 28, 31, 30, 31, 30, 31, 31, 30, 31, 30, 31}; *)
Definition daysInMonth : list Z := [31; 28; 31; 30; 31; 30; 31; 31; 30; 31; 30; 31].

(** for (int m = 1; m < month; m++) days += daysInMonth[m - 1];
    A read past the end of the array has no defined result, so the loop
    has a defined result for no more than 12 passes: [passes] starts at 13
    and is never used up. *)
Fixpoint add_months (m month days : Z) (passes : nat) : option Z :=
  if m <? month then
    match passes with
    | O => None
    | S passes' =>
        match nth_error daysInMonth (Z.to_nat (m - 1)) with
        | Some d =>
            and_then (as_int (days + d)) (fun days =>
            add_months (m + 1) month days passes')
        | None => None
        end
    end
  else Some days.

(** [parseISOTimestamp] after its [sscanf] has read the six numbers: from
    the numbers to the timestamp.  [days] is an [int]; the timestamp is an
    [unsigned long], whose arithmetic wraps at 2^32. *)
Definition timestamp_of_fields (year month day hour minute second : Z) : option Z :=
  and_then (as_int (year - 1970)) (fun years =>
  and_then (as_int (years * 365)) (fun whole =>
  and_then (as_int (whole + Z.quot years 4)) (fun days =>
  and_then (add_months 1 month days 13) (fun days =>
  and_then (as_int (day - 1)) (fun rest =>
  and_then (as_int (days + rest)) (fun days =>
  let timestamp := (((days mod 2 ^ 32 * 24) mod 2 ^ 32 * 60) mod 2 ^ 32 * 60) mod 2 ^ 32 in
  let timestamp := (timestamp + ((hour mod 2 ^ 32 * 60) mod 2 ^ 32 * 60) mod 2 ^ 32) mod 2 ^ 32 in
  let timestamp := (timestamp + (minute mod 2 ^ 32 * 60) mod 2 ^ 32) mod 2 ^ 32 in
  let timestamp := (timestamp + second mod 2 ^ 32) mod 2 ^ 32 in
  Some timestamp)))))).

End Schedule.

(** ** The pattern demo firmware from boot *)

Module DemoRun.
Import Driver Demo.

(** while (Serial.available()) { Serial.read(); }
    [input] lists what the successive calls of [Serial.available()] find
    ([true]: input is waiting).  The result tells whether the loop has
    ended -- a call has found no input -- before the answers are used
    up. *)
Fixpoint drain (input : list bool) : bool :=
  match input with
  | [] => false
  | true :: input' => drain input'
  | false :: _ => true
  end.

(** while (!Serial.available()) { delay(100); }
    followed by the loop above, on the same list of answers.  The function
    returns only when the first loop has found input and the second has
    found none; the result is [false] when the answers are used up before
    that: the function has not returned, and the log is what it did until
    then. *)
Fixpoint waitForKey (input : list bool) : Eff bool :=
  match input with
  | [] => ret false
  | false :: input' => emit (Delay 100) ;; waitForKey input'
  | true :: input' => ret (drain input')
  end.

(** [busy n] is what the BUSY pin reads during the n-th initialisation,
    [input n] what [Serial.available()] answers during the n-th wait.
    The result tells whether the function has returned; it has not when
    one of its waits has not. *)
Definition runVictoryDemo (busy input : nat -> list bool) : Eff bool :=
  drawVictoryBanner (busy 0%nat) ;;
  key <- waitForKey (input 0%nat) ;;
  if negb key then ret false
  else
    drawColorStripes (busy 1%nat) ;;
    key <- waitForKey (input 1%nat) ;;
    if negb key then ret false
    else
      drawRedBorderFrame (busy 2%nat) ;;
      key <- waitForKey (input 2%nat) ;;
      if negb key then ret false
      else
        drawCheckerboard (busy 3%nat) ;;
        ret true.

(** [setup]; its pin writes are [Bus.initializeHardware]. *)
Definition setup (busy input : nat -> list bool) : Eff bool :=
  emit (Delay 2000) ;;
  runVictoryDemo busy input.

End DemoRun.

(** ** The calendar firmware from boot to deep sleep *)

Module System.
Import Calendar Schedule.

(** The serial lines of [setup] and its callees that tell which way the
    control went. *)
Inductive note : Type :=
| WiFiConnected                       (* "WiFi Connected! IP: " *)
| WiFiFailed                          (* "WiFi connection failed!" *)
| NoWiFiForTimeSync                   (* "No WiFi connection for time sync" *)
| StatusRequestFailed (httpCode : Z)  (* "Status request failed, code: " *)
| JsonParsingFailed                   (* "JSON parsing failed: " *)
| NoTimestamp                         (* "No timestamp in status response" *)
| TimeIsSet (timestamp : Z)           (* "Time set - Unix timestamp: " *)
| TimeSynchronized                    (* "Time synchronized with server" *)
| UpdateTime                          (* "It's update time! Updating calendar..." *)
| NotUpdateTime                       (* "Not update time, going to sleep..." *)
| EmergencyUpdate                     (* "Failed to synchronize time, trying emergency update..." *)
| SkippingUpdate                      (* updateCalendar: "No WiFi connection, skipping update" *)
| CalendarUpdated                     (* "Calendar updated successfully!" *)
| CalendarUpdateFailed                (* "Calendar update failed" *)
| EmergencySleep                      (* "Emergency sleep for 30 minutes..." *)
| Sleeping (minutes : Z).             (* "Sleeping for ... minutes until next update at ..." *)

(** What the firmware does between boot and deep sleep. *)
Inductive action : Type :=
| Wait (ms : Z)               (* delay(ms) in setup and connectToWiFi *)
| Pin (w : Bus.wire)          (* digitalWrite in initializeHardware *)
| WiFiBegin                   (* WiFi.begin(ssid, password) *)
| StatusGet                   (* http.begin(client, status_url); http.GET() *)
| StatusEnd                   (* http.end() of the status request *)
| Update (e : event)          (* an action of downloadAndDisplayCalendar *)
| Say (n : note)
| DeepSleep (micros : Z).     (* ESP.deepSleep(micros) *)

(** The body of the status response as [synchronizeTime] sees it. *)
Inductive status_body : Type :=
| Malformed                   (* deserializeJson reports an error *)
| Untimed                     (* no "timestamp" member *)
| Stamped (year month day hour minute second : Z).
                              (* the six numbers sscanf reads from the member *)

(** The surroundings of one wake: the answers of [WiFi.status()] by the
    number of earlier calls ([true] = WL_CONNECTED), the status exchange,
    the three readings of [millis()], and what the update meets. *)
Record board : Type := mkBoard {
  wifi : nat -> bool;
  status_code : Z;
  status_reply : status_body;
  millis_sync : Z;            (* in synchronizeTime *)
  millis_check : Z;           (* in setup, through getCurrentMinutesFromMidnight *)
  millis_sleep : Z;           (* in enterDeepSleepUntilNextUpdate *)
  busy_line : list bool;
  bw_exchange : HTTPClient;
  red_exchange : HTTPClient
}.

(** while (WiFi.status() != WL_CONNECTED && attempts < 20) {
      delay(500); attempts++;
    }
    [reads] counts the calls of [WiFi.status()] so far, [remaining] is
    20 - attempts.  The result is that count after the loop, and the log. *)
Fixpoint connect_loop (status : nat -> bool) (reads remaining : nat)
    : nat * list action :=
  if status reads then (S reads, [])
  else
    match remaining with
    | O => (S reads, [])
    | S remaining' =>
        let r := connect_loop status (S reads) remaining' in
        (fst r, Wait 500 :: snd r)
    end.

Definition connectToWiFi (b : board) : nat * list action :=
  let r := connect_loop (wifi b) 0 20 in
  (S (fst r),
   WiFiBegin
   :: snd r
   ++ [Say (if wifi b (fst r) then WiFiConnected else WiFiFailed)]).

(** [synchronizeTime], called after [reads] calls of [WiFi.status()]: the
    globals it leaves when it returns true ([None] when it returns false),
    and the log.  It has no defined result where [parseISOTimestamp] has
    none. *)
Definition synchronizeTime (b : board) (reads : nat)
    : option (option clock * list action) :=
  if negb (wifi b reads) then Some (None, [Say NoWiFiForTimeSync])
  else if negb (status_code b =? HTTP_CODE_OK) then
    Some (None, [StatusGet; Say (StatusRequestFailed (status_code b)); StatusEnd])
  else
    match status_reply b with
    | Malformed => Some (None, [StatusGet; StatusEnd; Say JsonParsingFailed])
    | Untimed => Some (None, [StatusGet; StatusEnd; Say NoTimestamp])
    | Stamped year month day hour minute second =>
        and_then (timestamp_of_fields year month day hour minute second)
          (fun timestamp =>
             Some (Some (mkClock true timestamp (millis_sync b)),
                   [StatusGet; StatusEnd; Say (TimeIsSet timestamp)]))
    end.

(** [updateCalendar], called after [reads] calls of [WiFi.status()]; it
    makes one call itself and [downloadAndDisplayCalendar] the next. *)
Definition updateCalendar (b : board) (reads : nat) : list action :=
  if negb (wifi b reads) then [Say SkippingUpdate]
  else
    let r := downloadAndDisplayCalendar
               (mkWorld (wifi b (S reads)) (busy_line b)
                        (bw_exchange b) (red_exchange b)) in
    map Update (trace r)
    ++ [Say (if value r then CalendarUpdated else CalendarUpdateFailed)].

(** [setup]: everything from boot to [ESP.deepSleep]. *)
Definition setup (b : board) : option (list action) :=
  let boot := Wait 2000 :: map Pin Bus.initializeHardware in
  let c := connectToWiFi b in
  and_then (synchronizeTime b (fst c)) (fun sync =>
  match fst sync with
  | Some t =>
      let currentMinutes := getCurrentMinutesFromMidnight t (millis_check b) in
      Some (boot ++ snd c ++ snd sync
            ++ Say TimeSynchronized
            :: (if shouldUpdateNow currentMinutes
                then Say UpdateTime :: updateCalendar b (S (fst c))
                else [Say NotUpdateTime])
            ++ [Say (Sleeping (sleepMinutes
                                 (getCurrentMinutesFromMidnight t (millis_sleep b))));
                DeepSleep (enterDeepSleepUntilNextUpdate t (millis_sleep b))])
  | None =>
      Some (boot ++ snd c ++ snd sync
            ++ Say EmergencyUpdate
            :: updateCalendar b (S (fst c))
            ++ [Say EmergencySleep;
                DeepSleep ((30 * 60 * 1000000) mod 2 ^ 32)])
  end).

End System.

(** * Vocabulary of the statements *)

(** Nothing below is part of the firmware: these are the notions in which
    its behaviour is stated, and the concrete surroundings on which the
    statements are tried. *)

Import Driver Calendar.

(** ** Counters and bytes *)

(** The sum the diagnostic report is expected to account for. *)
Definition sum_counters (c : counters) : Z :=
  blackBytes c + whiteBytes c + redPrepBytes c + otherBytes c.

(** The counters after a run of bytes has gone through the classifier. *)
Definition count_bytes (bytes : list Z) (c : counters) : counters :=
  fold_left (fun acc b => classify b acc) bytes c.

(** All four counters at zero, as at the start of a transfer. *)
Definition no_counts : counters := mkCounters 0 0 0 0.

(** Everything the peer delivers over a whole script. *)
Definition peer_bytes (peer : list poll) : list Z := concat (map p_arrived peer).

(** The padding byte of a channel. *)
Definition padding_of (channelCommand : Z) : Z :=
  if channelCommand =? 0x10 then 0x33 else 0xFF.

(** The counters after the padding block. *)
Definition padded_tally (channelCommand received : Z) (c : counters) : counters :=
  if (received <? TOTAL_BYTES) && (channelCommand =? 0x10) then
    mkCounters (blackBytes c) (whiteBytes c + (TOTAL_BYTES - received))
               (redPrepBytes c) (otherBytes c)
  else c.

(** ** One transfer *)

(** Time since the loop was entered, as the sketch computes it. *)
Definition elapsed (startTime : Z) (p : poll) : Z :=
  (p_millis p - startTime) mod 2 ^ 32.

(** The state of the locals on entry to the loop. *)
Definition session0 : session := mkSession 0 (mkCounters 0 0 0 0) [].

(** How the loop of a given exchange ends, and with which locals. *)
Definition stream_exit (http : HTTPClient) (expectedBytes : Z) : loop_exit :=
  fst (value (stream_loop (h_peer http) expectedBytes (h_start http) session0)).

Definition stream_final (http : HTTPClient) (expectedBytes : Z) : session :=
  snd (value (stream_loop (h_peer http) expectedBytes (h_start http) session0)).

(** The bytes the loop of an exchange took from the peer. *)
Definition stream_received (http : HTTPClient) (expectedBytes : Z) : list Z :=
  net_bytes (trace (stream_loop (h_peer http) expectedBytes (h_start http) session0)).

(** ** One pass of the loop *)

Section Pass.

Variable expectedBytes : Z.

(** The [while] condition at a pass. *)
Definition running (s : session) (p : poll) : bool :=
  p_connected p && (bytesReceived s <? expectedBytes)
                && (bytesReceived s <? TOTAL_BYTES).

(** The socket contents at a pass, the size of the read and the bytes read. *)
Definition sock_at (s : session) (p : poll) : list Z := pending s ++ p_arrived p.

Definition to_read (s : session) (p : poll) : Z :=
  Z.min (Z.min (Z.of_nat (length (sock_at s p)))
               (Z.min (expectedBytes - bytesReceived s)
                      (TOTAL_BYTES - bytesReceived s))) 1024.

Definition chunk (s : session) (p : poll) : list Z :=
  firstn (Z.to_nat (to_read s p)) (sock_at s p).

(** The locals after a pass that reads, and after a pass that waits. *)
Definition after_read (s : session) (p : poll) : session :=
  mkSession (bytesReceived s + Z.of_nat (length (chunk s p)))
            (count_bytes (chunk s p) (tally s))
            (skipn (Z.to_nat (to_read s p)) (sock_at s p)).

Definition after_wait (s : session) (p : poll) : session :=
  mkSession (bytesReceived s) (tally s) (sock_at s p).

End Pass.

(** ** Initialisation on the bus *)

(** The bus traffic of the register set-up that precedes power-on ... *)
Definition init_before_wait : list event :=
  [ Rst true; Delay 50; Rst false; Delay 5; Rst true; Delay 50;
    Cmd 0x01; Dat 0x37; Dat 0x00;
    Cmd 0x00; Dat 0xCF; Dat 0x08;
    Cmd 0x06; Dat 0xC7; Dat 0xCC; Dat 0x28;
    Cmd 0x04 ].

(** ... and of the part that follows the wait for idle. *)
Definition init_after_wait : list event :=
  [ Cmd 0x30; Dat 0x3C;
    Cmd 0x41; Dat 0x00;
    Cmd 0x50; Dat 0x77;
    Cmd 0x60; Dat 0x22;
    Cmd 0x61; Dat 0x02; Dat 0x80; Dat 0x01; Dat 0x80;
    Cmd 0x82; Dat 0x1E;
    Cmd 0xE5; Dat 0x03;
    Cmd 0x10; Delay 2 ].

(** What initialisation puts on the bus does not depend on the BUSY pin. *)
Definition init_panel : list event :=
  panel (init_before_wait ++ init_after_wait).

(** The command bytes of initialisation, in order. *)
Definition init_commands : list Z :=
  [0x01; 0x00; 0x06; 0x04; 0x30; 0x41; 0x50; 0x60; 0x61; 0x82; 0xE5; 0x10].

(** ** The limit of the specification *)

(** The limit as the specification words it:
    [min(declaredLength if present and positive else targetLength, targetLength)].
    A missing declaration is the library's -1. *)
Definition spec_effectiveLimit (declaredLength : Z) : Z :=
  Z.min (if 0 <? declaredLength then declaredLength else TOTAL_BYTES) TOTAL_BYTES.

(** ** Peers *)


(** [passes] quiet passes, 10 ms apart, the clock counted from 0. *)
Definition silent_for (passes : Z) : list poll :=
  map (fun k => mkPoll true [] (10 * k)) (range 1 (passes + 1)).

(** A peer that stays connected and sends nothing: one pass every 10 ms,
    the last one 30010 ms after the loop was entered. *)
Definition silent_peer : list poll := silent_for 3001.

(** ** The order of the phases on the bus *)

(** The bus traffic of an update, by how far the update got.  [ini] is what
    initialisation wrote; the flag tells whether the refresh was reached. *)
Inductive phased (ini : list event) : bool -> list event -> Prop :=
| ph_skipped : phased ini false []
| ph_initialised : phased ini false ini
| ph_bw_partial (d : list Z) :
    Z.of_nat (length d) <= TOTAL_BYTES ->
    phased ini false (ini ++ Cmd 0x10 :: map Dat d)
| ph_red_partial (bw d : list Z) :
    Z.of_nat (length bw) = TOTAL_BYTES ->
    Z.of_nat (length d) <= TOTAL_BYTES ->
    phased ini false (ini ++ Cmd 0x10 :: map Dat bw ++ Cmd 0x13 :: map Dat d)
| ph_refreshed (bw red : list Z) :
    Z.of_nat (length bw) = TOTAL_BYTES ->
    Z.of_nat (length red) = TOTAL_BYTES ->
    phased ini true
      (ini ++ Cmd 0x10 :: map Dat bw ++ Cmd 0x13 :: map Dat red ++ [Cmd 0x12]).

(** Wherever the red prepare command 0x13 stands in the bus traffic, what
    precedes it is the initialisation, the black/white prepare command and
    the TOTAL_BYTES data bytes of the black/white channel; no black/white
    prepare command follows it. *)
Definition red_follows_full_bw (ini l : list event) : Prop :=
  forall pre post, l = pre ++ Cmd 0x13 :: post ->
    (exists bw, pre = ini ++ Cmd 0x10 :: map Dat bw
                /\ Z.of_nat (length bw) = TOTAL_BYTES)
    /\ ~ In (Cmd 0x10) post.

(** Wherever the refresh command 0x12 stands in the bus traffic, it is the
    last thing written, and what precedes it is the initialisation and the
    two channels, each with its TOTAL_BYTES data bytes. *)
Definition refresh_follows_both (ini l : list event) : Prop :=
  forall pre post, l = pre ++ Cmd 0x12 :: post ->
    post = []
    /\ exists bw red,
         pre = ini ++ Cmd 0x10 :: map Dat bw ++ Cmd 0x13 :: map Dat red
         /\ Z.of_nat (length bw) = TOTAL_BYTES
         /\ Z.of_nat (length red) = TOTAL_BYTES.

(** The four demos of the pattern firmware. *)
Definition demos : list (list bool -> Eff unit) :=
  [ Demo.drawVictoryBanner; Demo.drawColorStripes;
    Demo.drawRedBorderFrame; Demo.drawCheckerboard ].

(** ** Concrete surroundings *)

(** The black/white request is answered 404. *)
Definition world_bw_404 : world :=
  mkWorld true [true; false]
    (mkHTTP 404 (-1) 0 [])
    (mkHTTP 200 3 0 [mkPoll true [0x00; 0x00; 0xFF] 10]).

(** Four black/white bytes arrive, then the red request is answered 404. *)
Definition world_red_404 : world :=
  mkWorld true [true; false]
    (mkHTTP 200 4 0 [mkPoll true [0x00; 0x33; 0xCC; 0x00] 10])
    (mkHTTP 404 (-1) 0 []).

(** Four black/white bytes arrive; the red request is answered 200 and the
    peer then stays silent. *)
Definition world_red_silent : world :=
  mkWorld true [true; false]
    (mkHTTP 200 4 0 [mkPoll true [0x00; 0x33; 0xCC; 0x00] 10])
    (mkHTTP 200 TOTAL_BYTES 0 silent_peer).

(** The server answers 200 with an empty body (Content-Length 0). *)
Definition world_bw_empty : world :=
  mkWorld true [true; false]
    (mkHTTP 200 0 0 [mkPoll true [] 10])
    (mkHTTP 200 TOTAL_BYTES 0 [mkPoll true [0x00; 0xFF] 10]).

(** The peer delivers two bytes at once and then stays silent. *)
Definition http_stalled : HTTPClient :=
  mkHTTP 200 TOTAL_BYTES 0 (mkPoll true [0x00; 0x33] 5 :: silent_peer).

(** A peer that delivers three bytes too many in one burst. *)
Definition http_three : HTTPClient :=
  mkHTTP 200 3 0 [mkPoll true [0x00; 0x33; 0xCC; 0x11; 0x22; 0x44] 10].

(** No Content-Length (the library reports -1), three bytes ready, then the
    peer closes; and the same with Content-Length: 0. *)
Definition http_undeclared : HTTPClient :=
  mkHTTP 200 (-1) 0 [mkPoll true [0x00; 0x33; 0xCC] 10; mkPoll false [] 20].

Definition http_declared_zero : HTTPClient :=
  mkHTTP 200 0 0 [mkPoll true [0x00; 0x33; 0xCC] 10; mkPoll false [] 20].

(** A red bitplane of three bytes, declared as such. *)
Definition http_short_red : HTTPClient :=
  mkHTTP 200 3 0 [mkPoll true [0x00; 0x00; 0xFF] 10].







(** ** The wires as the panel reads them *)

(** What every event of the log is on the wires. *)
Definition wires_of (e : event) : list Bus.wire :=
  match e with
  | Cmd b => Bus.EPD_SendCommand b
  | Dat b => Bus.EPD_SendData b
  | Rst level => [Bus.DigitalWrite Bus.RST_PIN level]
  | _ => []
  end.

(** A receiver on the wires: it takes the level of DIN at every rising
    edge of SCK while CS is low, and when CS rises after eight bits it
    delivers the byte, as a command if DC is low and as data if DC is
    high. *)
Record receiver : Type := mkReceiver {
  rx_cs : bool;
  rx_sck : bool;
  rx_dc : bool;
  rx_din : bool;
  rx_bits : list bool          (* most significant bit first *)
}.

Definition byte_of_bits (bits : list bool) : Z :=
  fold_left (fun acc (b : bool) => 2 * acc + (if b then 1 else 0)) bits 0.

Definition receive (r : receiver) (w : Bus.wire) : receiver * list event :=
  match w with
  | Bus.DigitalWrite Bus.PIN_SPI_DIN level =>
      (mkReceiver (rx_cs r) (rx_sck r) (rx_dc r) level (rx_bits r), [])
  | Bus.DigitalWrite Bus.DC_PIN level =>
      (mkReceiver (rx_cs r) (rx_sck r) level (rx_din r) (rx_bits r), [])
  | Bus.DigitalWrite Bus.PIN_SPI_SCK level =>
      (mkReceiver (rx_cs r) level (rx_dc r) (rx_din r)
         (if level && negb (rx_sck r) && negb (rx_cs r)
          then rx_bits r ++ [rx_din r] else rx_bits r), [])
  | Bus.DigitalWrite Bus.CS_PIN level =>
      (mkReceiver level (rx_sck r) (rx_dc r) (rx_din r) [],
       if level && negb (rx_cs r) && (length (rx_bits r) =? 8)%nat
       then [if rx_dc r then Dat (byte_of_bits (rx_bits r))
             else Cmd (byte_of_bits (rx_bits r))]
       else [])
  | Bus.DigitalWrite Bus.RST_PIN _ => (r, [])
  end.

Fixpoint receive_all (r : receiver) (ws : list Bus.wire) : receiver * list event :=
  match ws with
  | [] => (r, [])
  | w :: ws' =>
      let (r1, out1) := receive r w in
      let (r2, out2) := receive_all r1 ws' in
      (r2, out1 ++ out2)
  end.

(** The bus at rest: CS high, SCK low, no bit pending. *)
Definition at_rest (r : receiver) : Prop :=
  rx_cs r = true /\ rx_sck r = false /\ rx_bits r = [].

(** The bytes a log puts on the bus are bytes. *)
Definition byte_sized (e : event) : Prop :=
  match e with
  | Cmd b | Dat b => 0 <= b < 256
  | _ => True
  end.

(** One transaction, checked on a receiver at rest with any levels left on
    DC and DIN: the receiver delivers the byte and is at rest again. *)
Definition transaction_ok (command : bool) (dc din : bool) (b : Z) : bool :=
  let ws := if command then Bus.EPD_SendCommand b else Bus.EPD_SendData b in
  match receive_all (mkReceiver true false dc din []) ws with
  | (r, [Cmd v]) =>
      command && (v =? b) && rx_cs r && negb (rx_sck r)
      && (length (rx_bits r) =? 0)%nat
  | (r, [Dat v]) =>
      negb command && (v =? b) && rx_cs r && negb (rx_sck r)
      && (length (rx_bits r) =? 0)%nat
  | _ => false
  end.

(** ** The wake schedule *)

(** The seconds into the day that a date's time fields stand for. *)
Definition seconds_of_day (hour minute second : Z) : Z :=
  hour * 3600 + minute * 60 + second.

(** ** Waiting *)

(** How many reads of the BUSY pin find it high before the first low one. *)
Fixpoint leading_high (busy : list bool) : nat :=
  match busy with
  | true :: busy' => S (leading_high busy')
  | _ => O
  end.

(** The milliseconds a log spends in [delay]. *)
Fixpoint total_delay (l : list event) : Z :=
  match l with
  | [] => 0
  | Delay ms :: l' => ms + total_delay l'
  | _ :: l' => total_delay l'
  end.

(** ** The use of the network *)

(** The connection as a log implies it: [open] is the request that is open,
    if any.  A step has no result where the log opens a request while one
    is open, ends one while none is open, reads while none is open, or
    reads no byte or more than 1024 bytes at once. *)
Definition net_step (open : option url) (e : event) : option (option url) :=
  match e, open with
  | HttpGet u, None => Some (Some u)
  | HttpGet _, Some _ => None
  | HttpEnd, Some _ => Some None
  | HttpEnd, None => None
  | NetRead chunk, Some _ =>
      if (1 <=? Z.of_nat (length chunk)) && (Z.of_nat (length chunk) <=? 1024)
      then Some open else None
  | NetRead _, None => None
  | _, _ => Some open
  end.

Fixpoint net_run (open : option url) (l : list event) : option (option url) :=
  match l with
  | [] => Some open
  | e :: l' =>
      match net_step open e with
      | Some open' => net_run open' l'
      | None => None
      end
  end.

(** The events that do not touch the network. *)
Definition off_net (e : event) : bool :=
  match e with
  | HttpGet _ | HttpEnd | NetRead _ => false
  | _ => true
  end.

(** ** Counting bytes *)

(** How often a byte value occurs among some bytes, and how many of the
    bytes are none of 0x00, 0x33 and 0xCC. *)
Definition occurrences (b : Z) (bytes : list Z) : Z :=
  Z.of_nat (count_occ Z.eq_dec bytes b).

Definition unclassified (bytes : list Z) : Z :=
  Z.of_nat (length (filter (fun b => negb ((b =? 0x00) || (b =? 0x33) || (b =? 0xCC)))
                           bytes)).

(** What the streaming loop itself logs. *)
Definition loop_event (e : event) : bool :=
  match e with
  | NetRead _ | Dat _ | Delay _ | Serial TimeoutWaiting => true
  | _ => false
  end.

(** ** The demo *)

(** The pixel functions of the four demos, in the order they are drawn. *)
Definition demo_patterns : list (Z -> Z) :=
  [ Demo.victoryBanner; Demo.colorStripes; Demo.redBorderFrame; Demo.checkerboard ].

(** A key press as [waitForKey] needs it: [idle] calls that find no input,
    then input that is waiting for [waiting] + 1 calls, then a call that
    finds the input read. *)
Definition key_press (idle waiting : nat) (after : list bool) : list bool :=
  repeat false idle ++ true :: repeat true waiting ++ false :: after.

(** How many of the four demos are drawn: each one after the first needs
    the wait before it to return. *)
Definition demos_drawn (input : nat -> list bool) : nat :=
  if value (DemoRun.waitForKey (input 0%nat)) then
    if value (DemoRun.waitForKey (input 1%nat)) then
      if value (DemoRun.waitForKey (input 2%nat)) then 4 else 3
    else 2
  else 1.


(** ** One wake of the calendar firmware *)

(** The log of the update inside the log of a wake, and the deep sleeps
    asked for. *)
Fixpoint updates (l : list System.action) : list event :=
  match l with
  | [] => []
  | System.Update e :: l' => e :: updates l'
  | _ :: l' => updates l'
  end.

Fixpoint sleeps (l : list System.action) : list Z :=
  match l with
  | [] => []
  | System.DeepSleep micros :: l' => micros :: sleeps l'
  | _ :: l' => sleeps l'
  end.

(** What [synchronizeTime] leaves behind in a wake: [Some None] when it
    returns false, [Some (Some t)] when it returns true with the globals
    [t]. *)
Definition synchronized (b : System.board) : option (option Schedule.clock) :=
  option_map fst (System.synchronizeTime b (fst (System.connectToWiFi b))).

(** The update windows in closed form. *)
Definition in_window (currentMinutes : Z) : bool :=
  (465 <=? currentMinutes) && (currentMinutes <=? 1015)
  && ((currentMinutes - 465) mod 30 <=? 10).

(** Whether a wake gets as far as [updateCalendar]. *)
Definition attempted (b : System.board) : bool :=
  match synchronized b with
  | Some (Some t) =>
      in_window (Schedule.getCurrentMinutesFromMidnight t (System.millis_check b))
  | _ => true
  end.

(** What [WiFi.status()] answers to [updateCalendar], and the surroundings
    [downloadAndDisplayCalendar] then meets. *)
Definition wifi_at_update (b : System.board) : bool :=
  System.wifi b (S (fst (System.connectToWiFi b))).

Definition update_world (b : System.board) : world :=
  mkWorld (System.wifi b (S (S (fst (System.connectToWiFi b)))))
          (System.busy_line b) (System.bw_exchange b) (System.red_exchange b).

(** A board on which WiFi never associates. *)
Definition offline (b : System.board) : Prop := forall n, System.wifi b n = false.

Definition board_offline : System.board :=
  System.mkBoard (fun _ => false) 200 (System.Stamped 2025 6 4 13 28 26) 0 0 0
    [] (mkHTTP 200 TOTAL_BYTES 0 []) (mkHTTP 200 TOTAL_BYTES 0 []).

(** A board that is online at 7:50:30, one minute after boot; both
    bitplane requests are answered 404. *)
Definition board_morning : System.board :=
  System.mkBoard (fun _ => true) 200 (System.Stamped 2025 6 4 7 50 30) 60000 60500 61000
    [true; false] (mkHTTP 404 (-1) 0 []) (mkHTTP 404 (-1) 0 []).

(** ** From one wake to the next *)

(** The second of the day that the firmware works from at a reading of
    [millis()]. *)
Definition seconds_today (t : Schedule.clock) (millis : Z) : Z :=
  ((Schedule.serverTimestamp t
    + ((millis - Schedule.localTimeBase t) mod 2 ^ 32) / 1000) mod 2 ^ 32)
  mod (24 * 60 * 60).

(** The wake [b'] follows the wake [b]: the time it checks is the time at
    which [b] decided its sleep, plus the sleep that [b] asked for, plus
    [delay] seconds; all on the same day. *)
Definition wakes_after (b b' : System.board) (t t' : Schedule.clock) (delay : Z)
    : Prop :=
  seconds_today t' (System.millis_check b')
  = seconds_today t (System.millis_sleep b)
    + Schedule.enterDeepSleepUntilNextUpdate t (System.millis_sleep b) / 1000000
    + delay.

(** A wake at 8:18:45, inside the window of the 8:20 slot, that decides
    its sleep 25 s later, at 8:19:10; and the wake that checks the time
    5 s after that sleep has ended, at 8:20:15. *)
Definition board_before_slot : System.board :=
  System.mkBoard (fun _ => true) 200 (System.Stamped 2025 6 4 8 18 45) 60000 60500 85000
    [true; false] (mkHTTP 404 (-1) 0 []) (mkHTTP 404 (-1) 0 []).

Definition board_at_slot : System.board :=
  System.mkBoard (fun _ => true) 200 (System.Stamped 2025 6 4 8 20 14) 3000 4000 5000
    [true; false] (mkHTTP 404 (-1) 0 []) (mkHTTP 404 (-1) 0 []).

(** * Properties *)

(** ** The log of a sequence *)

Lemma trace_bind {A B : Type} (m : Eff A) (k : A -> Eff B) :
  trace (bind m k) = trace m ++ trace (k (value m)).
Proof. reflexivity. Qed.

Lemma value_bind {A B : Type} (m : Eff A) (k : A -> Eff B) :
  value (bind m k) = value (k (value m)).
Proof. reflexivity. Qed.

Lemma panel_app (l1 l2 : list event) :
  panel (l1 ++ l2) = panel l1 ++ panel l2.
Proof. apply filter_app. Qed.

Lemma panel_cons_off (e : event) (l : list event) :
  on_bus e = false -> panel (e :: l) = panel l.
Proof. intros H. unfold panel. cbn [filter]. now rewrite H. Qed.

Lemma panel_data_app (l1 l2 : list event) :
  panel_data (l1 ++ l2) = panel_data l1 ++ panel_data l2.
Proof.
  induction l1 as [|e l1 IH]; simpl; [reflexivity|].
  destruct e; simpl; rewrite IH; reflexivity.
Qed.

Lemma panel_commands_app (l1 l2 : list event) :
  panel_commands (l1 ++ l2) = panel_commands l1 ++ panel_commands l2.
Proof.
  induction l1 as [|e l1 IH]; simpl; [reflexivity|].
  destruct e; simpl; rewrite IH; reflexivity.
Qed.

Lemma net_bytes_app (l1 l2 : list event) :
  net_bytes (l1 ++ l2) = net_bytes l1 ++ net_bytes l2.
Proof.
  induction l1 as [|e l1 IH]; simpl; [reflexivity|].
  destruct e; simpl; rewrite IH; try reflexivity.
  now rewrite app_assoc.
Qed.

Lemma requests_app (l1 l2 : list event) :
  requests (l1 ++ l2) = requests l1 ++ requests l2.
Proof.
  induction l1 as [|e l1 IH]; simpl; [reflexivity|].
  destruct e; simpl; rewrite IH; reflexivity.
Qed.

Lemma reports_app (l1 l2 : list event) :
  reports (l1 ++ l2) = reports l1 ++ reports l2.
Proof.
  induction l1 as [|e l1 IH]; simpl; [reflexivity|].
  destruct e as [| | | | | | |d]; simpl; try exact IH.
  destruct d; simpl; rewrite IH; reflexivity.
Qed.

(** Data bytes alone: every projection is what one expects. *)
Lemma panel_map_Dat (l : list Z) : panel (map Dat l) = map Dat l.
Proof.
  unfold panel. induction l as [|b l IH]; simpl; [|rewrite IH]; reflexivity.
Qed.

Lemma panel_data_map_Dat (l : list Z) : panel_data (map Dat l) = l.
Proof. induction l as [|b l IH]; simpl; [|rewrite IH]; reflexivity. Qed.

Lemma panel_commands_map_Dat (l : list Z) : panel_commands (map Dat l) = [].
Proof. induction l as [|b l IH]; simpl; [reflexivity|exact IH]. Qed.

Lemma net_bytes_map_Dat (l : list Z) : net_bytes (map Dat l) = [].
Proof. induction l as [|b l IH]; simpl; [reflexivity|exact IH]. Qed.

Lemma requests_map_Dat (l : list Z) : requests (map Dat l) = [].
Proof. induction l as [|b l IH]; simpl; [reflexivity|exact IH]. Qed.

Lemma reports_map_Dat (l : list Z) : reports (map Dat l) = [].
Proof. induction l as [|b l IH]; simpl; [reflexivity|exact IH]. Qed.

Lemma map_Dat_repeat (v : Z) (n : nat) : map Dat (repeat v n) = repeat (Dat v) n.
Proof. induction n as [|n IH]; simpl; [|rewrite IH]; reflexivity. Qed.

Lemma not_Cmd_in_map_Dat (c : Z) (l : list Z) : ~ In (Cmd c) (map Dat l).
Proof. rewrite in_map_iff. intros (b & Hb & _). discriminate. Qed.

(** ** Counted loops *)

Lemma count_up_length (i : Z) (n : nat) : length (count_up i n) = n.
Proof. revert i. induction n as [|n IH]; intros i; simpl; [|rewrite IH]; reflexivity. Qed.

Lemma range_length (lo hi : Z) : length (range lo hi) = Z.to_nat (hi - lo).
Proof. apply count_up_length. Qed.

Lemma for_range_trace (lo hi : Z) (f : Z -> Z) :
  trace (for_range lo hi (fun i => Driver.EPD_SendData (f i)))
  = map Dat (map f (range lo hi)).
Proof.
  unfold for_range. induction (range lo hi) as [|i l IH]; [reflexivity|].
  cbn [fold_right map]. rewrite trace_bind, IH. reflexivity.
Qed.

Lemma map_const_repeat {A B : Type} (v : B) (l : list A) :
  map (fun _ => v) l = repeat v (length l).
Proof. induction l as [|a l IH]; simpl; [|rewrite IH]; reflexivity. Qed.

(** A loop that sends the same byte on every pass. *)
Lemma for_range_fill (lo hi v : Z) :
  trace (for_range lo hi (fun _ => Driver.EPD_SendData v))
  = map Dat (repeat v (Z.to_nat (hi - lo))).
Proof.
  rewrite (for_range_trace lo hi (fun _ => v)), map_const_repeat, range_length.
  reflexivity.
Qed.

Lemma TOTAL_BYTES_pos : 0 < TOTAL_BYTES.
Proof. reflexivity. Qed.

Lemma TOTAL_BYTES_geometry : TOTAL_BYTES = DISPLAY_WIDTH * DISPLAY_HEIGHT / 2.
Proof. reflexivity. Qed.

(** ** The streaming loop *)

Lemma classify_sum (b : Z) (c : counters) :
  sum_counters (classify b c) = sum_counters c + 1.
Proof.
  unfold classify, sum_counters.
  destruct (b =? 0); [simpl; lia|].
  destruct (b =? 51); [simpl; lia|].
  destruct (b =? 204); simpl; lia.
Qed.

Lemma count_bytes_sum (bytes : list Z) (c : counters) :
  sum_counters (count_bytes bytes c) = sum_counters c + Z.of_nat (length bytes).
Proof.
  revert c. induction bytes as [|b bytes IH]; intros c.
  - simpl. lia.
  - cbn [count_bytes fold_left length]. fold (count_bytes bytes (classify b c)).
    rewrite IH, classify_sum. lia.
Qed.

Lemma count_bytes_app (l1 l2 : list Z) (c : counters) :
  count_bytes (l1 ++ l2) c = count_bytes l2 (count_bytes l1 c).
Proof. apply fold_left_app. Qed.

Lemma send_buffer_trace (buffer : list Z) (c : counters) :
  trace (send_buffer buffer c) = map Dat buffer.
Proof.
  revert c. induction buffer as [|b buffer IH]; intros c; [reflexivity|].
  cbn [send_buffer]. rewrite trace_bind, IH. reflexivity.
Qed.

Lemma send_buffer_value (buffer : list Z) (c : counters) :
  value (send_buffer buffer c) = count_bytes buffer c.
Proof.
  revert c. induction buffer as [|b buffer IH]; intros c; [reflexivity|].
  cbn [send_buffer]. rewrite value_bind, IH. reflexivity.
Qed.

Section Loop.

Variables expectedBytes startTime : Z.

(** *** The equations of the loop *)

Lemma stream_loop_nil (s : session) :
  stream_loop [] expectedBytes startTime s = ret (LoopDone, s).
Proof. reflexivity. Qed.

Lemma stream_loop_stop (p : poll) (peer : list poll) (s : session) :
  running expectedBytes s p = false ->
  stream_loop (p :: peer) expectedBytes startTime s
  = ret (LoopDone, after_wait s p).
Proof.
  intros H. cbn [stream_loop]. unfold running in H. rewrite H. reflexivity.
Qed.

Lemma stream_loop_read (p : poll) (peer : list poll) (s : session) :
  running expectedBytes s p = true ->
  sock_at s p <> [] ->
  stream_loop (p :: peer) expectedBytes startTime s
  = (value (stream_loop peer expectedBytes startTime
              (after_read expectedBytes s p)),
     NetRead (chunk expectedBytes s p) :: map Dat (chunk expectedBytes s p)
       ++ trace (stream_loop peer expectedBytes startTime
                   (after_read expectedBytes s p))).
Proof.
  intros H Hs. cbn [stream_loop]. unfold running in H. rewrite H.
  fold (sock_at s p).
  assert (Ha : (Z.of_nat (length (sock_at s p)) >? 0) = true).
  { apply Z.gtb_lt. destruct (sock_at s p); [congruence|]. cbn [length]. lia. }
  rewrite Ha. cbv zeta.
  fold (to_read expectedBytes s p). fold (chunk expectedBytes s p).
  unfold bind. cbn [value trace fst snd emit app].
  change (snd (send_buffer (chunk expectedBytes s p) (tally s)))
    with (trace (send_buffer (chunk expectedBytes s p) (tally s))).
  change (fst (send_buffer (chunk expectedBytes s p) (tally s)))
    with (value (send_buffer (chunk expectedBytes s p) (tally s))).
  rewrite send_buffer_trace, send_buffer_value.
  reflexivity.
Qed.

Lemma stream_loop_timeout (p : poll) (peer : list poll) (s : session) :
  running expectedBytes s p = true ->
  sock_at s p = [] ->
  30000 < elapsed startTime p ->
  stream_loop (p :: peer) expectedBytes startTime s
  = ((TimedOut, after_wait s p), [Delay 10; Serial TimeoutWaiting]).
Proof.
  intros H Hs Ht. cbn [stream_loop]. unfold running in H. rewrite H.
  fold (sock_at s p). rewrite Hs. cbn [length Z.of_nat Z.gtb Z.compare].
  apply Z.gtb_lt in Ht. unfold elapsed in Ht. rewrite Ht.
  unfold after_wait. rewrite Hs. reflexivity.
Qed.

Lemma stream_loop_wait (p : poll) (peer : list poll) (s : session) :
  running expectedBytes s p = true ->
  sock_at s p = [] ->
  elapsed startTime p <= 30000 ->
  stream_loop (p :: peer) expectedBytes startTime s
  = (value (stream_loop peer expectedBytes startTime (after_wait s p)),
     Delay 10 :: trace (stream_loop peer expectedBytes startTime (after_wait s p))).
Proof.
  intros H Hs Ht. cbn [stream_loop]. unfold running in H. rewrite H.
  fold (sock_at s p). rewrite Hs. cbn [length Z.of_nat Z.gtb Z.compare].
  assert (Hb : (elapsed startTime p >? 30000) = false).
  { rewrite Z.gtb_ltb. apply Z.ltb_ge. exact Ht. }
  unfold elapsed in Hb. rewrite Hb.
  unfold after_wait. rewrite Hs. reflexivity.
Qed.

(** *** Induction along the passes of the loop *)

Lemma stream_loop_cases (P : session -> list poll -> Eff (loop_exit * session) -> Prop) :
  (forall s, P s [] (ret (LoopDone, s))) ->
  (forall s p peer, running expectedBytes s p = false ->
     P s (p :: peer) (ret (LoopDone, after_wait s p))) ->
  (forall s p peer, running expectedBytes s p = true -> sock_at s p <> [] ->
     P (after_read expectedBytes s p) peer
       (stream_loop peer expectedBytes startTime (after_read expectedBytes s p)) ->
     P s (p :: peer)
       (value (stream_loop peer expectedBytes startTime
                 (after_read expectedBytes s p)),
        NetRead (chunk expectedBytes s p) :: map Dat (chunk expectedBytes s p)
          ++ trace (stream_loop peer expectedBytes startTime
                      (after_read expectedBytes s p)))) ->
  (forall s p peer, running expectedBytes s p = true -> sock_at s p = [] ->
     30000 < elapsed startTime p ->
     P s (p :: peer)
       ((TimedOut, after_wait s p), [Delay 10; Serial TimeoutWaiting])) ->
  (forall s p peer, running expectedBytes s p = true -> sock_at s p = [] ->
     elapsed startTime p <= 30000 ->
     P (after_wait s p) peer
       (stream_loop peer expectedBytes startTime (after_wait s p)) ->
     P s (p :: peer)
       (value (stream_loop peer expectedBytes startTime (after_wait s p)),
        Delay 10 :: trace (stream_loop peer expectedBytes startTime (after_wait s p)))) ->
  forall peer s, P s peer (stream_loop peer expectedBytes startTime s).
Proof.
  intros Hnil Hstop Hread Htime Hwait.
  induction peer as [|p peer IH]; intros s.
  - rewrite stream_loop_nil. apply Hnil.
  - destruct (running expectedBytes s p) eqn:Hrun.
    + destruct (sock_at s p) as [|b bs] eqn:Hsock.
      * destruct (Z_lt_le_dec 30000 (elapsed startTime p)) as [Hlate|Hearly].
        -- rewrite stream_loop_timeout by assumption. now apply Htime.
        -- rewrite stream_loop_wait by assumption. apply Hwait; auto.
      * assert (Hne : sock_at s p <> []) by (rewrite Hsock; discriminate).
        rewrite stream_loop_read by assumption. apply Hread; auto.
    + rewrite stream_loop_stop by assumption. now apply Hstop.
Qed.

(** *** The size of a read *)

Lemma running_bounds (s : session) (p : poll) :
  running expectedBytes s p = true ->
  p_connected p = true /\ bytesReceived s < expectedBytes
  /\ bytesReceived s < TOTAL_BYTES.
Proof.
  unfold running. rewrite !andb_true_iff, !Z.ltb_lt. tauto.
Qed.

Lemma to_read_bounds (s : session) (p : poll) :
  running expectedBytes s p = true -> sock_at s p <> [] ->
  1 <= to_read expectedBytes s p <= 1024
  /\ to_read expectedBytes s p <= expectedBytes - bytesReceived s
  /\ to_read expectedBytes s p <= TOTAL_BYTES - bytesReceived s
  /\ to_read expectedBytes s p <= Z.of_nat (length (sock_at s p)).
Proof.
  intros Hrun Hne. apply running_bounds in Hrun as (_ & He & Ht).
  assert (1 <= Z.of_nat (length (sock_at s p))).
  { destruct (sock_at s p); [congruence|]. cbn [length]. lia. }
  unfold to_read. lia.
Qed.

Lemma chunk_length (s : session) (p : poll) :
  running expectedBytes s p = true -> sock_at s p <> [] ->
  Z.of_nat (length (chunk expectedBytes s p)) = to_read expectedBytes s p.
Proof.
  intros Hrun Hne. pose proof (to_read_bounds s p Hrun Hne) as (H1 & _ & _ & H4).
  unfold chunk. rewrite length_firstn. lia.
Qed.

Lemma chunk_skip (s : session) (p : poll) :
  chunk expectedBytes s p ++ pending (after_read expectedBytes s p) = sock_at s p.
Proof. unfold chunk, after_read. cbn [pending]. apply firstn_skipn. Qed.

End Loop.

(** *** What the loop writes, reads and counts *)

Section LoopFacts.

Variables expectedBytes startTime : Z.

(** The loop puts on the bus exactly the bytes it takes from the peer, in
    the order in which it takes them, and nothing else. *)
Lemma loop_panel (peer : list poll) (s : session) :
  panel (trace (stream_loop peer expectedBytes startTime s))
  = map Dat (net_bytes (trace (stream_loop peer expectedBytes startTime s))).
Proof.
  revert peer s.
  apply (stream_loop_cases expectedBytes startTime
           (fun _ _ r => panel (trace r) = map Dat (net_bytes (trace r))));
    try reflexivity.
  - intros s p peer _ _ IH. cbn [trace snd] in *.
    change (NetRead (chunk expectedBytes s p) :: ?l)
      with ([NetRead (chunk expectedBytes s p)] ++ l).
    rewrite !panel_app, !net_bytes_app, panel_map_Dat, net_bytes_map_Dat, IH.
    cbn [panel filter on_bus net_bytes app]. rewrite app_nil_r, map_app.
    reflexivity.
  - intros s p peer _ _ _ IH. cbn [trace snd] in *. exact IH.
Qed.

Lemma loop_requests (peer : list poll) (s : session) :
  requests (trace (stream_loop peer expectedBytes startTime s)) = [].
Proof.
  revert peer s.
  apply (stream_loop_cases expectedBytes startTime
           (fun _ _ r => requests (trace r) = [])); try reflexivity.
  - intros s p peer _ _ IH. cbn [trace snd requests] in *.
    now rewrite requests_app, requests_map_Dat, IH.
  - intros s p peer _ _ _ IH. cbn [trace snd] in *. exact IH.
Qed.

(** [bytesReceived] grows by the number of bytes taken from the peer. *)
Lemma loop_received (peer : list poll) (s : session) :
  bytesReceived (snd (value (stream_loop peer expectedBytes startTime s)))
  = bytesReceived s
    + Z.of_nat (length (net_bytes
                          (trace (stream_loop peer expectedBytes startTime s)))).
Proof.
  revert peer s.
  apply (stream_loop_cases expectedBytes startTime
           (fun s _ r => bytesReceived (snd (value r))
                         = bytesReceived s + Z.of_nat (length (net_bytes (trace r)))));
    try (intros; cbn; lia).
  - intros s p peer _ _ IH. cbn [trace value fst snd net_bytes] in *.
    rewrite IH, net_bytes_app, net_bytes_map_Dat, !length_app.
    cbn [after_read bytesReceived app length]. lia.
  - intros s p peer _ _ _ IH. cbn [trace value fst snd net_bytes] in *.
    exact IH.
Qed.

(** The counters classify exactly the bytes taken from the peer. *)
Lemma loop_tally (peer : list poll) (s : session) :
  tally (snd (value (stream_loop peer expectedBytes startTime s)))
  = count_bytes (net_bytes (trace (stream_loop peer expectedBytes startTime s))) (tally s).
Proof.
  revert peer s.
  apply (stream_loop_cases expectedBytes startTime
           (fun s _ r => tally (snd (value r))
                         = count_bytes (net_bytes (trace r)) (tally s)));
    try reflexivity.
  - intros s p peer _ _ IH. cbn [trace value fst snd net_bytes] in *.
    rewrite IH, net_bytes_app, net_bytes_map_Dat, count_bytes_app.
    reflexivity.
  - intros s p peer _ _ _ IH. cbn [trace value fst snd net_bytes] in *.
    exact IH.
Qed.

(** The bytes taken are an initial segment of what the peer delivers. *)
Lemma loop_prefix (peer : list poll) (s : session) :
  exists rest,
    pending s ++ peer_bytes peer
    = net_bytes (trace (stream_loop peer expectedBytes startTime s)) ++ rest.
Proof.
  revert peer s.
  apply (stream_loop_cases expectedBytes startTime
           (fun s peer r => exists rest,
              pending s ++ peer_bytes peer = net_bytes (trace r) ++ rest)).
  - intros s. exists (pending s). cbn. apply app_nil_r.
  - intros s p peer _. now exists (pending s ++ peer_bytes (p :: peer)).
  - intros s p peer _ _ [rest IH]. exists rest.
    cbn [trace snd net_bytes]. rewrite net_bytes_app, net_bytes_map_Dat.
    cbn [app]. rewrite <- app_assoc, <- IH.
    unfold peer_bytes. cbn [map concat]. fold (peer_bytes peer).
    rewrite !app_assoc. f_equal. symmetry. apply chunk_skip.
  - intros s p peer _ _ _. now exists (pending s ++ peer_bytes (p :: peer)).
  - intros s p peer _ _ _ [rest IH]. exists rest.
    cbn [trace snd net_bytes]. rewrite <- IH.
    unfold peer_bytes. cbn [map concat after_wait pending].
    unfold sock_at. now rewrite app_assoc.
Qed.

(** [bytesReceived] never passes the panel size, nor the declared length. *)
Lemma loop_bound (peer : list poll) (s : session) :
  bytesReceived (snd (value (stream_loop peer expectedBytes startTime s)))
  <= Z.max (bytesReceived s) (Z.min expectedBytes TOTAL_BYTES).
Proof.
  revert peer s.
  apply (stream_loop_cases expectedBytes startTime
           (fun s _ r => bytesReceived (snd (value r))
                         <= Z.max (bytesReceived s) (Z.min expectedBytes TOTAL_BYTES)));
    try (intros; cbn; lia).
  - intros s p peer Hrun Hne IH. cbn [value fst snd] in *.
    pose proof (to_read_bounds expectedBytes s p Hrun Hne) as (H1 & H2 & H3 & _).
    rewrite <- (chunk_length expectedBytes s p Hrun Hne) in H1, H2, H3.
    cbn [after_read bytesReceived] in IH. lia.
  - intros s p peer _ _ _ IH. cbn [value fst snd after_wait bytesReceived] in *.
    exact IH.
Qed.


End LoopFacts.

Lemma loop_reports (expectedBytes startTime : Z) (peer : list poll) (s : session) :
  reports (trace (stream_loop peer expectedBytes startTime s)) = [].
Proof.
  revert peer s.
  apply (stream_loop_cases expectedBytes startTime
           (fun _ _ r => reports (trace r) = [])); try reflexivity.
  - intros s p peer _ _ IH. cbn [trace snd reports] in *.
    now rewrite reports_app, reports_map_Dat, IH.
  - intros s p peer _ _ _ IH. cbn [trace snd] in *. exact IH.
Qed.

(** ** Padding *)

Lemma pad_channel_value (channelCommand received : Z) (c : counters) :
  value (pad_channel channelCommand received c)
  = padded_tally channelCommand received c.
Proof.
  unfold pad_channel, padded_tally.
  destruct (received <? TOTAL_BYTES); [|reflexivity].
  destruct (channelCommand =? 16); reflexivity.
Qed.

Lemma pad_channel_trace (channelCommand received : Z) (c : counters) :
  trace (pad_channel channelCommand received c)
  = if received <? TOTAL_BYTES then
      Serial (Padding (TOTAL_BYTES - received))
      :: map Dat (repeat (padding_of channelCommand)
                         (Z.to_nat (TOTAL_BYTES - received)))
    else [].
Proof.
  unfold pad_channel. destruct (received <? TOTAL_BYTES); [|reflexivity].
  rewrite !trace_bind, for_range_fill.
  cbn [trace emit ret snd app]. rewrite app_nil_r. reflexivity.
Qed.

(** On the bus the padding block is [TOTAL_BYTES - received] copies of the
    padding byte (none when nothing is missing). *)
Lemma pad_channel_panel (channelCommand received : Z) (c : counters) :
  panel (trace (pad_channel channelCommand received c))
  = map Dat (repeat (padding_of channelCommand)
                    (Z.to_nat (TOTAL_BYTES - received))).
Proof.
  rewrite pad_channel_trace.
  destruct (received <? TOTAL_BYTES) eqn:H.
  - change (Serial ?e :: ?l) with ([Serial e] ++ l).
    rewrite panel_app, panel_map_Dat. reflexivity.
  - apply Z.ltb_ge in H. replace (Z.to_nat (TOTAL_BYTES - received)) with O by lia.
    reflexivity.
Qed.

Lemma pad_channel_quiet (channelCommand received : Z) (c : counters) :
  net_bytes (trace (pad_channel channelCommand received c)) = []
  /\ requests (trace (pad_channel channelCommand received c)) = []
  /\ reports (trace (pad_channel channelCommand received c)) = [].
Proof.
  rewrite pad_channel_trace. destruct (received <? TOTAL_BYTES).
  - cbn [net_bytes requests reports].
    now rewrite net_bytes_map_Dat, requests_map_Dat, reports_map_Dat.
  - now cbn.
Qed.

Lemma padded_tally_sum (channelCommand received : Z) (c : counters) :
  sum_counters (padded_tally channelCommand received c)
  = sum_counters c
    + (if channelCommand =? 0x10 then Z.max 0 (TOTAL_BYTES - received) else 0).
Proof.
  unfold padded_tally, sum_counters.
  destruct (received <? TOTAL_BYTES) eqn:H;
    [apply Z.ltb_lt in H | apply Z.ltb_ge in H];
    destruct (channelCommand =? 16);
    cbn [andb blackBytes whiteBytes redPrepBytes otherBytes]; lia.
Qed.

(** ** streamChannelToDisplay as a whole *)

Section Stream.

Variable http : HTTPClient.
Variables channelCommand expectedBytes : Z.

Let run := streamChannelToDisplay http channelCommand expectedBytes.
Let lp := stream_loop (h_peer http) expectedBytes (h_start http) session0.

Lemma stream_received_length :
  Z.of_nat (length (stream_received http expectedBytes))
  = bytesReceived (stream_final http expectedBytes).
Proof.
  unfold stream_received, stream_final, lp. rewrite loop_received.
  cbn [session0 bytesReceived]. lia.
Qed.

Lemma stream_received_bound :
  Z.of_nat (length (stream_received http expectedBytes))
  <= Z.max 0 (Z.min expectedBytes TOTAL_BYTES).
Proof.
  rewrite stream_received_length. unfold stream_final.
  apply (loop_bound expectedBytes (h_start http) (h_peer http) session0).
Qed.

Lemma stream_received_prefix :
  exists rest, peer_bytes (h_peer http) = stream_received http expectedBytes ++ rest.
Proof.
  destruct (loop_prefix expectedBytes (h_start http) (h_peer http) session0)
    as [rest H].
  exists rest. exact H.
Qed.

(** The timeout path: the function returns from inside the loop. *)
Lemma stream_timed_out :
  stream_exit http expectedBytes = TimedOut ->
  value run = false /\ trace run = Cmd channelCommand :: trace lp.
Proof.
  intros H. unfold run, streamChannelToDisplay. fold session0.
  unfold stream_exit in H.
  rewrite !value_bind, !trace_bind. cbv beta. rewrite H. split; [reflexivity|].
  cbn [trace ret snd]. rewrite app_nil_r. reflexivity.
Qed.

(** The normal path: loop, padding block, report, warning, result. *)
Lemma stream_done :
  stream_exit http expectedBytes = LoopDone ->
  let final := stream_final http expectedBytes in
  let c := padded_tally channelCommand (bytesReceived final) (tally final) in
  value run = (bytesReceived final >? 0)
  /\ trace run
     = Cmd channelCommand
       :: trace lp
       ++ trace (pad_channel channelCommand (bytesReceived final) (tally final))
       ++ Serial (ChannelComplete c (bytesReceived final))
       :: (if (channelCommand =? 0x10) && (blackBytes c =? 0)
           then [Serial NoBlackPixels] else []).
Proof.
  intros H final c. unfold run, streamChannelToDisplay. fold session0.
  unfold stream_exit in H.
  rewrite !value_bind, !trace_bind. cbv beta. rewrite H.
  rewrite !value_bind, !trace_bind. cbv beta. rewrite !pad_channel_value.
  subst final c. unfold stream_final. fold lp. split; [reflexivity|].
  set (b := (channelCommand =? 16) && _).
  destruct b; cbn [trace ret snd]; rewrite app_nil_r; reflexivity.
Qed.

(** Neither path issues a request, and the only bytes read are the loop's. *)
Lemma stream_net_bytes :
  net_bytes (trace run) = stream_received http expectedBytes.
Proof.
  unfold stream_received.
  destruct (stream_exit http expectedBytes) eqn:H.
  - destruct (stream_done H) as [_ Ht]. rewrite Ht.
    change (Cmd ?b :: ?l) with ([Cmd b] ++ l).
    rewrite !net_bytes_app.
    destruct (pad_channel_quiet channelCommand
                (bytesReceived (stream_final http expectedBytes))
                (tally (stream_final http expectedBytes))) as (-> & _ & _).
    destruct ((channelCommand =? 16) && _); cbn; now rewrite app_nil_r.
  - destruct (stream_timed_out H) as [_ Ht]. now rewrite Ht.
Qed.

Lemma stream_requests : requests (trace run) = [].
Proof.
  destruct (stream_exit http expectedBytes) eqn:H.
  - destruct (stream_done H) as [_ Ht]. rewrite Ht.
    change (Cmd ?b :: ?l) with ([Cmd b] ++ l).
    rewrite !requests_app. unfold lp. rewrite loop_requests.
    destruct (pad_channel_quiet channelCommand
                (bytesReceived (stream_final http expectedBytes))
                (tally (stream_final http expectedBytes))) as (_ & -> & _).
    destruct ((channelCommand =? 16) && _); reflexivity.
  - destruct (stream_timed_out H) as [_ Ht]. rewrite Ht.
    cbn [requests]. apply loop_requests.
Qed.

(** The bus after a transfer that ran to its end: the prepare command,
    the received bytes, the padding. *)
Lemma stream_panel_done :
  stream_exit http expectedBytes = LoopDone ->
  panel (trace run)
  = Cmd channelCommand
    :: map Dat (stream_received http expectedBytes
                ++ repeat (padding_of channelCommand)
                     (Z.to_nat (TOTAL_BYTES
                                - Z.of_nat (length (stream_received http expectedBytes))))).
Proof.
  intros H. destruct (stream_done H) as [_ Ht]. rewrite Ht.
  change (Cmd ?b :: ?l) with ([Cmd b] ++ l) at 1.
  rewrite !panel_app, pad_channel_panel. unfold lp at 1. rewrite loop_panel.
  fold lp. fold (stream_received http expectedBytes). rewrite stream_received_length.
  change (Serial ?e :: ?l) with ([Serial e] ++ l).
  rewrite panel_app.
  replace (panel (if (channelCommand =? 16) && _ then _ else _)) with (@nil event)
    by (destruct ((channelCommand =? 16) && _); reflexivity).
  cbn [panel filter on_bus app]. rewrite app_nil_r, map_app. reflexivity.
Qed.

(** The bus after a transfer that timed out: the prepare command and the
    bytes received so far; no padding. *)
Lemma stream_panel_timed_out :
  stream_exit http expectedBytes = TimedOut ->
  panel (trace run) = Cmd channelCommand :: map Dat (stream_received http expectedBytes).
Proof.
  intros H. destruct (stream_timed_out H) as [_ Ht]. rewrite Ht.
  change (Cmd ?b :: ?l) with ([Cmd b] ++ l) at 1.
  rewrite panel_app. unfold lp. rewrite loop_panel. reflexivity.
Qed.

(** A transfer that returns true ran to its end and received something. *)
Lemma stream_true :
  value run = true ->
  stream_exit http expectedBytes = LoopDone /\ stream_received http expectedBytes <> [].
Proof.
  intros Hv. destruct (stream_exit http expectedBytes) eqn:H.
  - split; [reflexivity|]. destruct (stream_done H) as [Hval _].
    rewrite Hval in Hv. apply Z.gtb_lt in Hv.
    rewrite <- stream_received_length in Hv.
    intros E. rewrite E in Hv. cbn in Hv. lia.
  - destruct (stream_timed_out H) as [Hval _]. congruence.
Qed.

End Stream.

(** ** Initialisation *)

(** Waiting for the panel only passes time: between 1 and 501 delays of
    20 ms (at most about 10 s), nothing on the bus. *)
Lemma wait_busy_trace (busy : list bool) (timeout : Z) :
  exists passes : nat,
    trace (wait_busy busy timeout) = repeat (Delay 20) passes
    /\ (1 <= passes)%nat
    /\ Z.of_nat passes <= Z.max 1 (501 - timeout).
Proof.
  revert timeout. induction busy as [|level busy IH]; intros timeout.
  - exists 1%nat. repeat split; cbn; lia.
  - destruct level.
    + cbn [wait_busy]. rewrite trace_bind.
      destruct (timeout + 1 >? 500) eqn:Hcap.
      * exists 1%nat. repeat split; cbn; lia.
      * destruct (IH (timeout + 1)) as (k & Hk & Hlo & Hhi).
        exists (S k). rewrite Hk. repeat split; [lia|].
        rewrite Z.gtb_ltb in Hcap. apply Z.ltb_ge in Hcap. lia.
    + exists 1%nat. repeat split; cbn; lia.
Qed.

Lemma init_trace (busy : list bool) :
  trace (EPD_7in5_V1_Init busy)
  = init_before_wait ++ trace (EPD_WaitUntilIdle busy) ++ init_after_wait.
Proof. reflexivity. Qed.

Lemma projections_of_delays (ms : Z) (n : nat) :
  panel (repeat (Delay ms) n) = []
  /\ panel_commands (repeat (Delay ms) n) = []
  /\ requests (repeat (Delay ms) n) = []
  /\ net_bytes (repeat (Delay ms) n) = [].
Proof. induction n as [|n IH]; cbn; [tauto|exact IH]. Qed.

Lemma init_panel_eq (busy : list bool) :
  panel (trace (EPD_7in5_V1_Init busy)) = init_panel.
Proof.
  rewrite init_trace. unfold EPD_WaitUntilIdle.
  destruct (wait_busy_trace busy 0) as (k & -> & _).
  rewrite !panel_app. destruct (projections_of_delays 20 k) as (-> & _).
  unfold init_panel. now rewrite panel_app.
Qed.

Lemma init_quiet (busy : list bool) :
  requests (trace (EPD_7in5_V1_Init busy)) = []
  /\ net_bytes (trace (EPD_7in5_V1_Init busy)) = [].
Proof.
  rewrite init_trace. unfold EPD_WaitUntilIdle.
  destruct (wait_busy_trace busy 0) as (k & -> & _).
  rewrite !requests_app, !net_bytes_app.
  destruct (projections_of_delays 20 k) as (_ & _ & -> & ->).
  split; reflexivity.
Qed.

(** The wait in full: one delay for every read of the BUSY pin that finds
    it high, up to 501 of them, and one more when the pin is found low
    within the first 500 reads. *)
Lemma wait_busy_exact (busy : list bool) (timeout : Z) :
  0 <= timeout <= 500 ->
  trace (wait_busy busy timeout)
  = repeat (Delay 20) (Nat.min (S (leading_high busy)) (Z.to_nat (501 - timeout))).
Proof.
  revert timeout. induction busy as [|level busy IH]; intros timeout Ht.
  - cbn [wait_busy leading_high].
    replace (Nat.min 1 (Z.to_nat (501 - timeout))) with 1%nat by lia.
    reflexivity.
  - destruct level.
    + cbn [wait_busy leading_high]. rewrite trace_bind. cbn [emit trace snd app].
      destruct (Z.gtb_spec (timeout + 1) 500) as [Hend|Hgo].
      * replace (Nat.min (S (S (leading_high busy))) (Z.to_nat (501 - timeout)))
          with 1%nat by lia.
        reflexivity.
      * rewrite IH by lia.
        replace (Nat.min (S (S (leading_high busy))) (Z.to_nat (501 - timeout)))
          with (S (Nat.min (S (leading_high busy)) (Z.to_nat (501 - (timeout + 1)))))
          by lia.
        reflexivity.
    + cbn [wait_busy leading_high].
      replace (Nat.min 1 (Z.to_nat (501 - timeout))) with 1%nat by lia.
      reflexivity.
Qed.

(** C9. [EPD_7in5_V1_Init] (the same function in both sketches) performs
    the hardware reset and then sends, in this order, 0x01 power setting,
    0x00 panel setting, 0x06 booster soft-start, 0x04 power-on followed by
    the wait for idle, 0x30 PLL, 0x41 temperature calibration, 0x50 VCOM
    and data interval, 0x60 TCON, 0x61 resolution with parameters 0x02 0x80
    0x01 0x80, 0x82 VCM DC, 0xE5 flash mode and finally the black/white
    prepare command 0x10.  The wait for idle follows the BUSY pin: it is
    one delay of 20 ms for every read that finds the pin high and one more
    when the pin is found low, and it gives up after 501 delays when the
    pin stays high; it puts nothing on the bus. *)
Theorem C9_init_sequence (busy : list bool) :
  let passes := Nat.min (S (leading_high busy)) 501 in
  (1 <= passes <= 501)%nat
  /\ trace (EPD_WaitUntilIdle busy) = repeat (Delay 20) passes
  /\ trace (EPD_7in5_V1_Init busy)
     = [ Rst true; Delay 50; Rst false; Delay 5; Rst true; Delay 50 ]
       ++ [ Cmd 0x01; Dat 0x37; Dat 0x00;
            Cmd 0x00; Dat 0xCF; Dat 0x08;
            Cmd 0x06; Dat 0xC7; Dat 0xCC; Dat 0x28;
            Cmd 0x04 ]
       ++ repeat (Delay 20) passes
       ++ [ Cmd 0x30; Dat 0x3C;
            Cmd 0x41; Dat 0x00;
            Cmd 0x50; Dat 0x77;
            Cmd 0x60; Dat 0x22;
            Cmd 0x61; Dat 0x02; Dat 0x80; Dat 0x01; Dat 0x80;
            Cmd 0x82; Dat 0x1E;
            Cmd 0xE5; Dat 0x03;
            Cmd 0x10; Delay 2 ]
  /\ panel_commands (trace (EPD_7in5_V1_Init busy))
     = [0x01; 0x00; 0x06; 0x04; 0x30; 0x41; 0x50; 0x60; 0x61; 0x82; 0xE5; 0x10]
  /\ trace (Demo.drawVictoryBanner busy)
     = trace (EPD_7in5_V1_Init busy)
       ++ trace (Demo.drawColorPattern Demo.victoryBanner).
Proof.
  intros passes.
  assert (Hw : trace (EPD_WaitUntilIdle busy) = repeat (Delay 20) passes).
  { unfold EPD_WaitUntilIdle. now rewrite wait_busy_exact by lia. }
  split; [unfold passes; lia|]. split; [exact Hw|]. split; [|split].
  - rewrite init_trace, Hw. reflexivity.
  - rewrite init_trace, Hw, !panel_commands_app.
    destruct (projections_of_delays 20 passes) as (_ & -> & _). reflexivity.
  - unfold Demo.drawVictoryBanner. apply trace_bind.
Qed.

(** ** The two downloads *)

Lemma bw_request_failed (http : HTTPClient) :
  h_code http <> HTTP_CODE_OK ->
  downloadAndStreamBW http
  = (false, [ HttpGet calendar_raw_url;
              Serial (RequestFailed calendar_raw_url (h_code http));
              HttpEnd ]).
Proof.
  intros H. apply Z.eqb_neq in H. unfold downloadAndStreamBW.
  unfold bind at 1. cbv zeta. rewrite H. reflexivity.
Qed.

Lemma bw_request_ok (http : HTTPClient) :
  h_code http = HTTP_CODE_OK ->
  value (downloadAndStreamBW http)
  = value (streamChannelToDisplay http 0x10 (h_size http))
  /\ trace (downloadAndStreamBW http)
     = HttpGet calendar_raw_url
       :: Serial (SizeDiagnosis calendar_raw_url (size_verdict_of (h_size http)))
       :: trace (streamChannelToDisplay http 0x10 (h_size http)) ++ [HttpEnd].
Proof.
  intros H. apply Z.eqb_eq in H. unfold downloadAndStreamBW.
  rewrite value_bind, trace_bind. cbv zeta. rewrite H. cbn [negb].
  rewrite !value_bind, !trace_bind. split; reflexivity.
Qed.

Lemma red_request_failed (http : HTTPClient) :
  h_code http <> HTTP_CODE_OK ->
  value (downloadAndStreamRed http) = true
  /\ trace (downloadAndStreamRed http)
     = [ HttpGet calendar_red_url;
         Serial (RequestFailed calendar_red_url (h_code http));
         Serial RedNotAvailable;
         Cmd 0x13 ]
       ++ map Dat (repeat 0xFF (Z.to_nat TOTAL_BYTES))
       ++ [HttpEnd].
Proof.
  intros H. apply Z.eqb_neq in H. unfold downloadAndStreamRed.
  rewrite value_bind, trace_bind. cbv zeta. rewrite H. cbn [negb].
  rewrite !value_bind, !trace_bind, for_range_fill.
  rewrite Z.sub_0_r.
  generalize (map Dat (repeat 255 (Z.to_nat TOTAL_BYTES))). intros fill.
  split; reflexivity.
Qed.

Lemma red_request_ok (http : HTTPClient) :
  h_code http = HTTP_CODE_OK ->
  value (downloadAndStreamRed http)
  = value (streamChannelToDisplay http 0x13 (h_size http))
  /\ trace (downloadAndStreamRed http)
     = HttpGet calendar_red_url
       :: Serial (SizeDiagnosis calendar_red_url (size_verdict_of (h_size http)))
       :: trace (streamChannelToDisplay http 0x13 (h_size http)) ++ [HttpEnd].
Proof.
  intros H. apply Z.eqb_eq in H. unfold downloadAndStreamRed.
  rewrite value_bind, trace_bind. cbv zeta. rewrite H. cbn [negb].
  rewrite !value_bind, !trace_bind. split; reflexivity.
Qed.

(** ** The update *)

Lemma update_no_wifi (w : world) :
  wifi_connected w = false ->
  downloadAndDisplayCalendar w = (false, [Serial NoWiFi]).
Proof. intros H. unfold downloadAndDisplayCalendar. rewrite H. reflexivity. Qed.

Lemma update_bw_failed (w : world) :
  wifi_connected w = true ->
  value (downloadAndStreamBW (bw_http w)) = false ->
  value (downloadAndDisplayCalendar w) = false
  /\ trace (downloadAndDisplayCalendar w)
     = trace (EPD_7in5_V1_Init (busy_pin w))
       ++ trace (downloadAndStreamBW (bw_http w))
       ++ [Serial (ChannelFailed calendar_raw_url)].
Proof.
  intros Hw Hbw. unfold downloadAndDisplayCalendar. rewrite Hw. cbn [negb].
  rewrite !value_bind, !trace_bind. cbv beta. rewrite Hbw. cbn [negb].
  split; reflexivity.
Qed.

Lemma update_red_failed (w : world) :
  wifi_connected w = true ->
  value (downloadAndStreamBW (bw_http w)) = true ->
  value (downloadAndStreamRed (red_http w)) = false ->
  value (downloadAndDisplayCalendar w) = false
  /\ trace (downloadAndDisplayCalendar w)
     = trace (EPD_7in5_V1_Init (busy_pin w))
       ++ trace (downloadAndStreamBW (bw_http w))
       ++ trace (downloadAndStreamRed (red_http w))
       ++ [Serial (ChannelFailed calendar_red_url)].
Proof.
  intros Hw Hbw Hred. unfold downloadAndDisplayCalendar. rewrite Hw. cbn [negb].
  rewrite !value_bind, !trace_bind. cbv beta. rewrite Hbw. cbn [negb].
  rewrite !value_bind, !trace_bind. cbv beta. rewrite Hred. cbn [negb].
  split; reflexivity.
Qed.

Lemma update_refreshed (w : world) :
  wifi_connected w = true ->
  value (downloadAndStreamBW (bw_http w)) = true ->
  value (downloadAndStreamRed (red_http w)) = true ->
  value (downloadAndDisplayCalendar w) = true
  /\ trace (downloadAndDisplayCalendar w)
     = trace (EPD_7in5_V1_Init (busy_pin w))
       ++ trace (downloadAndStreamBW (bw_http w))
       ++ trace (downloadAndStreamRed (red_http w))
       ++ [Cmd 0x12; Delay 100; Delay 3000; Serial UpdateComplete].
Proof.
  intros Hw Hbw Hred. unfold downloadAndDisplayCalendar. rewrite Hw. cbn [negb].
  rewrite !value_bind, !trace_bind. cbv beta. rewrite Hbw. cbn [negb].
  rewrite !value_bind, !trace_bind. cbv beta. rewrite Hred. cbn [negb].
  split; reflexivity.
Qed.

(** ** Commands seen by the panel *)

Lemma panel_commands_panel (l : list event) :
  panel_commands (panel l) = panel_commands l.
Proof.
  unfold panel. induction l as [|e l IH]; [reflexivity|].
  destruct e; cbn [filter on_bus panel_commands]; rewrite ?IH; reflexivity.
Qed.

Lemma panel_data_panel (l : list event) :
  panel_data (panel l) = panel_data l.
Proof.
  unfold panel. induction l as [|e l IH]; [reflexivity|].
  destruct e; cbn [filter on_bus panel_data]; rewrite ?IH; reflexivity.
Qed.

Lemma init_commands_eq (busy : list bool) :
  panel_commands (trace (EPD_7in5_V1_Init busy)) = init_commands.
Proof.
  rewrite <- panel_commands_panel, init_panel_eq. reflexivity.
Qed.

(** One transfer sends one command: the prepare command it was given. *)
Lemma stream_commands (http : HTTPClient) (channelCommand expectedBytes : Z) :
  panel_commands (trace (streamChannelToDisplay http channelCommand expectedBytes))
  = [channelCommand].
Proof.
  rewrite <- panel_commands_panel.
  destruct (stream_exit http expectedBytes) eqn:H.
  - rewrite (stream_panel_done http channelCommand expectedBytes H).
    cbn [panel_commands]. now rewrite panel_commands_map_Dat.
  - rewrite (stream_panel_timed_out http channelCommand expectedBytes H).
    cbn [panel_commands]. now rewrite panel_commands_map_Dat.
Qed.

Lemma bw_commands (http : HTTPClient) :
  ~ In 0x12 (panel_commands (trace (downloadAndStreamBW http)))
  /\ ~ In 0x13 (panel_commands (trace (downloadAndStreamBW http))).
Proof.
  destruct (Z.eq_dec (h_code http) HTTP_CODE_OK) as [Hok|Hko].
  - destruct (bw_request_ok http Hok) as [_ ->].
    cbn [panel_commands]. rewrite panel_commands_app, stream_commands.
    cbn. split; intros [H|[]]; discriminate.
  - rewrite (bw_request_failed http Hko). cbn. tauto.
Qed.

Lemma red_commands (http : HTTPClient) :
  panel_commands (trace (downloadAndStreamRed http)) = [0x13].
Proof.
  destruct (Z.eq_dec (h_code http) HTTP_CODE_OK) as [Hok|Hko].
  - destruct (red_request_ok http Hok) as [_ ->].
    cbn [panel_commands]. rewrite panel_commands_app, stream_commands.
    reflexivity.
  - destruct (red_request_failed http Hko) as [_ ->].
    rewrite !panel_commands_app, panel_commands_map_Dat. reflexivity.
Qed.

Lemma init_never_refreshes : ~ In 0x12 init_commands.
Proof. cbn. intuition discriminate. Qed.

(** ** C4: failure of the black/white request *)

(** C4. If the black/white GET returns a status other than 200, the update
    returns failure; its log holds no request for the red bitplane and no
    refresh command 0x12.  With WiFi up the log is: initialisation, the
    failed request, the two failure messages. *)
Theorem C4_bw_http_failure_aborts (w : world) :
  h_code (bw_http w) <> HTTP_CODE_OK ->
  value (downloadAndDisplayCalendar w) = false
  /\ ~ In calendar_red_url (requests (trace (downloadAndDisplayCalendar w)))
  /\ ~ In 0x12 (panel_commands (trace (downloadAndDisplayCalendar w)))
  /\ (wifi_connected w = true ->
      trace (downloadAndDisplayCalendar w)
      = trace (EPD_7in5_V1_Init (busy_pin w))
        ++ [ HttpGet calendar_raw_url;
             Serial (RequestFailed calendar_raw_url (h_code (bw_http w)));
             HttpEnd;
             Serial (ChannelFailed calendar_raw_url) ]).
Proof.
  intros Hko. destruct (wifi_connected w) eqn:Hw.
  - assert (Hbw := bw_request_failed (bw_http w) Hko).
    assert (Hv : value (downloadAndStreamBW (bw_http w)) = false)
      by now rewrite Hbw.
    destruct (update_bw_failed w Hw Hv) as [Hval Htr].
    rewrite Hval, Htr, Hbw. cbn [trace snd app].
    rewrite requests_app, panel_commands_app, init_commands_eq.
    destruct (init_quiet (busy_pin w)) as [-> _].
    repeat split.
    + cbn. intros [H|[]]. discriminate.
    + rewrite in_app_iff. intros [H|H]; [now apply init_never_refreshes|].
      exact H.
  - rewrite (update_no_wifi w Hw). cbn. repeat split; try tauto. discriminate.
Qed.

Lemma C4_witness :
  h_code (bw_http world_bw_404) <> HTTP_CODE_OK
  /\ value (downloadAndDisplayCalendar world_bw_404) = false
  /\ ~ In calendar_red_url (requests (trace (downloadAndDisplayCalendar world_bw_404)))
  /\ ~ In 0x12 (panel_commands (trace (downloadAndDisplayCalendar world_bw_404))).
Proof.
  assert (Hko : h_code (bw_http world_bw_404) <> HTTP_CODE_OK)
    by (vm_compute; discriminate).
  destruct (C4_bw_http_failure_aborts world_bw_404 Hko) as (H1 & H2 & H3 & _).
  exact (conj Hko (conj H1 (conj H2 H3))).
Defined.

(** ** The data of one channel on the bus *)

Lemma padded_length (received : list Z) (pad : Z) :
  Z.of_nat (length received) <= TOTAL_BYTES ->
  Z.of_nat (length (received
                    ++ repeat pad (Z.to_nat (TOTAL_BYTES - Z.of_nat (length received)))))
  = TOTAL_BYTES.
Proof. intros H. rewrite length_app, repeat_length. lia. Qed.

Lemma stream_received_le_total (http : HTTPClient) (expectedBytes : Z) :
  Z.of_nat (length (stream_received http expectedBytes)) <= TOTAL_BYTES.
Proof.
  pose proof (stream_received_bound http expectedBytes).
  pose proof TOTAL_BYTES_pos. lia.
Qed.

(** Whatever happens, a transfer puts on the bus its prepare command and
    then at most [TOTAL_BYTES] data bytes; exactly [TOTAL_BYTES] unless it
    timed out. *)
Lemma stream_panel_shape (http : HTTPClient) (channelCommand expectedBytes : Z) :
  exists data,
    panel (trace (streamChannelToDisplay http channelCommand expectedBytes))
    = Cmd channelCommand :: map Dat data
    /\ Z.of_nat (length data) <= TOTAL_BYTES
    /\ (stream_exit http expectedBytes = LoopDone ->
        Z.of_nat (length data) = TOTAL_BYTES).
Proof.
  pose proof (stream_received_le_total http expectedBytes) as Hle.
  destruct (stream_exit http expectedBytes) eqn:H.
  - eexists. split; [apply (stream_panel_done _ _ _ H)|].
    rewrite padded_length by exact Hle. split; [lia|reflexivity].
  - eexists. split; [apply (stream_panel_timed_out _ _ _ H)|].
    split; [exact Hle|discriminate].
Qed.

Lemma bw_panel_shape (http : HTTPClient) :
  (value (downloadAndStreamBW http) = false
   /\ panel (trace (downloadAndStreamBW http)) = [])
  \/ exists data,
       panel (trace (downloadAndStreamBW http)) = Cmd 0x10 :: map Dat data
       /\ Z.of_nat (length data) <= TOTAL_BYTES
       /\ (value (downloadAndStreamBW http) = true ->
           Z.of_nat (length data) = TOTAL_BYTES).
Proof.
  destruct (Z.eq_dec (h_code http) HTTP_CODE_OK) as [Hok|Hko].
  - right. destruct (bw_request_ok http Hok) as [Hv ->].
    destruct (stream_panel_shape http 0x10 (h_size http)) as (d & Hd & Hle & Hfull).
    exists d. split; [|split; [exact Hle|]].
    + rewrite !panel_cons_off by reflexivity.
      rewrite panel_app, Hd. cbn [panel filter on_bus].
      now rewrite app_nil_r.
    + intros Ht. apply Hfull. rewrite Hv in Ht.
      now apply (stream_true http 0x10 (h_size http)).
  - left. now rewrite (bw_request_failed http Hko).
Qed.

Lemma red_panel_shape (http : HTTPClient) :
  exists data,
    panel (trace (downloadAndStreamRed http)) = Cmd 0x13 :: map Dat data
    /\ Z.of_nat (length data) <= TOTAL_BYTES
    /\ (value (downloadAndStreamRed http) = true ->
        Z.of_nat (length data) = TOTAL_BYTES).
Proof.
  destruct (Z.eq_dec (h_code http) HTTP_CODE_OK) as [Hok|Hko].
  - destruct (red_request_ok http Hok) as [Hv ->].
    destruct (stream_panel_shape http 0x13 (h_size http)) as (d & Hd & Hle & Hfull).
    exists d. split; [|split; [exact Hle|]].
    + rewrite !panel_cons_off by reflexivity.
      rewrite panel_app, Hd. cbn [panel filter on_bus].
      now rewrite app_nil_r.
    + intros Ht. apply Hfull. rewrite Hv in Ht.
      now apply (stream_true http 0x13 (h_size http)).
  - destruct (red_request_failed http Hko) as [_ ->].
    exists (repeat 0xFF (Z.to_nat TOTAL_BYTES)).
    rewrite !panel_app, panel_map_Dat, repeat_length.
    pose proof TOTAL_BYTES_pos. split; [|split; lia].
    cbn [panel filter on_bus app]. now rewrite app_nil_r.
Qed.

(** ** C3: failure of the red request *)

(** C3. If the red GET returns a status other than 200 (after a black/white
    channel that succeeded), the stream decoder is not run: the red download
    logs the request, the two messages, the red prepare command 0x13 and then
    exactly TOTAL_BYTES data bytes 0xFF; it reads nothing from the peer and
    returns true.  The update then refreshes (0x12) and returns success. *)
Theorem C3_red_http_failure_fallback (w : world) :
  wifi_connected w = true ->
  value (downloadAndStreamBW (bw_http w)) = true ->
  h_code (red_http w) <> HTTP_CODE_OK ->
  let red := downloadAndStreamRed (red_http w) in
  trace red
  = [ HttpGet calendar_red_url;
      Serial (RequestFailed calendar_red_url (h_code (red_http w)));
      Serial RedNotAvailable;
      Cmd 0x13 ]
    ++ map Dat (repeat 0xFF (Z.to_nat TOTAL_BYTES))
    ++ [HttpEnd]
  /\ panel_data (trace red) = repeat 0xFF (Z.to_nat TOTAL_BYTES)
  /\ Z.of_nat (length (panel_data (trace red))) = TOTAL_BYTES
  /\ net_bytes (trace red) = []
  /\ value red = true
  /\ value (downloadAndDisplayCalendar w) = true
  /\ trace (downloadAndDisplayCalendar w)
     = trace (EPD_7in5_V1_Init (busy_pin w))
       ++ trace (downloadAndStreamBW (bw_http w))
       ++ trace red
       ++ [Cmd 0x12; Delay 100; Delay 3000; Serial UpdateComplete].
Proof.
  intros Hw Hbw Hko red.
  destruct (red_request_failed (red_http w) Hko) as [Hv Ht].
  destruct (update_refreshed w Hw Hbw Hv) as [Huv Hut].
  fold red in Hv, Ht, Hut.
  assert (Hdata : panel_data (trace red) = repeat 0xFF (Z.to_nat TOTAL_BYTES)).
  { rewrite Ht, !panel_data_app, panel_data_map_Dat. now rewrite app_nil_r. }
  assert (Hnet : net_bytes (trace red) = []).
  { now rewrite Ht, !net_bytes_app, net_bytes_map_Dat. }
  rewrite Hdata, repeat_length. pose proof TOTAL_BYTES_pos.
  repeat split; try assumption; lia.
Qed.

Lemma C3_witness :
  wifi_connected world_red_404 = true
  /\ value (downloadAndStreamBW (bw_http world_red_404)) = true
  /\ h_code (red_http world_red_404) <> HTTP_CODE_OK
  /\ net_bytes (trace (downloadAndStreamRed (red_http world_red_404))) = []
  /\ value (downloadAndDisplayCalendar world_red_404) = true.
Proof.
  assert (Hw : wifi_connected world_red_404 = true) by reflexivity.
  assert (Hbw : value (downloadAndStreamBW (bw_http world_red_404)) = true)
    by (vm_compute; reflexivity).
  assert (Hko : h_code (red_http world_red_404) <> HTTP_CODE_OK)
    by (vm_compute; discriminate).
  destruct (C3_red_http_failure_fallback world_red_404 Hw Hbw Hko)
    as (_ & _ & _ & Hnet & _ & Hval & _).
  exact (conj Hw (conj Hbw (conj Hko (conj Hnet Hval)))).
Defined.

(** ** Transfers that return false *)

(** A transfer fails in exactly two ways: the loop timed out, or the loop
    ended with nothing received. *)
Lemma stream_false (http : HTTPClient) (channelCommand expectedBytes : Z) :
  value (streamChannelToDisplay http channelCommand expectedBytes) = false
  <-> (stream_exit http expectedBytes = TimedOut
       \/ stream_received http expectedBytes = []).
Proof.
  split.
  - intros Hv. destruct (stream_exit http expectedBytes) eqn:H; [right|now left].
    destruct (stream_done http channelCommand expectedBytes H) as [Hval _].
    rewrite Hval in Hv. rewrite Z.gtb_ltb in Hv. apply Z.ltb_ge in Hv.
    rewrite <- stream_received_length in Hv.
    destruct (stream_received http expectedBytes); [reflexivity|].
    cbn [length] in Hv. lia.
  - intros [H|H].
    + now destruct (stream_timed_out http channelCommand expectedBytes H).
    + destruct (stream_exit http expectedBytes) eqn:He.
      * destruct (stream_done http channelCommand expectedBytes He) as [Hval _].
        rewrite Hval, <- stream_received_length, H. reflexivity.
      * now destruct (stream_timed_out http channelCommand expectedBytes He).
Qed.

(** ** C10: failure of the red stream after a successful request *)

(** C10. If the red GET succeeds (status 200) but the red stream times out
    or ends with zero bytes received, [streamChannelToDisplay] returns false
    and the update returns failure: no refresh command 0x12 is sent, although
    the full TOTAL_BYTES of the black/white channel are already on the bus
    and the red prepare command 0x13 has been issued. *)
Theorem C10_red_stream_failure_aborts (w : world) :
  wifi_connected w = true ->
  value (downloadAndStreamBW (bw_http w)) = true ->
  h_code (red_http w) = HTTP_CODE_OK ->
  stream_exit (red_http w) (h_size (red_http w)) = TimedOut
  \/ stream_received (red_http w) (h_size (red_http w)) = [] ->
  value (streamChannelToDisplay (red_http w) 0x13 (h_size (red_http w))) = false
  /\ value (downloadAndDisplayCalendar w) = false
  /\ ~ In 0x12 (panel_commands (trace (downloadAndDisplayCalendar w)))
  /\ exists bw tail,
       panel (trace (downloadAndDisplayCalendar w))
       = init_panel ++ Cmd 0x10 :: map Dat bw ++ Cmd 0x13 :: tail
       /\ Z.of_nat (length bw) = TOTAL_BYTES.
Proof.
  intros Hw Hbw Hok Hfail.
  apply (stream_false (red_http w) 0x13) in Hfail.
  destruct (red_request_ok (red_http w) Hok) as [Hrv Hrt].
  assert (Hred : value (downloadAndStreamRed (red_http w)) = false)
    by now rewrite Hrv.
  destruct (update_red_failed w Hw Hbw Hred) as [Huv Hut].
  split; [exact Hfail|]. split; [exact Huv|]. split.
  - rewrite Hut, !panel_commands_app, init_commands_eq, red_commands.
    rewrite !in_app_iff. intros [H|[H|[H|H]]].
    + now apply init_never_refreshes.
    + destruct (bw_commands (bw_http w)) as [Hb _]. now apply Hb.
    + destruct H as [H|[]]. discriminate.
    + exact H.
  - destruct (bw_panel_shape (bw_http w)) as [[Hf _]|(bw & Hb & _ & Hfull)].
    + congruence.
    + destruct (red_panel_shape (red_http w)) as (d & Hd & _).
      exists bw, (map Dat d). split; [|now apply Hfull].
      rewrite Hut, !panel_app, init_panel_eq, Hb, Hd.
      cbn [panel filter on_bus]. rewrite app_nil_r.
      cbn [app]. reflexivity.
Qed.

Lemma C10_witness :
  wifi_connected world_red_silent = true
  /\ value (downloadAndStreamBW (bw_http world_red_silent)) = true
  /\ h_code (red_http world_red_silent) = HTTP_CODE_OK
  /\ stream_exit (red_http world_red_silent) (h_size (red_http world_red_silent))
     = TimedOut
  /\ value (downloadAndDisplayCalendar world_red_silent) = false
  /\ ~ In 0x12 (panel_commands (trace (downloadAndDisplayCalendar world_red_silent))).
Proof.
  assert (Hw : wifi_connected world_red_silent = true) by reflexivity.
  assert (Hbw : value (downloadAndStreamBW (bw_http world_red_silent)) = true)
    by (vm_compute; reflexivity).
  assert (Hok : h_code (red_http world_red_silent) = HTTP_CODE_OK) by reflexivity.
  assert (Hto : stream_exit (red_http world_red_silent)
                  (h_size (red_http world_red_silent)) = TimedOut)
    by (vm_compute; reflexivity).
  destruct (C10_red_stream_failure_aborts world_red_silent Hw Hbw Hok (or_introl Hto))
    as (_ & Hval & Hno & _).
  exact (conj Hw (conj Hbw (conj Hok (conj Hto (conj Hval Hno))))).
Defined.

(** ** C2: a black/white channel that delivers nothing *)

(** With an empty black/white body the update fails: it returns false, the
    only request in its log is the black/white one, and no refresh command
    0x12 reaches the panel. *)
Lemma C2_counterexample :
  stream_received (bw_http world_bw_empty) (h_size (bw_http world_bw_empty)) = []
  /\ stream_exit (bw_http world_bw_empty) (h_size (bw_http world_bw_empty)) = LoopDone
  /\ value (downloadAndDisplayCalendar world_bw_empty) = false
  /\ requests (trace (downloadAndDisplayCalendar world_bw_empty)) = [calendar_raw_url]
  /\ existsb (Z.eqb 0x12)
       (panel_commands (trace (downloadAndDisplayCalendar world_bw_empty))) = false.
Proof. vm_compute. repeat split; reflexivity. Qed.

(** C2, as the sketch has it.  If the black/white request succeeds and its stream ends,
    without timing out, with zero bytes received, the transfer still writes
    the prepare command 0x10 followed by TOTAL_BYTES padding bytes 0x33 and
    prints the no-black-pixels warning; but [streamChannelToDisplay] returns
    false, and the caller treats that as failure: the update returns false,
    issues no request for the red channel and sends no refresh command. *)
Theorem C2_bw_zero_bytes_pads_then_fails (w : world) :
  wifi_connected w = true ->
  h_code (bw_http w) = HTTP_CODE_OK ->
  stream_exit (bw_http w) (h_size (bw_http w)) = LoopDone ->
  stream_received (bw_http w) (h_size (bw_http w)) = [] ->
  let bw := streamChannelToDisplay (bw_http w) 0x10 (h_size (bw_http w)) in
  panel (trace bw) = Cmd 0x10 :: map Dat (repeat 0x33 (Z.to_nat TOTAL_BYTES))
  /\ In (Serial NoBlackPixels) (trace bw)
  /\ value bw = false
  /\ value (downloadAndDisplayCalendar w) = false
  /\ In (Serial (ChannelFailed calendar_raw_url)) (trace (downloadAndDisplayCalendar w))
  /\ requests (trace (downloadAndDisplayCalendar w)) = [calendar_raw_url]
  /\ ~ In 0x12 (panel_commands (trace (downloadAndDisplayCalendar w))).
Proof.
  intros Hw Hok Hdone Hzero bw.
  assert (Hval : value bw = false).
  { apply stream_false. now right. }
  destruct (bw_request_ok (bw_http w) Hok) as [Hbv Hbt]. fold bw in Hbv, Hbt.
  assert (Hbwf : value (downloadAndStreamBW (bw_http w)) = false)
    by now rewrite Hbv.
  destruct (update_bw_failed w Hw Hbwf) as [Huv Hut].
  split; [|split; [|split; [exact Hval|split; [exact Huv|split; [|split]]]]].
  - unfold bw. rewrite (stream_panel_done _ _ _ Hdone), Hzero.
    cbn [length app Z.of_nat]. now rewrite Z.sub_0_r.
  - destruct (stream_done (bw_http w) 0x10 (h_size (bw_http w)) Hdone) as [_ Ht].
    fold bw in Ht. rewrite Ht. right.
    apply in_or_app. right. apply in_or_app. right. right.
    assert (Hrec : bytesReceived (stream_final (bw_http w) (h_size (bw_http w))) = 0).
    { rewrite <- stream_received_length, Hzero. reflexivity. }
    assert (Htal : tally (stream_final (bw_http w) (h_size (bw_http w)))
                   = mkCounters 0 0 0 0).
    { unfold stream_final. rewrite loop_tally.
      fold (stream_received (bw_http w) (h_size (bw_http w))).
      rewrite Hzero. reflexivity. }
    rewrite Hrec, Htal. left. reflexivity.
  - rewrite Hut. apply in_or_app. right. apply in_or_app. right. now left.
  - rewrite Hut, Hbt, !requests_app. cbn [requests].
    rewrite requests_app.
    destruct (init_quiet (busy_pin w)) as [-> _].
    unfold bw. rewrite stream_requests. reflexivity.
  - rewrite Hut, !panel_commands_app, init_commands_eq.
    rewrite !in_app_iff. intros [H|[H|H]].
    + now apply init_never_refreshes.
    + destruct (bw_commands (bw_http w)) as [Hb _]. now apply Hb.
    + exact H.
Qed.

Lemma C2_witness :
  wifi_connected world_bw_empty = true
  /\ h_code (bw_http world_bw_empty) = HTTP_CODE_OK
  /\ stream_exit (bw_http world_bw_empty) (h_size (bw_http world_bw_empty)) = LoopDone
  /\ stream_received (bw_http world_bw_empty) (h_size (bw_http world_bw_empty)) = []
  /\ value (downloadAndDisplayCalendar world_bw_empty) = false
  /\ requests (trace (downloadAndDisplayCalendar world_bw_empty)) = [calendar_raw_url].
Proof.
  assert (Hw : wifi_connected world_bw_empty = true) by reflexivity.
  assert (Hok : h_code (bw_http world_bw_empty) = HTTP_CODE_OK) by reflexivity.
  assert (Hdone : stream_exit (bw_http world_bw_empty)
                    (h_size (bw_http world_bw_empty)) = LoopDone)
    by (vm_compute; reflexivity).
  assert (Hzero : stream_received (bw_http world_bw_empty)
                    (h_size (bw_http world_bw_empty)) = [])
    by (vm_compute; reflexivity).
  destruct (C2_bw_zero_bytes_pads_then_fails world_bw_empty Hw Hok Hdone Hzero)
    as (_ & _ & _ & Hval & _ & Hreq & _).
  exact (conj Hw (conj Hok (conj Hdone (conj Hzero (conj Hval Hreq))))).
Defined.

(** ** C1: the size of a channel on the bus *)

(** A transfer that times out leaves the channel short: here two data
    bytes instead of TOTAL_BYTES, and no padding. *)
Lemma C1_counterexample :
  stream_exit http_stalled TOTAL_BYTES = TimedOut
  /\ panel (trace (streamChannelToDisplay http_stalled 0x10 TOTAL_BYTES))
     = [Cmd 0x10; Dat 0x00; Dat 0x33]
  /\ Z.of_nat (length (panel_data
                         (trace (streamChannelToDisplay http_stalled 0x10 TOTAL_BYTES))))
     <> TOTAL_BYTES.
Proof. vm_compute. repeat split; try reflexivity. discriminate. Qed.

(** C1, for transfers that do not time out.  For every channel transfer through
    [streamChannelToDisplay] that does not abort on the 30-second timeout,
    exactly TOTAL_BYTES data bytes follow the prepare command on the bus:
    the N bytes received, which are the first N bytes the peer delivered
    (N <= TOTAL_BYTES, anything further is never read nor written), followed
    by TOTAL_BYTES - N copies of the padding byte of the channel, 0x33 for
    command 0x10 and 0xFF otherwise. *)
Theorem C1_completed_transfer_writes_TOTAL_BYTES
    (http : HTTPClient) (channelCommand expectedBytes : Z) :
  stream_exit http expectedBytes = LoopDone ->
  let run := streamChannelToDisplay http channelCommand expectedBytes in
  let received := net_bytes (trace run) in
  let N := Z.of_nat (length received) in
  panel (trace run)
  = Cmd channelCommand
    :: map Dat (received
                ++ repeat (padding_of channelCommand) (Z.to_nat (TOTAL_BYTES - N)))
  /\ panel_data (trace run)
     = received ++ repeat (padding_of channelCommand) (Z.to_nat (TOTAL_BYTES - N))
  /\ Z.of_nat (length (panel_data (trace run))) = TOTAL_BYTES
  /\ N <= TOTAL_BYTES
  /\ (exists rest, peer_bytes (h_peer http) = received ++ rest)
  /\ padding_of 0x10 = 0x33
  /\ padding_of 0x13 = 0xFF.
Proof.
  intros Hdone run received N.
  assert (Hrec : received = stream_received http expectedBytes)
    by apply stream_net_bytes.
  assert (Hle : N <= TOTAL_BYTES).
  { unfold N. rewrite Hrec. apply stream_received_le_total. }
  assert (Hpanel : panel (trace run)
                   = Cmd channelCommand
                     :: map Dat (received
                                 ++ repeat (padding_of channelCommand)
                                      (Z.to_nat (TOTAL_BYTES - N)))).
  { unfold N. rewrite Hrec. apply (stream_panel_done _ _ _ Hdone). }
  assert (Hdata : panel_data (trace run)
                  = received ++ repeat (padding_of channelCommand)
                                  (Z.to_nat (TOTAL_BYTES - N))).
  { rewrite <- panel_data_panel, Hpanel. cbn [panel_data].
    apply panel_data_map_Dat. }
  split; [exact Hpanel|]. split; [exact Hdata|]. split.
  { rewrite Hdata. now apply padded_length. }
  split; [exact Hle|]. split; [|split; reflexivity].
  rewrite Hrec. apply stream_received_prefix.
Qed.

Lemma C1_witness :
  stream_exit http_three 3 = LoopDone
  /\ Z.of_nat (length (panel_data (trace (streamChannelToDisplay http_three 0x10 3))))
     = TOTAL_BYTES.
Proof.
  assert (Hdone : stream_exit http_three 3 = LoopDone) by (vm_compute; reflexivity).
  destruct (C1_completed_transfer_writes_TOTAL_BYTES http_three 0x10 3 Hdone)
    as (_ & _ & Hlen & _).
  exact (conj Hdone Hlen).
Defined.

(** ** C5: how many bytes the loop reads *)

(** For a positive declared length the loop of the sketch is the loop
    bounded by [spec_effectiveLimit]. *)
Lemma running_min (e : Z) (s : session) (p : poll) :
  running (Z.min e TOTAL_BYTES) s p = running e s p.
Proof.
  unfold running.
  destruct (Z.ltb_spec (bytesReceived s) e),
           (Z.ltb_spec (bytesReceived s) TOTAL_BYTES),
           (Z.ltb_spec (bytesReceived s) (Z.min e TOTAL_BYTES));
    try lia; reflexivity.
Qed.

Lemma to_read_min (e : Z) (s : session) (p : poll) :
  to_read (Z.min e TOTAL_BYTES) s p = to_read e s p.
Proof. unfold to_read. lia. Qed.

Lemma stream_loop_min (e startTime : Z) (peer : list poll) (s : session) :
  stream_loop peer e startTime s
  = stream_loop peer (Z.min e TOTAL_BYTES) startTime s.
Proof.
  revert peer s.
  apply (stream_loop_cases e startTime
           (fun s peer r => r = stream_loop peer (Z.min e TOTAL_BYTES) startTime s)).
  - reflexivity.
  - intros s p peer H. rewrite stream_loop_stop; [reflexivity|].
    now rewrite running_min.
  - intros s p peer Hrun Hne IH.
    rewrite (stream_loop_read (Z.min e TOTAL_BYTES));
      [|now rewrite running_min|exact Hne].
    unfold chunk, after_read, chunk. rewrite !to_read_min.
    fold (chunk e s p). fold (after_read e s p). rewrite <- IH. reflexivity.
  - intros s p peer Hrun Hs Ht.
    rewrite (stream_loop_timeout (Z.min e TOTAL_BYTES)); auto.
    now rewrite running_min.
  - intros s p peer Hrun Hs Ht IH.
    rewrite (stream_loop_wait (Z.min e TOTAL_BYTES)); auto.
    + now rewrite <- IH.
    + now rewrite running_min.
Qed.

(** With a declared length that is not positive the loop body never runs. *)
Lemma stream_loop_nonpositive (e startTime : Z) (peer : list poll) :
  e <= 0 ->
  fst (value (stream_loop peer e startTime session0)) = LoopDone
  /\ trace (stream_loop peer e startTime session0) = [].
Proof.
  intros He. destruct peer as [|p peer]; [split; reflexivity|].
  rewrite stream_loop_stop; [split; reflexivity|].
  unfold running. cbn [session0 bytesReceived].
  replace (0 <? e) with false by (symmetry; apply Z.ltb_ge; lia).
  now rewrite andb_false_r.
Qed.

(** With a missing or zero declared length the sketch reads nothing, where a
    loop bounded by [spec_effectiveLimit] reads the three bytes. *)
Lemma C5_counterexample :
  net_bytes (trace (streamChannelToDisplay http_undeclared 0x10
                      (h_size http_undeclared))) = []
  /\ net_bytes (trace (streamChannelToDisplay http_undeclared 0x10
                         (spec_effectiveLimit (h_size http_undeclared))))
     = [0x00; 0x33; 0xCC]
  /\ net_bytes (trace (streamChannelToDisplay http_declared_zero 0x10
                         (h_size http_declared_zero))) = []
  /\ net_bytes (trace (streamChannelToDisplay http_declared_zero 0x10
                         (spec_effectiveLimit (h_size http_declared_zero))))
     = [0x00; 0x33; 0xCC].
Proof. vm_compute. repeat split; reflexivity. Qed.

(** C5, as the sketch has it.  The streaming loop never reads more than
    the effective limit of the specification.  When the declared length is
    positive it reads at most min(expectedBytes, TOTAL_BYTES) bytes and
    behaves exactly as the loop bounded by that effective limit.  When the
    declared length is missing (-1) or zero the loop body never runs:
    nothing is read from the peer, the whole channel is written as padding,
    and the function returns false. *)
Theorem C5_read_limit (http : HTTPClient) (channelCommand expectedBytes : Z) :
  let run := streamChannelToDisplay http channelCommand expectedBytes in
  Z.of_nat (length (net_bytes (trace run)))
  <= Z.max 0 (Z.min expectedBytes TOTAL_BYTES)
  /\ Z.of_nat (length (net_bytes (trace run))) <= spec_effectiveLimit expectedBytes
  /\ (0 < expectedBytes ->
      run = streamChannelToDisplay http channelCommand
              (spec_effectiveLimit expectedBytes))
  /\ (expectedBytes <= 0 ->
      net_bytes (trace run) = []
      /\ panel (trace run)
         = Cmd channelCommand
           :: map Dat (repeat (padding_of channelCommand) (Z.to_nat TOTAL_BYTES))
      /\ value run = false).
Proof.
  intros run.
  assert (Hbound : Z.of_nat (length (net_bytes (trace run)))
                   <= Z.max 0 (Z.min expectedBytes TOTAL_BYTES)).
  { unfold run. rewrite stream_net_bytes. apply stream_received_bound. }
  split; [exact Hbound|]. split; [|split].
  - pose proof TOTAL_BYTES_pos. unfold spec_effectiveLimit.
    destruct (Z.ltb_spec 0 expectedBytes); lia.
  - intros Hpos. unfold run, spec_effectiveLimit.
    replace (0 <? expectedBytes) with true by (symmetry; now apply Z.ltb_lt).
    unfold streamChannelToDisplay.
    now rewrite (stream_loop_min expectedBytes).
  - intros Hnp.
    destruct (stream_loop_nonpositive expectedBytes (h_start http) (h_peer http) Hnp)
      as [Hexit Htrace].
    assert (Hzero : stream_received http expectedBytes = []).
    { unfold stream_received. now rewrite Htrace. }
    split; [|split].
    + unfold run. now rewrite stream_net_bytes.
    + unfold run. rewrite (stream_panel_done _ _ _ Hexit), Hzero.
      cbn [length app Z.of_nat]. now rewrite Z.sub_0_r.
    + apply stream_false. now right.
Qed.

Lemma C5_witness :
  (0 < 3
   /\ streamChannelToDisplay http_three 0x10 3
      = streamChannelToDisplay http_three 0x10 (spec_effectiveLimit 3))
  /\ (-1 <= 0
      /\ net_bytes (trace (streamChannelToDisplay http_undeclared 0x10 (-1))) = []
      /\ value (streamChannelToDisplay http_undeclared 0x10 (-1)) = false).
Proof.
  split.
  - split; [lia|].
    destruct (C5_read_limit http_three 0x10 3) as (_ & _ & Hpos & _).
    apply Hpos. lia.
  - split; [lia|].
    destruct (C5_read_limit http_undeclared 0x10 (-1)) as (_ & _ & _ & Hnp).
    destruct Hnp as (Hnet & _ & Hval); [lia|].
    split; assumption.
Defined.

(** ** C7: what the diagnostic counters add up to *)

(** On the red channel the padding is not counted: the report of a
    three-byte red transfer adds up to three. *)
Lemma C7_counterexample :
  stream_exit http_short_red 3 = LoopDone
  /\ reports (trace (streamChannelToDisplay http_short_red 0x13 3))
     = [(mkCounters 2 0 0 1, 3)]
  /\ sum_counters (mkCounters 2 0 0 1) <> TOTAL_BYTES
  /\ Z.of_nat (length (panel_data (trace (streamChannelToDisplay http_short_red 0x13 3))))
     = TOTAL_BYTES.
Proof. vm_compute. repeat split; try reflexivity. discriminate. Qed.

Lemma stream_reports (http : HTTPClient) (channelCommand expectedBytes : Z) :
  stream_exit http expectedBytes = LoopDone ->
  reports (trace (streamChannelToDisplay http channelCommand expectedBytes))
  = [ (padded_tally channelCommand
         (Z.of_nat (length (stream_received http expectedBytes)))
         (count_bytes (stream_received http expectedBytes) no_counts),
       Z.of_nat (length (stream_received http expectedBytes))) ].
Proof.
  intros H.
  destruct (stream_done http channelCommand expectedBytes H) as [_ Ht].
  rewrite Ht. change (Cmd ?b :: ?l) with ([Cmd b] ++ l).
  rewrite !reports_app, loop_reports.
  destruct (pad_channel_quiet channelCommand
              (bytesReceived (stream_final http expectedBytes))
              (tally (stream_final http expectedBytes))) as (_ & _ & ->).
  rewrite stream_received_length.
  assert (Htal : tally (stream_final http expectedBytes)
                 = count_bytes (stream_received http expectedBytes) no_counts).
  { unfold stream_final. now rewrite loop_tally. }
  rewrite Htal. clear Ht.
  destruct ((channelCommand =? 16) && _); reflexivity.
Qed.

(** C7, channel by channel.  After a transfer that runs to its end, the final report
    shows the classification of the N received bytes, plus, on the
    black/white channel (command 0x10) only, the TOTAL_BYTES - N pad bytes
    counted as white: there black + white + redPrep + other = TOTAL_BYTES.
    On the red channel pad bytes are counted in no class, so the four
    counters add up to N, the number of bytes received. *)
Theorem C7_counter_sum (http : HTTPClient) (channelCommand expectedBytes : Z) :
  stream_exit http expectedBytes = LoopDone ->
  let run := streamChannelToDisplay http channelCommand expectedBytes in
  let received := net_bytes (trace run) in
  let N := Z.of_nat (length received) in
  exists c,
    reports (trace run) = [(c, N)]
    /\ (channelCommand = 0x10 ->
        sum_counters c = TOTAL_BYTES
        /\ c = mkCounters (blackBytes (count_bytes received no_counts))
                          (whiteBytes (count_bytes received no_counts)
                           + (TOTAL_BYTES - N))
                          (redPrepBytes (count_bytes received no_counts))
                          (otherBytes (count_bytes received no_counts)))
    /\ (channelCommand <> 0x10 ->
        c = count_bytes received no_counts /\ sum_counters c = N).
Proof.
  intros Hdone run received N.
  assert (Hrec : received = stream_received http expectedBytes)
    by apply stream_net_bytes.
  assert (Hle : N <= TOTAL_BYTES).
  { unfold N. rewrite Hrec. apply stream_received_le_total. }
  eexists. split.
  { unfold run, N. rewrite Hrec. apply (stream_reports _ _ _ Hdone). }
  rewrite <- Hrec. fold N. split.
  - intros ->. split.
    + rewrite padded_tally_sum, count_bytes_sum. rewrite Z.eqb_refl.
      fold N. unfold sum_counters, no_counts.
      cbn [blackBytes whiteBytes redPrepBytes otherBytes]. lia.
    + unfold padded_tally. rewrite Z.eqb_refl.
      destruct (N <? TOTAL_BYTES) eqn:Hlt; cbn [andb]; [reflexivity|].
      apply Z.ltb_ge in Hlt. replace (TOTAL_BYTES - N) with 0 by lia.
      rewrite Z.add_0_r. now destruct (count_bytes received no_counts).
  - intros Hne. apply Z.eqb_neq in Hne.
    assert (Hc : padded_tally channelCommand N (count_bytes received no_counts)
                 = count_bytes received no_counts).
    { unfold padded_tally. rewrite Hne. now rewrite andb_false_r. }
    rewrite Hc. split; [reflexivity|].
    rewrite count_bytes_sum. fold N. unfold sum_counters, no_counts.
    cbn [blackBytes whiteBytes redPrepBytes otherBytes]. lia.
Qed.

Lemma C7_witness :
  stream_exit http_three 3 = LoopDone
  /\ exists c n,
       reports (trace (streamChannelToDisplay http_three 0x10 3)) = [(c, n)]
       /\ sum_counters c = TOTAL_BYTES.
Proof.
  assert (Hdone : stream_exit http_three 3 = LoopDone) by (vm_compute; reflexivity).
  destruct (C7_counter_sum http_three 0x10 3 Hdone) as (c & Hrep & Hbw & _).
  destruct (Hbw eq_refl) as [Hsum _].
  exact (conj Hdone (ex_intro _ c (ex_intro _ _ (conj Hrep Hsum)))).
Defined.

(** ** C6: the 30-second deadline *)







(** Passes whose clock reading is within the deadline do not time out. *)
Lemma loop_in_time (e startTime : Z) (early tl : list poll) (s : session) :
  Forall (fun p => elapsed startTime p <= 30000) early ->
  0 <= bytesReceived s ->
  (forall s', 0 <= bytesReceived s' ->
              fst (value (stream_loop tl e startTime s')) = LoopDone) ->
  fst (value (stream_loop (early ++ tl) e startTime s)) = LoopDone.
Proof.
  intros Hearly Hs Htl. revert s Hs.
  induction Hearly as [|p early Hp _ IH]; intros s Hs; [now apply Htl|].
  cbn [app]. destruct (running e s p) eqn:Hrun.
  - destruct (sock_at s p) as [|b bs] eqn:Hsock.
    + rewrite stream_loop_wait by assumption. cbn [value fst]. now apply IH.
    + assert (Hne : sock_at s p <> []) by (rewrite Hsock; discriminate).
      rewrite stream_loop_read by assumption. cbn [value fst]. apply IH.
      cbn [after_read bytesReceived]. lia.
  - now rewrite stream_loop_stop.
Qed.








(** ** C8: black/white, then red, then refresh *)

Lemma split_unique {A : Type} (x : A) (a b pre post : list A) :
  ~ In x a -> ~ In x b ->
  a ++ x :: b = pre ++ x :: post -> pre = a /\ post = b.
Proof.
  intros Ha Hb. revert pre. induction a as [|y a IH]; intros pre E.
  - destruct pre as [|z pre]; cbn [app] in E.
    + injection E as <-. now split.
    + injection E as <- ->. exfalso. apply Hb. apply in_or_app. right. now left.
  - destruct pre as [|z pre]; cbn [app] in E.
    + injection E as -> _. exfalso. apply Ha. now left.
    + injection E as <- E. destruct (IH (fun H => Ha (or_intror H)) pre E) as [-> ->].
      now split.
Qed.

Lemma not_in_split {A : Type} (x : A) (l pre post : list A) :
  ~ In x l -> l <> pre ++ x :: post.
Proof. intros H E. apply H. rewrite E. apply in_or_app. right. now left. Qed.

(** Membership of a command in the pieces a phased log is made of. *)
Ltac absent :=
  repeat (rewrite in_app_iff || cbn [In]);
  repeat match goal with
         | |- ~ _ => intros ?
         | H : _ \/ _ |- _ => destruct H
         | H : In (Cmd _) (map Dat _) |- _ => now apply not_Cmd_in_map_Dat in H
         | H : Cmd _ = Cmd _ |- _ => discriminate H
         | H : False |- _ => destruct H
         | H : ~ In ?x ?l, H' : In ?x ?l |- _ => now apply H in H'
         end.

Lemma phased_red_follows_full_bw (ini : list event) (ok : bool) (l : list event) :
  ~ In (Cmd 0x13) ini -> phased ini ok l -> red_follows_full_bw ini l.
Proof.
  intros Hini Hph pre post E. destruct Hph as [| |d Hd|bw d Hbw Hd|bw red Hbw Hred].
  - now destruct pre.
  - exfalso. now apply (not_in_split _ _ _ _ Hini E).
  - exfalso. apply (not_in_split (Cmd 19) _ pre post) in E; [exact E|]. absent.
  - change (ini ++ Cmd 16 :: map Dat bw ++ Cmd 19 :: map Dat d)
      with (ini ++ (Cmd 16 :: map Dat bw) ++ Cmd 19 :: map Dat d) in E.
    rewrite app_assoc in E.
    apply split_unique in E as [-> ->]; [|absent|absent].
    split; [now exists bw|]. apply not_Cmd_in_map_Dat.
  - change (ini ++ Cmd 16 :: map Dat bw ++ Cmd 19 :: map Dat red ++ [Cmd 18])
      with (ini ++ (Cmd 16 :: map Dat bw) ++ Cmd 19 :: (map Dat red ++ [Cmd 18])) in E.
    rewrite app_assoc in E.
    apply split_unique in E as [-> ->]; [|absent|absent].
    split; [now exists bw|]. absent.
Qed.

Lemma phased_refresh_follows_both (ini : list event) (ok : bool) (l : list event) :
  ~ In (Cmd 0x12) ini -> phased ini ok l -> refresh_follows_both ini l.
Proof.
  intros Hini Hph pre post E. destruct Hph as [| |d Hd|bw d Hbw Hd|bw red Hbw Hred].
  - now destruct pre.
  - exfalso. now apply (not_in_split _ _ _ _ Hini E).
  - exfalso. apply (not_in_split (Cmd 18) _ pre post) in E; [exact E|]. absent.
  - exfalso. apply (not_in_split (Cmd 18) _ pre post) in E; [exact E|]. absent.
  - assert (Eq : ini ++ Cmd 16 :: map Dat bw ++ Cmd 19 :: map Dat red ++ [Cmd 18]
                 = (ini ++ Cmd 16 :: map Dat bw ++ Cmd 19 :: map Dat red)
                   ++ Cmd 18 :: []).
    { rewrite <- app_assoc. cbn [app]. rewrite <- app_assoc. reflexivity. }
    rewrite Eq in E. clear Eq.
    apply split_unique in E as [-> ->]; [|absent|absent].
    split; [reflexivity|]. now exists bw, red.
Qed.

Lemma phased_refresh_iff (ini : list event) (ok : bool) (l : list event) :
  ~ In (Cmd 0x12) ini -> phased ini ok l -> (In (Cmd 0x12) l <-> ok = true).
Proof.
  intros Hini Hph. destruct Hph as [| |d Hd|bw d Hbw Hd|bw red Hbw Hred].
  - split; [intros []|discriminate].
  - split; [intros H; now apply Hini in H|discriminate].
  - split; [|discriminate]. intros H. exfalso.
    assert (Hn : ~ In (Cmd 18) (ini ++ Cmd 16 :: map Dat d)) by absent.
    exact (Hn H).
  - split; [|discriminate]. intros H. exfalso.
    assert (Hn : ~ In (Cmd 18) (ini ++ Cmd 16 :: map Dat bw ++ Cmd 19 :: map Dat d))
      by absent.
    exact (Hn H).
  - split; [reflexivity|]. intros _.
    apply in_or_app. right. right. apply in_or_app. right. right.
    apply in_or_app. right. now left.
Qed.

Lemma init_panel_commands :
  ~ In (Cmd 0x13) init_panel /\ ~ In (Cmd 0x12) init_panel.
Proof. split; cbn; intuition discriminate. Qed.

(** The bus traffic of every update of the calendar firmware is phased. *)
Lemma update_phased (w : world) :
  phased init_panel (value (downloadAndDisplayCalendar w))
    (panel (trace (downloadAndDisplayCalendar w))).
Proof.
  destruct (wifi_connected w) eqn:Hw.
  2:{ rewrite (update_no_wifi w Hw). apply ph_skipped. }
  destruct (value (downloadAndStreamBW (bw_http w))) eqn:Hbw.
  - destruct (bw_panel_shape (bw_http w)) as [[Hf _]|(bw & Hb & _ & Hfull)];
      [congruence|].
    specialize (Hfull Hbw).
    destruct (red_panel_shape (red_http w)) as (d & Hd & Hle & Hdfull).
    destruct (value (downloadAndStreamRed (red_http w))) eqn:Hred.
    + destruct (update_refreshed w Hw Hbw Hred) as [-> ->].
      rewrite !panel_app, init_panel_eq, Hb, Hd.
      cbn [panel filter on_bus app].
      apply ph_refreshed; auto.
    + destruct (update_red_failed w Hw Hbw Hred) as [-> ->].
      rewrite !panel_app, init_panel_eq, Hb, Hd.
      cbn [panel filter on_bus app]. rewrite app_nil_r.
      now apply ph_red_partial.
  - destruct (update_bw_failed w Hw Hbw) as [-> ->].
    rewrite !panel_app, init_panel_eq. cbn [panel filter on_bus].
    rewrite app_nil_r.
    destruct (bw_panel_shape (bw_http w)) as [[_ ->]|(d & -> & Hle & _)].
    + rewrite app_nil_r. apply ph_initialised.
    + now apply ph_bw_partial.
Qed.

(** The bus traffic of the demo firmware: both loops run to their end. *)
Lemma pattern_panel (getPixelColor : Z -> Z) :
  panel (trace (Demo.drawColorPattern getPixelColor))
  = Cmd 0x10
    :: map Dat (map (fun i => Demo.bwValue (getPixelColor i)) (range 0 TOTAL_BYTES))
    ++ Cmd 0x13
    :: map Dat (map (fun i => Demo.redValue (getPixelColor i)) (range 0 TOTAL_BYTES))
    ++ [Cmd 0x12].
Proof.
  unfold Demo.drawColorPattern. rewrite !trace_bind.
  rewrite (for_range_trace 0 TOTAL_BYTES (fun i => Demo.bwValue (getPixelColor i))).
  rewrite (for_range_trace 0 TOTAL_BYTES (fun i => Demo.redValue (getPixelColor i))).
  rewrite !panel_app, !panel_map_Dat. reflexivity.
Qed.

Lemma pattern_phased (ini : list event) (getPixelColor : Z -> Z) :
  phased ini true (ini ++ panel (trace (Demo.drawColorPattern getPixelColor))).
Proof.
  rewrite pattern_panel. apply ph_refreshed.
  - rewrite length_map, range_length. reflexivity.
  - rewrite length_map, range_length. reflexivity.
Qed.

Lemma demo_draw_panel (busy : list bool) (getPixelColor : Z -> Z) :
  panel (trace (EPD_7in5_V1_Init busy ;; Demo.drawColorPattern getPixelColor))
  = init_panel ++ panel (trace (Demo.drawColorPattern getPixelColor)).
Proof. now rewrite trace_bind, panel_app, init_panel_eq. Qed.

(** C8. In every update of the scheduled firmware, whatever the network
    does: wherever the red prepare command stands on the bus, the whole
    black/white channel (prepare command 0x10 and TOTAL_BYTES data bytes)
    stands before it; wherever the refresh command 0x12 stands, it is last,
    and before it stand both channels in full, black/white first; and the
    refresh is sent exactly when the update returns success.  The same
    order holds for [drawColorPattern] of the demo firmware, for every pixel
    function, and for each of its four demos (initialisation, then the
    pattern); there the refresh is always reached. *)
Theorem C8_bw_then_red_then_refresh :
  (forall w : world,
     let l := panel (trace (downloadAndDisplayCalendar w)) in
     red_follows_full_bw init_panel l
     /\ refresh_follows_both init_panel l
     /\ (In (Cmd 0x12) l <-> value (downloadAndDisplayCalendar w) = true))
  /\ (forall getPixelColor : Z -> Z,
        let l := panel (trace (Demo.drawColorPattern getPixelColor)) in
        red_follows_full_bw [] l
        /\ refresh_follows_both [] l
        /\ In (Cmd 0x12) l)
  /\ (forall (draw : list bool -> Eff unit) (busy : list bool),
        In draw demos ->
        let l := panel (trace (draw busy)) in
        red_follows_full_bw init_panel l
        /\ refresh_follows_both init_panel l
        /\ In (Cmd 0x12) l).
Proof.
  destruct init_panel_commands as [Hno13 Hno12].
  split; [|split].
  - intros w l. pose proof (update_phased w) as Hph. fold l in Hph.
    split; [|split].
    + exact (phased_red_follows_full_bw _ _ _ Hno13 Hph).
    + exact (phased_refresh_follows_both _ _ _ Hno12 Hph).
    + exact (phased_refresh_iff _ _ _ Hno12 Hph).
  - intros f l. pose proof (pattern_phased [] f) as Hph.
    cbn [app] in Hph. fold l in Hph.
    assert (Hnil : ~ In (Cmd 0x13) [] /\ ~ In (Cmd 0x12) []) by (split; intros []).
    destruct Hnil as [Hn13 Hn12].
    split; [|split].
    + exact (phased_red_follows_full_bw _ _ _ Hn13 Hph).
    + exact (phased_refresh_follows_both _ _ _ Hn12 Hph).
    + now apply (phased_refresh_iff _ _ _ Hn12 Hph).
  - intros draw busy Hin l.
    assert (Hf : exists f, l = init_panel ++ panel (trace (Demo.drawColorPattern f))).
    { unfold l. destruct Hin as [<-|[<-|[<-|[<-|[]]]]].
      - exists Demo.victoryBanner. unfold Demo.drawVictoryBanner.
        apply demo_draw_panel.
      - exists Demo.colorStripes. unfold Demo.drawColorStripes.
        apply demo_draw_panel.
      - exists Demo.redBorderFrame. unfold Demo.drawRedBorderFrame.
        apply demo_draw_panel.
      - exists Demo.checkerboard. unfold Demo.drawCheckerboard.
        apply demo_draw_panel. }
    destruct Hf as [f Hl].
    pose proof (pattern_phased init_panel f) as Hph.
    rewrite <- Hl in Hph.
    split; [|split].
    + exact (phased_red_follows_full_bw _ _ _ Hno13 Hph).
    + exact (phased_refresh_follows_both _ _ _ Hno12 Hph).
    + now apply (phased_refresh_iff _ _ _ Hno12 Hph).
Qed.

Lemma C8_witness :
  exists pre,
    panel (trace (downloadAndDisplayCalendar world_red_404)) = pre ++ Cmd 0x12 :: []
    /\ exists bw red,
         pre = init_panel ++ Cmd 0x10 :: map Dat bw ++ Cmd 0x13 :: map Dat red
         /\ Z.of_nat (length bw) = TOTAL_BYTES
         /\ Z.of_nat (length red) = TOTAL_BYTES.
Proof.
  exists (removelast (panel (trace (downloadAndDisplayCalendar world_red_404)))).
  assert (Hlast : last (panel (trace (downloadAndDisplayCalendar world_red_404)))
                     (Cmd 0) = Cmd 0x12)
    by (vm_compute; reflexivity).
  assert (E : panel (trace (downloadAndDisplayCalendar world_red_404))
              = removelast (panel (trace (downloadAndDisplayCalendar world_red_404)))
                ++ Cmd 0x12 :: []).
  { rewrite <- Hlast. apply app_removelast_last.
    intros Hnil. rewrite Hnil in Hlast. discriminate. }
  split; [exact E|].
  destruct C8_bw_then_red_then_refresh as [Hcal _].
  destruct (Hcal world_red_404) as (_ & Href & _).
  destruct (Href _ _ E) as (_ & H). exact H.
Defined.

(** * Further properties *)

(** ** The bus transport *)

Lemma count_up_in (i : Z) (n : nat) (k : Z) :
  i <= k < i + Z.of_nat n -> In k (count_up i n).
Proof.
  revert i. induction n as [|n IH]; intros i Hk; [lia|].
  cbn [count_up In]. destruct (Z.eq_dec i k) as [->|Hne]; [now left|].
  right. apply IH. lia.
Qed.

(** A check that holds of every byte value holds of every byte. *)
Lemma every_byte (P : Z -> bool) :
  forallb P (range 0 256) = true ->
  forall b, 0 <= b < 256 -> P b = true.
Proof.
  intros H b Hb. rewrite forallb_forall in H. apply H.
  apply count_up_in. cbn. lia.
Qed.

Lemma receive_all_app (r : receiver) (ws1 ws2 : list Bus.wire) :
  receive_all r (ws1 ++ ws2)
  = (fst (receive_all (fst (receive_all r ws1)) ws2),
     snd (receive_all r ws1) ++ snd (receive_all (fst (receive_all r ws1)) ws2)).
Proof.
  revert r. induction ws1 as [|w ws1 IH]; intros r.
  - cbn. now destruct (receive_all r ws2).
  - cbn [app receive_all]. destruct (receive r w) as [r1 out1].
    rewrite IH. destruct (receive_all r1 ws1) as [r2 out2]. cbn [fst snd].
    destruct (receive_all r2 ws2) as [r3 out3]. cbn [fst snd].
    now rewrite app_assoc.
Qed.

Lemma transactions_checked :
  forallb (fun b =>
    forallb (fun command =>
      forallb (fun dc =>
        forallb (fun din => transaction_ok command dc din b) [true; false])
        [true; false])
      [true; false])
    (range 0 256) = true.
Proof. vm_compute. reflexivity. Qed.

Lemma transaction_received (command : bool) (r : receiver) (b : Z) :
  at_rest r -> 0 <= b < 256 ->
  at_rest (fst (receive_all r (if command then Bus.EPD_SendCommand b
                               else Bus.EPD_SendData b)))
  /\ snd (receive_all r (if command then Bus.EPD_SendCommand b
                         else Bus.EPD_SendData b))
     = [if command then Cmd b else Dat b].
Proof.
  intros (Hcs & Hsck & Hbits) Hb.
  destruct r as [cs sck dc din bits]. cbn in Hcs, Hsck, Hbits. subst.
  pose proof (every_byte _ transactions_checked b Hb) as H.
  cbn [forallb] in H. rewrite !andb_true_r in H.
  assert (Hok : transaction_ok command dc din b = true).
  { rewrite !andb_true_iff in H.
    destruct command, dc, din; tauto. }
  clear H. unfold transaction_ok in Hok.
  destruct (receive_all _ _) as [r' out]. cbn [fst snd].
  destruct out as [|e [|e' out]]; try discriminate;
    destruct e; try discriminate.
  - rewrite !andb_true_iff in Hok. destruct Hok as [[[[Hc Hv] Hcs] Hsck] Hbits].
    apply Z.eqb_eq in Hv. subst.
    repeat split; auto.
    + now destruct (rx_sck r').
    + destruct (rx_bits r'); [reflexivity|discriminate].
  - rewrite !andb_true_iff in Hok. destruct Hok as [[[[Hc Hv] Hcs] Hsck] Hbits].
    apply Z.eqb_eq in Hv. subst. destruct command; [discriminate|].
    repeat split; auto.
    + now destruct (rx_sck r').
    + destruct (rx_bits r'); [reflexivity|discriminate].
Qed.

Lemma hardware_at_rest (r : receiver) :
  at_rest (fst (receive_all r Bus.initializeHardware)).
Proof. destruct r as [cs sck dc din bits]. now repeat split. Qed.

Lemma wires_received (l : list event) (r : receiver) :
  at_rest r ->
  Forall byte_sized l ->
  at_rest (fst (receive_all r (flat_map wires_of l)))
  /\ snd (receive_all r (flat_map wires_of l)) = panel l.
Proof.
  intros Hr Hl. revert r Hr.
  induction Hl as [|e l He _ IH]; intros r Hr; [now split|].
  cbn [flat_map]. rewrite receive_all_app. cbn [fst snd].
  assert (Hone : at_rest (fst (receive_all r (wires_of e)))
                 /\ snd (receive_all r (wires_of e)) = panel [e]).
  { destruct e; cbn [wires_of];
      try (cbn; split; [exact Hr|reflexivity]).
    - apply (transaction_received true r b Hr He).
    - apply (transaction_received false r b Hr He). }
  destruct Hone as [Hrest Hout].
  destruct (IH _ Hrest) as [Hrest' Hout'].
  split; [exact Hrest'|].
  rewrite Hout, Hout'. change (e :: l) with ([e] ++ l). now rewrite panel_app.
Qed.

Lemma init_byte_sized (busy : list bool) :
  Forall byte_sized (trace (EPD_7in5_V1_Init busy)).
Proof.
  rewrite init_trace. rewrite !Forall_app. repeat split.
  - unfold init_before_wait. repeat constructor; cbn; lia.
  - unfold EPD_WaitUntilIdle.
    destruct (wait_busy_trace busy 0) as (passes & -> & _).
    apply Forall_forall. intros e He. apply repeat_spec in He. now subst.
  - unfold init_after_wait. repeat constructor; cbn; lia.
Qed.

(** X1. The bit-banged transport carries the log.  Whatever the lines were
    before, [initializeHardware] leaves the bus at rest (CS high, SCK low);
    from there the pin writes of [EPD_SendCommand], [EPD_SendData] and the
    reset line, for any log whose bus bytes are in [0, 256), are read by a
    receiver that samples DIN at the rising edges of SCK, most significant
    bit first, as exactly the command and data bytes of the log, in order;
    and the bus is at rest again afterwards. *)
Theorem X1_wires_carry_the_log (l : list event) (lines : receiver) :
  Forall byte_sized l ->
  let r := fst (receive_all lines Bus.initializeHardware) in
  at_rest r
  /\ at_rest (fst (receive_all r (flat_map wires_of l)))
  /\ snd (receive_all r (flat_map wires_of l)) = panel l.
Proof.
  intros Hl r. pose proof (hardware_at_rest lines) as Hr. fold r in Hr.
  split; [exact Hr|]. now apply wires_received.
Qed.

Lemma X1_witness :
  Forall byte_sized (trace (EPD_7in5_V1_Init [true; false]))
  /\ snd (receive_all
            (fst (receive_all (mkReceiver false true false true [true; true])
                    Bus.initializeHardware))
            (flat_map wires_of (trace (EPD_7in5_V1_Init [true; false]))))
     = panel (trace (EPD_7in5_V1_Init [true; false])).
Proof.
  pose proof (init_byte_sized [true; false]) as H.
  exact (conj H
           (proj2 (proj2 (X1_wires_carry_the_log
                            (trace (EPD_7in5_V1_Init [true; false]))
                            (mkReceiver false true false true [true; true]) H)))).
Defined.

(** ** The wake schedule *)

Import Schedule.

Lemma update_slots_eq :
  update_slots
  = [470; 500; 530; 560; 590; 620; 650; 680; 710; 740;
     770; 800; 830; 860; 890; 920; 950; 980; 1010].
Proof. vm_compute. reflexivity. Qed.

(** From minute 0 on, the answer is that of the loop over the slots. *)
Lemma in_slots_window (currentMinutes : Z) :
  0 <= currentMinutes ->
  shouldUpdateNow currentMinutes = true
  <-> 465 <= currentMinutes <= 1015 /\ (currentMinutes - 465) mod 30 <= 10.
Proof.
  intros Hpos. unfold shouldUpdateNow. rewrite update_slots_eq.
  destruct (Z.ltb_spec currentMinutes 0) as [Hneg|_]; [lia|].
  cbn [existsb]. rewrite !orb_true_iff, !Z.leb_le.
  pose proof (Z.div_mod (currentMinutes - 465) 30 ltac:(lia)) as E.
  pose proof (Z.mod_pos_bound (currentMinutes - 465) 30 ltac:(lia)) as B.
  set (q := (currentMinutes - 465) / 30) in *.
  set (r := (currentMinutes - 465) mod 30) in *.
  lia.
Qed.

(** X2. [shouldUpdateNow] in closed form: it answers true when the time is
    unknown (negative), and otherwise exactly in the 11-minute windows
    centred on 7:50, 8:20, ... 16:50, that is from 7:45 (465) to 16:55
    (1015) whenever the minute is at most 10 past a multiple of 30 counted
    from 465. *)
Theorem X2_update_windows (currentMinutes : Z) :
  shouldUpdateNow currentMinutes = true
  <-> currentMinutes < 0
      \/ (465 <= currentMinutes <= 1015 /\ (currentMinutes - 465) mod 30 <= 10).
Proof.
  destruct (Z.ltb_spec currentMinutes 0) as [Hneg|Hpos].
  - unfold shouldUpdateNow. destruct (Z.ltb_spec currentMinutes 0); [|lia].
    split; [intros _; now left|reflexivity].
  - rewrite (in_slots_window currentMinutes Hpos).
    split; [intros H; now right|]. intros [H|H]; [lia|exact H].
Qed.

Lemma X2_witness :
  (465 <= 505 <= 1015 /\ (505 - 465) mod 30 <= 10) /\ shouldUpdateNow 505 = true.
Proof.
  assert (H : 465 <= 505 <= 1015 /\ (505 - 465) mod 30 <= 10)
    by (vm_compute; repeat split; discriminate).
  exact (conj H (proj2 (X2_update_windows 505) (or_intror H))).
Defined.

Lemma next_update_eq (currentMinutes : Z) :
  getNextUpdateMinutes currentMinutes
  = (if currentMinutes <? 470 then 470
     else if currentMinutes <? 1010
          then 470 + 30 * ((currentMinutes - 470) / 30 + 1)
          else 1910).
Proof.
  unfold getNextUpdateMinutes. rewrite update_slots_eq. cbn [find].
  pose proof (Z.div_mod (currentMinutes - 470) 30 ltac:(lia)) as E.
  pose proof (Z.mod_pos_bound (currentMinutes - 470) 30 ltac:(lia)) as B.
  set (q := (currentMinutes - 470) / 30) in *.
  set (r := (currentMinutes - 470) mod 30) in *.
  repeat match goal with
         | |- context [?s >? currentMinutes] =>
             destruct (Z.gtb_spec s currentMinutes)
         end;
  repeat match goal with
         | |- context [currentMinutes <? ?s] =>
             destruct (Z.ltb_spec currentMinutes s)
         end;
  try lia. reflexivity.
Qed.

(** The next slot is later than now, and no further than tomorrow's first. *)
Lemma next_update_later (currentMinutes : Z) :
  currentMinutes < 1910 ->
  currentMinutes < getNextUpdateMinutes currentMinutes <= 1910
  /\ (470 <= currentMinutes < 1010 ->
      getNextUpdateMinutes currentMinutes <= currentMinutes + 30).
Proof.
  intros Hlt. rewrite next_update_eq.
  pose proof (Z.div_mod (currentMinutes - 470) 30 ltac:(lia)) as E.
  pose proof (Z.mod_pos_bound (currentMinutes - 470) 30 ltac:(lia)) as B.
  set (q := (currentMinutes - 470) / 30) in *.
  set (r := (currentMinutes - 470) mod 30) in *.
  destruct (Z.ltb_spec currentMinutes 470); [lia|].
  destruct (Z.ltb_spec currentMinutes 1010); lia.
Qed.

(** X3. [getNextUpdateMinutes] in closed form: 7:50 before the first slot,
    the first slot strictly after the current minute during the day, and
    7:50 of the next day (1910) from the last slot on.  In particular the
    result is later than any minute the clock can show, and during the day
    at most 30 minutes later. *)
Theorem X3_next_update (currentMinutes : Z) :
  getNextUpdateMinutes currentMinutes
  = (if currentMinutes <? 470 then 470
     else if currentMinutes <? 1010
          then 470 + 30 * ((currentMinutes - 470) / 30 + 1)
          else 1910)
  /\ (currentMinutes < 1910 ->
      currentMinutes < getNextUpdateMinutes currentMinutes <= 1910)
  /\ (470 <= currentMinutes < 1010 ->
      getNextUpdateMinutes currentMinutes <= currentMinutes + 30).
Proof.
  split; [apply next_update_eq|]. split.
  - intros H. now apply next_update_later.
  - intros H. apply next_update_later; lia.
Qed.

Lemma X3_witness :
  (1439 < 1910 /\ 1439 < getNextUpdateMinutes 1439 <= 1910)
  /\ (470 <= 480 < 1010 /\ getNextUpdateMinutes 480 <= 480 + 30).
Proof.
  assert (H1 : 1439 < 1910) by lia.
  assert (H2 : 470 <= 480 < 1010) by lia.
  destruct (X3_next_update 1439) as (_ & Hlater & _).
  destruct (X3_next_update 480) as (_ & _ & Hnear).
  exact (conj (conj H1 (Hlater H1)) (conj H2 (Hnear H2))).
Defined.

Lemma minutes_of_day_range (t : clock) (millis : Z) :
  (timeSet t = false -> getCurrentMinutesFromMidnight t millis = -1)
  /\ (timeSet t = true -> 0 <= getCurrentMinutesFromMidnight t millis <= 1439).
Proof.
  unfold getCurrentMinutesFromMidnight. split; intros ->; cbn [negb];
    [reflexivity|].
  set (ts := (serverTimestamp t + _ / 1000) mod 2 ^ 32).
  change (24 * 60 * 60) with 86400.
  pose proof (Z.mod_pos_bound ts 86400 ltac:(lia)) as B.
  set (sec := ts mod 86400) in *.
  pose proof (Z.div_mod sec 3600 ltac:(lia)) as E1.
  pose proof (Z.mod_pos_bound sec 3600 ltac:(lia)) as B1.
  set (h := sec / 3600) in *. set (rest := sec mod 3600) in *.
  pose proof (Z.div_mod rest 60 ltac:(lia)) as E2.
  pose proof (Z.mod_pos_bound rest 60 ltac:(lia)) as B2.
  set (m := rest / 60) in *. set (s := rest mod 60) in *.
  lia.
Qed.

(** The 32-bit product of [sleepMicros] is the product modulo 2^32. *)
Lemma sleepMicros_eq (minutes : Z) :
  sleepMicros minutes = (minutes * 60000000) mod 2 ^ 32.
Proof.
  unfold sleepMicros.
  rewrite Z.mul_mod_idemp_l by lia.
  rewrite <- Z.mul_assoc, Z.mul_mod_idemp_l by lia.
  reflexivity.
Qed.

(** X4. Whatever the clock state, [enterDeepSleepUntilNextUpdate] works on a
    minute of the day between -1 (time unknown) and 1439; for such a
    minute the next slot is always later, so the branch for a slot that is
    not later is never taken; the device decides to sleep until 2 minutes
    before the next slot and at least 1 minute: between 1 and 898 minutes,
    at most 28 once the first slot of the day is reached, and never past
    the next slot. *)
Theorem X4_sleep_minutes (t : clock) (millis : Z) :
  let currentMinutes := getCurrentMinutesFromMidnight t millis in
  let nextUpdateMinutes := getNextUpdateMinutes currentMinutes in
  -1 <= currentMinutes <= 1439
  /\ currentMinutes < nextUpdateMinutes
  /\ sleepMinutes currentMinutes = Z.max 1 (nextUpdateMinutes - currentMinutes - 2)
  /\ 1 <= sleepMinutes currentMinutes <= 898
  /\ (470 <= currentMinutes < 1010 -> sleepMinutes currentMinutes <= 28)
  /\ currentMinutes + sleepMinutes currentMinutes <= nextUpdateMinutes.
Proof.
  intros cur next.
  assert (Hc : -1 <= cur <= 1439).
  { destruct (minutes_of_day_range t millis) as [Hoff Hon]. unfold cur.
    destruct (timeSet t); [specialize (Hon eq_refl); lia|].
    rewrite (Hoff eq_refl). lia. }
  destruct (next_update_later cur ltac:(lia)) as [Hn Hnear]. fold next in Hn, Hnear.
  assert (Hs : sleepMinutes cur = Z.max 1 (next - cur - 2)).
  { unfold sleepMinutes. fold next.
    destruct (Z.gtb_spec next cur); [reflexivity|lia]. }
  assert (Hfirst : 470 <= next).
  { unfold next. rewrite next_update_eq.
    pose proof (Z.div_mod (cur - 470) 30 ltac:(lia)) as E.
    pose proof (Z.mod_pos_bound (cur - 470) 30 ltac:(lia)) as B.
    set (q := (cur - 470) / 30) in *. set (r := (cur - 470) mod 30) in *.
    destruct (Z.ltb_spec cur 470); [lia|].
    destruct (Z.ltb_spec cur 1010); lia. }
  assert (Hlate : 1010 <= cur -> next = 1910).
  { intros H. unfold next. rewrite next_update_eq.
    destruct (Z.ltb_spec cur 470); [lia|].
    destruct (Z.ltb_spec cur 1010); [lia|reflexivity]. }
  assert (Hearly : cur < 470 -> next = 470).
  { intros H. unfold next. rewrite next_update_eq.
    destruct (Z.ltb_spec cur 470); [reflexivity|lia]. }
  rewrite Hs. repeat split; try lia.
Qed.

Lemma X4_witness :
  470 <= getCurrentMinutesFromMidnight (mkClock true 28800 0) 0 < 1010
  /\ sleepMinutes (getCurrentMinutesFromMidnight (mkClock true 28800 0) 0) <= 28.
Proof.
  assert (H : 470 <= getCurrentMinutesFromMidnight (mkClock true 28800 0) 0 < 1010)
    by (vm_compute; split; [discriminate|reflexivity]).
  destruct (X4_sleep_minutes (mkClock true 28800 0) 0) as (_ & _ & _ & _ & Hday & _).
  exact (conj H (Hday H)).
Defined.

(** X5. The microseconds handed to [ESP.deepSleep] are computed in 32 bits.
    For a minute of the day they are the decided minutes times 60 000 000
    exactly when the device wakes between 6:37 (397) and 16:49 (1009); at
    every other time of day -- the whole evening and night -- the product
    wraps at 2^32 and the request is shorter than decided.  In every case
    it is less than 2^32 microseconds, about 71.6 minutes. *)
Theorem X5_sleep_micros (currentMinutes : Z) :
  -1 <= currentMinutes <= 1439 ->
  let minutes := sleepMinutes currentMinutes in
  0 <= sleepMicros minutes < 2 ^ 32
  /\ (397 <= currentMinutes < 1010 -> sleepMicros minutes = minutes * 60000000)
  /\ (currentMinutes < 397 \/ 1010 <= currentMinutes ->
      sleepMicros minutes < minutes * 60000000).
Proof.
  intros Hc minutes.
  destruct (next_update_later currentMinutes ltac:(lia)) as [Hn Hnear].
  assert (Hs : minutes = Z.max 1 (getNextUpdateMinutes currentMinutes
                                  - currentMinutes - 2)).
  { unfold minutes, sleepMinutes.
    destruct (Z.gtb_spec (getNextUpdateMinutes currentMinutes) currentMinutes);
      [reflexivity|lia]. }
  rewrite next_update_eq in Hs, Hnear.
  rewrite sleepMicros_eq. change (2 ^ 32) with 4294967296.
  pose proof (Z.mod_pos_bound (minutes * 60000000) 4294967296 ltac:(lia)) as B.
  split; [exact B|]. split.
  - intros H. apply Z.mod_small.
    destruct (Z.ltb_spec currentMinutes 470).
    + lia.
    + destruct (Z.ltb_spec currentMinutes 1010); [|lia].
      specialize (Hnear ltac:(lia)). lia.
  - intros H.
    assert (72 <= minutes).
    { destruct (Z.ltb_spec currentMinutes 470); [lia|].
      destruct (Z.ltb_spec currentMinutes 1010); lia. }
    lia.
Qed.

Lemma X5_witness :
  (397 <= 1008 < 1010 /\ sleepMicros (sleepMinutes 1008) = sleepMinutes 1008 * 60000000)
  /\ (1010 <= 1012
      /\ sleepMicros (sleepMinutes 1012) < sleepMinutes 1012 * 60000000).
Proof.
  assert (Hc1 : -1 <= 1008 <= 1439) by lia.
  assert (Hc2 : -1 <= 1012 <= 1439) by lia.
  assert (H1 : 397 <= 1008 < 1010) by lia.
  assert (H2 : 1010 <= 1012) by lia.
  destruct (X5_sleep_micros 1008 Hc1) as (_ & Hexact & _).
  destruct (X5_sleep_micros 1012 Hc2) as (_ & _ & Hshort).
  exact (conj (conj H1 (Hexact H1)) (conj H2 (Hshort (or_intror H2)))).
Defined.

(** ** Time keeping *)

Lemma as_int_ok (x : Z) :
  -2147483648 <= x < 2147483648 -> as_int x = Some x.
Proof.
  intros H. unfold as_int.
  change (- 2 ^ 31) with (-2147483648). change (2 ^ 31) with 2147483648.
  destruct (Z.leb_spec (-2147483648) x); [|lia].
  destruct (Z.ltb_spec x 2147483648); [reflexivity|lia].
Qed.

Lemma add_months_stop (m month days : Z) (passes : nat) :
  month <= m -> add_months m month days passes = Some days.
Proof.
  intros H. destruct passes; cbn [add_months];
    destruct (Z.ltb_spec m month); try lia; reflexivity.
Qed.

Lemma add_months_go (m month days d : Z) (passes : nat) :
  m < month ->
  nth_error daysInMonth (Z.to_nat (m - 1)) = Some d ->
  -2147483648 <= days + d < 2147483648 ->
  add_months m month days (S passes) = add_months (m + 1) month (days + d) passes.
Proof.
  intros Hm Hd Hi. cbn [add_months].
  destruct (Z.ltb_spec m month); [|lia].
  now rewrite Hd, as_int_ok.
Qed.

(** The days of the months before [month], as the loop adds them up. *)
Lemma add_months_upto (month days : Z) :
  month <= 13 -> 0 <= days <= 2147483000 ->
  exists offset,
    add_months 1 month days 13 = Some (days + offset)
    /\ 0 <= offset <= 365.
Proof.
  intros Hm Hd.
  destruct (Z.le_gt_cases month 1) as [Hlow|Hhigh].
  { exists 0. rewrite add_months_stop by lia. split; [f_equal; lia|lia]. }
  assert (Hcases : month = 2 \/ month = 3 \/ month = 4
                   \/ month = 5 \/ month = 6 \/ month = 7 \/ month = 8
                   \/ month = 9 \/ month = 10 \/ month = 11 \/ month = 12
                   \/ month = 13) by lia.
  exists (nth (Z.to_nat (month - 1))
              [0; 31; 59; 90; 120; 151; 181; 212; 243; 273; 304; 334; 365] 0).
  repeat (destruct Hcases as [->|Hcases];
          [repeat (erewrite add_months_go by first [lia | reflexivity]);
           rewrite add_months_stop by lia;
           vm_compute (nth _ _ _); split; [f_equal; lia | lia]|]).
  subst month.
  repeat (erewrite add_months_go by first [lia | reflexivity]).
  rewrite add_months_stop by lia.
  vm_compute (nth _ _ _). split; [f_equal; lia | lia].
Qed.

(** From the 13th pass on the loop reads past the end of the array. *)
Lemma add_months_past (passes : nat) (m month days : Z) :
  1 <= m <= 13 -> m + Z.of_nat passes = 14 -> 14 <= month ->
  add_months m month days passes = None.
Proof.
  revert m days. induction passes as [|passes IH]; intros m days Hm Hp Hmonth; [lia|].
  cbn [add_months]. destruct (Z.ltb_spec m month); [|lia].
  destruct (Z.eq_dec m 13) as [->|Hne]; [reflexivity|].
  destruct (nth_error daysInMonth (Z.to_nat (m - 1))); [|reflexivity].
  destruct (as_int (days + z)); [|reflexivity]. cbn [and_then].
  apply IH; lia.
Qed.

(** X7. Round trip of the time of day.  For a date from 1970 to 2100 with
    its fields in range, [parseISOTimestamp]'s arithmetic gives a timestamp;
    with that timestamp as the server time taken at clock reading [base],
    [getCurrentMinutesFromMidnight], called [later] milliseconds afterwards
    (even across the wrap of the 32-bit millisecond clock), returns the
    minute of the day of the fields advanced by the whole seconds elapsed. *)
Theorem X7_time_of_day_round_trip
    (year month day hour minute second base later : Z) :
  1970 <= year <= 2100 -> 1 <= month <= 12 -> 1 <= day <= 31 ->
  0 <= hour < 24 -> 0 <= minute < 60 -> 0 <= second < 60 ->
  0 <= later < 2 ^ 32 ->
  exists ts,
    timestamp_of_fields year month day hour minute second = Some ts
    /\ getCurrentMinutesFromMidnight (mkClock true ts base)
         ((base + later) mod 2 ^ 32)
       = ((seconds_of_day hour minute second + later / 1000) mod 86400) / 60.
Proof.
  intros Hy Hmo Hd Hh Hmi Hs Hl.
  change (2 ^ 32) with 4294967296 in *.
  assert (Hq : 0 <= (year - 1970) ÷ 4 <= 32).
  { split; [apply Z.quot_pos; lia|].
    enough ((year - 1970) ÷ 4 < 33) by lia.
    apply Z.quot_lt_upper_bound; lia. }
  unfold timestamp_of_fields.
  rewrite (as_int_ok (year - 1970)) by lia. cbn [and_then].
  rewrite (as_int_ok ((year - 1970) * 365)) by lia. cbn [and_then].
  rewrite as_int_ok by lia. cbn [and_then].
  destruct (add_months_upto month ((year - 1970) * 365 + (year - 1970) ÷ 4))
    as (offset & -> & Hoff); [lia|lia|].
  cbn [and_then]. rewrite (as_int_ok (day - 1)) by lia. cbn [and_then].
  rewrite as_int_ok by lia. cbn [and_then].
  cbv beta iota zeta. change (2 ^ 32) with 4294967296.
  set (days := (year - 1970) * 365 + (year - 1970) ÷ 4 + offset + (day - 1)).
  assert (Hdays : 0 <= days <= 47877) by (unfold days; lia).
  assert (Hsod : 0 <= seconds_of_day hour minute second < 86400)
    by (unfold seconds_of_day; lia).
  rewrite (Z.mod_small days), (Z.mod_small hour), (Z.mod_small minute),
          (Z.mod_small second) by lia.
  rewrite (Z.mod_small (days * 24)) by lia.
  rewrite (Z.mod_small (days * 24 * 60)) by lia.
  rewrite (Z.mod_small (days * 24 * 60 * 60)) by lia.
  rewrite (Z.mod_small (hour * 60)) by lia.
  rewrite (Z.mod_small (hour * 60 * 60)) by lia.
  rewrite (Z.mod_small (minute * 60)) by lia.
  rewrite (Z.mod_small (days * 24 * 60 * 60 + hour * 60 * 60)) by lia.
  rewrite (Z.mod_small (days * 24 * 60 * 60 + hour * 60 * 60 + minute * 60)) by lia.
  rewrite (Z.mod_small (days * 24 * 60 * 60 + hour * 60 * 60 + minute * 60 + second))
    by lia.
  replace (days * 24 * 60 * 60 + hour * 60 * 60 + minute * 60 + second)
    with (days * 86400 + seconds_of_day hour minute second)
    by (unfold seconds_of_day; lia).
  eexists. split; [reflexivity|].
  unfold getCurrentMinutesFromMidnight. cbn [timeSet negb serverTimestamp localTimeBase].
  change (2 ^ 32) with 4294967296. change (24 * 60 * 60) with 86400.
  assert (Hel : ((base + later) mod 4294967296 - base) mod 4294967296 = later).
  { rewrite Zminus_mod_idemp_l.
    replace (base + later - base) with later by lia.
    apply Z.mod_small. lia. }
  rewrite Hel.
  assert (Hk : 0 <= later / 1000 <= 4294967).
  { split; [apply Z.div_pos; lia|].
    enough (later / 1000 < 4294968) by lia.
    apply Z.div_lt_upper_bound; lia. }
  set (k := later / 1000) in *.
  set (sod := seconds_of_day hour minute second) in *.
  rewrite (Z.mod_small (days * 86400 + sod + k)) by lia.
  replace (days * 86400 + sod + k) with (sod + k + days * 86400) by lia.
  rewrite Z.mod_add by lia.
  pose proof (Z.mod_pos_bound (sod + k) 86400 ltac:(lia)) as B.
  set (sec := (sod + k) mod 86400) in *.
  pose proof (Z.div_mod sec 3600 ltac:(lia)) as E1.
  pose proof (Z.mod_pos_bound sec 3600 ltac:(lia)) as B1.
  set (h := sec / 3600) in *. set (rest := sec mod 3600) in *.
  pose proof (Z.div_mod rest 60 ltac:(lia)) as E2.
  pose proof (Z.mod_pos_bound rest 60 ltac:(lia)) as B2.
  set (m := rest / 60) in *. set (s := rest mod 60) in *.
  apply Z.div_unique with (r := s); lia.
Qed.

Lemma X7_witness :
  exists ts,
    timestamp_of_fields 2024 3 15 7 48 30 = Some ts
    /\ getCurrentMinutesFromMidnight (mkClock true ts 4294960000)
         ((4294960000 + 120000) mod 2 ^ 32)
       = ((seconds_of_day 7 48 30 + 120000 / 1000) mod 86400) / 60.
Proof.
  apply (X7_time_of_day_round_trip 2024 3 15 7 48 30 4294960000 120000);
    change (2 ^ 32) with 4294967296; lia.
Defined.

(** X8. A month field of 14 or more makes [parseISOTimestamp] read past
    the end of [daysInMonth]: for a year from 1970 to 2100 and a day from 1
    to 31 the timestamp is defined exactly when the month field is at most
    13, whatever the hour, minute and second fields are (a month below 1
    adds no days, and 13 adds the whole year). *)
Theorem X8_month_past_the_array (year month day hour minute second : Z) :
  1970 <= year <= 2100 -> 1 <= day <= 31 ->
  (timestamp_of_fields year month day hour minute second = None <-> 14 <= month).
Proof.
  intros Hy Hd.
  assert (Hq : 0 <= (year - 1970) ÷ 4 <= 32).
  { split; [apply Z.quot_pos; lia|].
    enough ((year - 1970) ÷ 4 < 33) by lia.
    apply Z.quot_lt_upper_bound; lia. }
  unfold timestamp_of_fields.
  rewrite (as_int_ok (year - 1970)) by lia. cbn [and_then].
  rewrite (as_int_ok ((year - 1970) * 365)) by lia. cbn [and_then].
  rewrite as_int_ok by lia. cbn [and_then].
  split.
  - intros Hnone. destruct (Z.le_gt_cases 14 month) as [H|H]; [exact H|].
    exfalso. revert Hnone.
    destruct (add_months_upto month ((year - 1970) * 365 + (year - 1970) ÷ 4))
      as (offset & -> & Hoff); [lia|lia|].
    cbn [and_then]. rewrite (as_int_ok (day - 1)) by lia. cbn [and_then].
    rewrite as_int_ok by lia. cbn [and_then]. discriminate.
  - intros H. now rewrite (add_months_past 13 1) by lia.
Qed.

Lemma X8_witness :
  timestamp_of_fields 2025 14 4 13 28 26 = None
  /\ timestamp_of_fields 2025 13 4 13 28 26 <> None.
Proof.
  split.
  - apply (X8_month_past_the_array 2025 14 4 13 28 26); lia.
  - intros H. apply (X8_month_past_the_array 2025 13 4 13 28 26) in H; lia.
Defined.

(** ** Waiting for the panel *)

Lemma total_delay_app (l1 l2 : list event) :
  total_delay (l1 ++ l2) = total_delay l1 + total_delay l2.
Proof.
  induction l1 as [|e l1 IH]; [reflexivity|].
  destruct e; cbn [app total_delay]; rewrite IH; lia.
Qed.

Lemma total_delay_repeat (ms : Z) (n : nat) :
  total_delay (repeat (Delay ms) n) = ms * Z.of_nat n.
Proof.
  induction n as [|n IH]; [cbn; lia|].
  cbn [repeat total_delay]. rewrite IH. lia.
Qed.

(** X9. [EPD_WaitUntilIdle] spends exactly one [delay(20)] for every read of
    the BUSY pin that finds it high, up to 501 of them, and one more when
    the pin was found low within the first 500 reads; so a pin stuck high
    costs 10.02 s and a pin that is low at once 20 ms.  Initialisation as a
    whole spends 107 ms more than that in delays: between 127 ms and
    10.127 s. *)
Theorem X9_wait_until_idle (busy : list bool) :
  let passes := Nat.min (S (leading_high busy)) 501 in
  trace (EPD_WaitUntilIdle busy) = repeat (Delay 20) passes
  /\ total_delay (trace (EPD_7in5_V1_Init busy)) = 107 + 20 * Z.of_nat passes
  /\ 127 <= total_delay (trace (EPD_7in5_V1_Init busy)) <= 10127.
Proof.
  intros passes.
  assert (Hw : trace (EPD_WaitUntilIdle busy) = repeat (Delay 20) passes).
  { unfold EPD_WaitUntilIdle. now rewrite wait_busy_exact by lia. }
  assert (Hd : total_delay (trace (EPD_7in5_V1_Init busy)) = 107 + 20 * Z.of_nat passes).
  { rewrite init_trace, Hw, !total_delay_app, total_delay_repeat.
    change (total_delay init_before_wait) with 105.
    change (total_delay init_after_wait) with 2. lia. }
  split; [exact Hw|]. split; [exact Hd|]. rewrite Hd. unfold passes. lia.
Qed.

(** ** The use of the network *)

Lemma net_run_app (open : option url) (l1 l2 : list event) :
  net_run open (l1 ++ l2)
  = match net_run open l1 with
    | Some open' => net_run open' l2
    | None => None
    end.
Proof.
  revert open. induction l1 as [|e l1 IH]; intros open; [reflexivity|].
  cbn [app net_run]. destruct (net_step open e); [apply IH|reflexivity].
Qed.

Lemma net_run_seq (open open' : option url) (l1 l2 : list event) :
  net_run open l1 = Some open' -> net_run open (l1 ++ l2) = net_run open' l2.
Proof. intros H. now rewrite net_run_app, H. Qed.

Lemma net_run_off (open : option url) (l : list event) :
  forallb off_net l = true -> net_run open l = Some open.
Proof.
  induction l as [|e l IH]; [reflexivity|].
  cbn [forallb]. rewrite andb_true_iff. intros [He Hl].
  cbn [net_run]. destruct e; try discriminate; destruct open; cbn; auto.
Qed.

Lemma off_net_map_Dat (l : list Z) : forallb off_net (map Dat l) = true.
Proof. induction l as [|b l IH]; [reflexivity|exact IH]. Qed.

Lemma off_net_delays (ms : Z) (n : nat) : forallb off_net (repeat (Delay ms) n) = true.
Proof. induction n as [|n IH]; [reflexivity|exact IH]. Qed.

Lemma off_net_init (busy : list bool) :
  forallb off_net (trace (EPD_7in5_V1_Init busy)) = true.
Proof.
  rewrite init_trace, !forallb_app. unfold EPD_WaitUntilIdle.
  destruct (wait_busy_trace busy 0) as (passes & -> & _).
  now rewrite off_net_delays.
Qed.

Lemma off_net_pad (channelCommand received : Z) (c : counters) :
  forallb off_net (trace (pad_channel channelCommand received c)) = true.
Proof.
  rewrite pad_channel_trace. destruct (received <? TOTAL_BYTES); [|reflexivity].
  cbn [forallb off_net andb]. apply off_net_map_Dat.
Qed.

(** Inside an open request the loop keeps the request open, and every read
    takes between 1 and 1024 bytes. *)
Lemma loop_net (u : url) (expectedBytes startTime : Z) (peer : list poll) (s : session) :
  net_run (Some u) (trace (stream_loop peer expectedBytes startTime s)) = Some (Some u).
Proof.
  revert peer s.
  apply (stream_loop_cases expectedBytes startTime
           (fun _ _ r => net_run (Some u) (trace r) = Some (Some u))).
  - reflexivity.
  - reflexivity.
  - intros s p peer Hrun Hsock IH. cbn [trace snd net_run net_step].
    pose proof (to_read_bounds expectedBytes s p Hrun Hsock) as (Hsz & _).
    rewrite (chunk_length expectedBytes s p Hrun Hsock).
    destruct (Z.leb_spec 1 (to_read expectedBytes s p)); [|lia].
    destruct (Z.leb_spec (to_read expectedBytes s p) 1024); [|lia].
    cbn [andb]. rewrite net_run_app, net_run_off by apply off_net_map_Dat.
    exact IH.
  - reflexivity.
  - intros s p peer Hrun Hsock Hel IH. exact IH.
Qed.

Lemma stream_net (u : url) (http : HTTPClient) (channelCommand expectedBytes : Z) :
  net_run (Some u) (trace (streamChannelToDisplay http channelCommand expectedBytes))
  = Some (Some u).
Proof.
  destruct (stream_exit http expectedBytes) eqn:H.
  - destruct (stream_done http channelCommand expectedBytes H) as [_ ->].
    cbn [net_run net_step]. rewrite net_run_app, loop_net.
    rewrite net_run_app, net_run_off by apply off_net_pad.
    cbn [net_run net_step].
    now destruct ((channelCommand =? 16) && _).
  - destruct (stream_timed_out http channelCommand expectedBytes H) as [_ ->].
    cbn [net_run net_step]. apply loop_net.
Qed.

Lemma bw_net (http : HTTPClient) :
  net_run None (trace (downloadAndStreamBW http)) = Some None.
Proof.
  destruct (Z.eq_dec (h_code http) HTTP_CODE_OK) as [Hok|Hfail].
  - destruct (bw_request_ok http Hok) as [_ ->].
    cbn [net_run net_step]. now rewrite net_run_app, stream_net.
  - now rewrite (bw_request_failed http Hfail).
Qed.

Lemma red_net (http : HTTPClient) :
  net_run None (trace (downloadAndStreamRed http)) = Some None.
Proof.
  destruct (Z.eq_dec (h_code http) HTTP_CODE_OK) as [Hok|Hfail].
  - destruct (red_request_ok http Hok) as [_ ->].
    cbn [net_run net_step]. now rewrite net_run_app, stream_net.
  - destruct (red_request_failed http Hfail) as [_ ->].
    cbn [app net_run net_step].
    now rewrite net_run_app, net_run_off by apply off_net_map_Dat.
Qed.

Lemma bw_requests (http : HTTPClient) :
  requests (trace (downloadAndStreamBW http)) = [calendar_raw_url].
Proof.
  destruct (Z.eq_dec (h_code http) HTTP_CODE_OK) as [Hok|Hfail].
  - destruct (bw_request_ok http Hok) as [_ ->].
    cbn [requests]. now rewrite requests_app, stream_requests.
  - now rewrite (bw_request_failed http Hfail).
Qed.

Lemma red_requests (http : HTTPClient) :
  requests (trace (downloadAndStreamRed http)) = [calendar_red_url].
Proof.
  destruct (Z.eq_dec (h_code http) HTTP_CODE_OK) as [Hok|Hfail].
  - destruct (red_request_ok http Hok) as [_ ->].
    cbn [requests]. now rewrite requests_app, stream_requests.
  - destruct (red_request_failed http Hfail) as [_ ->].
    cbn [app requests]. now rewrite requests_app, requests_map_Dat.
Qed.

(** X10. The discipline of the network in an update, whatever the servers
    and the peer do: a request is opened only when none is open, every
    request that is opened is ended, bytes are read only while a request is
    open and between 1 and 1024 at a time, and the update ends with no
    request open.  The requests are the black/white bitplane and then,
    only if the black/white download returned true, the red one. *)
Theorem X10_network_discipline (w : world) :
  net_run None (trace (downloadAndDisplayCalendar w)) = Some None
  /\ requests (trace (downloadAndDisplayCalendar w))
     = if wifi_connected w then
         calendar_raw_url
         :: (if value (downloadAndStreamBW (bw_http w)) then [calendar_red_url] else [])
       else [].
Proof.
  pose proof (init_quiet (busy_pin w)) as [Hireq _].
  pose proof (net_run_off None _ (off_net_init (busy_pin w))) as Hinit.
  destruct (wifi_connected w) eqn:Hw.
  2:{ now rewrite (update_no_wifi w Hw). }
  destruct (value (downloadAndStreamBW (bw_http w))) eqn:Hbw.
  - destruct (value (downloadAndStreamRed (red_http w))) eqn:Hred.
    + destruct (update_refreshed w Hw Hbw Hred) as [_ ->].
      rewrite (net_run_seq None None _ _ Hinit).
      rewrite (net_run_seq None None _ _ (bw_net _)).
      rewrite (net_run_seq None None _ _ (red_net _)).
      rewrite !requests_app, Hireq, bw_requests, red_requests. now split.
    + destruct (update_red_failed w Hw Hbw Hred) as [_ ->].
      rewrite (net_run_seq None None _ _ Hinit).
      rewrite (net_run_seq None None _ _ (bw_net _)).
      rewrite (net_run_seq None None _ _ (red_net _)).
      rewrite !requests_app, Hireq, bw_requests, red_requests. now split.
  - destruct (update_bw_failed w Hw Hbw) as [_ ->].
    rewrite (net_run_seq None None _ _ Hinit).
    rewrite (net_run_seq None None _ _ (bw_net _)).
    rewrite !requests_app, Hireq, bw_requests. now split.
Qed.

(** ** What the counters count *)

Lemma count_bytes_occurrences (bytes : list Z) (c : counters) :
  count_bytes bytes c
  = mkCounters (blackBytes c + occurrences 0x00 bytes)
               (whiteBytes c + occurrences 0x33 bytes)
               (redPrepBytes c + occurrences 0xCC bytes)
               (otherBytes c + unclassified bytes).
Proof.
  unfold count_bytes, occurrences, unclassified.
  revert c. induction bytes as [|b bytes IH]; intros c.
  - destruct c. cbn. f_equal; lia.
  - cbn [fold_left]. rewrite IH. unfold classify. cbn [count_occ filter].
    destruct (Z.eqb_spec b 0) as [->|H0].
    + cbn [blackBytes whiteBytes redPrepBytes otherBytes].
      destruct (Z.eq_dec 0 0); [|contradiction].
      destruct (Z.eq_dec 0 51); [discriminate|].
      destruct (Z.eq_dec 0 204); [discriminate|].
      cbn [orb negb]. f_equal; lia.
    + destruct (Z.eqb_spec b 51) as [->|H1].
      * cbn [blackBytes whiteBytes redPrepBytes otherBytes].
        destruct (Z.eq_dec 51 0); [discriminate|].
        destruct (Z.eq_dec 51 51); [|contradiction].
        destruct (Z.eq_dec 51 204); [discriminate|].
        cbn [orb negb]. f_equal; lia.
      * destruct (Z.eqb_spec b 204) as [->|H2].
        -- cbn [blackBytes whiteBytes redPrepBytes otherBytes].
           destruct (Z.eq_dec 204 0); [discriminate|].
           destruct (Z.eq_dec 204 51); [discriminate|].
           destruct (Z.eq_dec 204 204); [|contradiction].
           cbn [orb negb]. f_equal; lia.
        -- cbn [blackBytes whiteBytes redPrepBytes otherBytes].
           destruct (Z.eq_dec b 0); [contradiction|].
           destruct (Z.eq_dec b 51); [contradiction|].
           destruct (Z.eq_dec b 204); [contradiction|].
           cbn [orb negb length]. f_equal; lia.
Qed.

Lemma occurrences_none (b : Z) (bytes : list Z) :
  occurrences b bytes = 0 <-> ~ In b bytes.
Proof.
  unfold occurrences. rewrite (count_occ_not_In Z.eq_dec). lia.
Qed.

(** The loop logs reads, data bytes, delays and the timeout line, nothing
    else. *)
Lemma loop_events (expectedBytes startTime : Z) (peer : list poll) (s : session) :
  forallb loop_event (trace (stream_loop peer expectedBytes startTime s)) = true.
Proof.
  revert peer s.
  apply (stream_loop_cases expectedBytes startTime
           (fun _ _ r => forallb loop_event (trace r) = true)).
  - reflexivity.
  - reflexivity.
  - intros s p peer Hrun Hsock IH. cbn [trace snd forallb loop_event andb].
    rewrite forallb_app, IH, andb_true_r.
    induction (chunk expectedBytes s p) as [|b l IHl]; [reflexivity|exact IHl].
  - reflexivity.
  - intros s p peer Hrun Hsock Hel IH. exact IH.
Qed.

Lemma loop_logs_only (e : event) (expectedBytes startTime : Z) (peer : list poll)
    (s : session) :
  loop_event e = false ->
  ~ In e (trace (stream_loop peer expectedBytes startTime s)).
Proof.
  intros He Hin.
  pose proof (loop_events expectedBytes startTime peer s) as H.
  rewrite forallb_forall in H. specialize (H e Hin). congruence.
Qed.

(** X11. What the final report counts.  When the loop runs to its end, the
    one report printed gives for black, white and red-prep the number of
    received bytes equal to 0x00, 0x33 and 0xCC, for other the number of
    received bytes that are none of these, and adds the padding to white
    on the black/white channel only.  The warning about missing black
    pixels is printed exactly when the loop ran to its end on the
    black/white channel and no received byte was 0x00. *)
Theorem X11_report_counts (http : HTTPClient) (channelCommand expectedBytes : Z) :
  let run := streamChannelToDisplay http channelCommand expectedBytes in
  let received := stream_received http expectedBytes in
  let N := Z.of_nat (length received) in
  (stream_exit http expectedBytes = LoopDone ->
   reports (trace run)
   = [ (mkCounters (occurrences 0x00 received)
                   (occurrences 0x33 received
                    + (if channelCommand =? 0x10 then TOTAL_BYTES - N else 0))
                   (occurrences 0xCC received)
                   (unclassified received),
        N) ])
  /\ (In (Serial NoBlackPixels) (trace run)
      <-> stream_exit http expectedBytes = LoopDone
          /\ channelCommand = 0x10 /\ ~ In 0x00 received).
Proof.
  intros run received N.
  pose proof (stream_received_le_total http expectedBytes) as HN.
  fold received in HN. fold N in HN.
  assert (Htally : padded_tally channelCommand N (count_bytes received no_counts)
                   = mkCounters (occurrences 0x00 received)
                       (occurrences 0x33 received
                        + (if channelCommand =? 0x10 then TOTAL_BYTES - N else 0))
                       (occurrences 0xCC received)
                       (unclassified received)).
  { rewrite count_bytes_occurrences. unfold padded_tally, no_counts.
    cbn [blackBytes whiteBytes redPrepBytes otherBytes].
    destruct (Z.ltb_spec N TOTAL_BYTES) as [Hlt|Hge];
      destruct (channelCommand =? 16); cbn [andb];
      cbn [blackBytes whiteBytes redPrepBytes otherBytes]; f_equal; lia. }
  split.
  - intros Hdone. unfold run.
    rewrite (stream_reports http channelCommand expectedBytes Hdone).
    fold received. fold N. now rewrite Htally.
  - destruct (stream_exit http expectedBytes) eqn:Hexit.
    + destruct (stream_done http channelCommand expectedBytes Hexit) as [_ Ht].
      unfold run. rewrite Ht. clear Ht.
      assert (Hb : blackBytes
                     (padded_tally channelCommand
                        (bytesReceived (stream_final http expectedBytes))
                        (tally (stream_final http expectedBytes)))
                   = occurrences 0x00 received).
      { rewrite <- stream_received_length. fold received. fold N.
        replace (tally (stream_final http expectedBytes))
          with (count_bytes received no_counts)
          by (unfold stream_final, received, stream_received; now rewrite loop_tally).
        now rewrite Htally. }
      rewrite Hb.
      set (cc := padded_tally channelCommand _ _).
      set (tail := if (channelCommand =? 16) && (occurrences 0 received =? 0)
                   then [Serial NoBlackPixels] else []).
      assert (Hoff : In (Serial NoBlackPixels)
                        (Cmd channelCommand
                         :: trace (stream_loop (h_peer http) expectedBytes (h_start http)
                                     session0)
                         ++ trace (pad_channel channelCommand
                                     (bytesReceived (stream_final http expectedBytes))
                                     (tally (stream_final http expectedBytes)))
                         ++ Serial (ChannelComplete cc
                                      (bytesReceived (stream_final http expectedBytes)))
                         :: tail)
                     <-> In (Serial NoBlackPixels) tail).
      { split.
        - intros [H|H]; [discriminate|].
          rewrite !in_app_iff in H. destruct H as [H|[H|H]].
          + now apply loop_logs_only in H.
          + rewrite pad_channel_trace in H.
            destruct (_ <? TOTAL_BYTES); [|destruct H].
            destruct H as [H|H]; [discriminate|].
            apply in_map_iff in H. destruct H as (b & Hb' & _). discriminate.
          + destruct H as [H|H]; [discriminate|exact H].
        - intros H. right. rewrite !in_app_iff. right. right. now right. }
      rewrite Hoff. unfold tail.
      destruct (Z.eqb_spec channelCommand 16) as [Hc|Hc].
      * destruct (Z.eqb_spec (occurrences 0 received) 0) as [Hz|Hz]; cbn [andb].
        -- split; [|intros _; now left].
           intros _. repeat split; [exact Hc|]. now apply occurrences_none.
        -- split; [intros []|]. intros (_ & _ & Hno).
           apply occurrences_none in Hno. contradiction.
      * cbn [andb]. split; [intros []|]. intros (_ & Hc' & _). contradiction.
    + destruct (stream_timed_out http channelCommand expectedBytes Hexit) as [_ Ht].
      unfold run. rewrite Ht. split.
      * intros [H|H]; [discriminate|]. now apply loop_logs_only in H.
      * intros (H & _). discriminate.
Qed.

Lemma X11_witness :
  stream_exit http_three 3 = LoopDone
  /\ reports (trace (streamChannelToDisplay http_three 0x10 3))
     = [(mkCounters 1 122878 1 0, 3)].
Proof.
  assert (H : stream_exit http_three 3 = LoopDone) by (vm_compute; reflexivity).
  split; [exact H|].
  rewrite (proj1 (X11_report_counts http_three 0x10 3) H).
  vm_compute. reflexivity.
Defined.

(** ** A transfer that times out *)

(** When the loop gives up, the while condition still held: fewer bytes
    than expected and fewer than TOTAL_BYTES had been received; and the
    last things logged are the delay and the timeout line. *)
Lemma loop_timed_out (expectedBytes startTime : Z) (peer : list poll) (s : session) :
  fst (value (stream_loop peer expectedBytes startTime s)) = TimedOut ->
  bytesReceived (snd (value (stream_loop peer expectedBytes startTime s)))
  < Z.min expectedBytes TOTAL_BYTES
  /\ exists before,
       trace (stream_loop peer expectedBytes startTime s)
       = before ++ [Delay 10; Serial TimeoutWaiting].
Proof.
  revert peer s.
  apply (stream_loop_cases expectedBytes startTime
           (fun _ _ r =>
              fst (value r) = TimedOut ->
              bytesReceived (snd (value r)) < Z.min expectedBytes TOTAL_BYTES
              /\ exists before, trace r = before ++ [Delay 10; Serial TimeoutWaiting])).
  - discriminate.
  - discriminate.
  - intros s p peer Hrun Hsock IH Hexit. cbn [value trace fst snd] in *.
    destruct (IH Hexit) as [Hlt (before & ->)]. split; [exact Hlt|].
    exists (NetRead (chunk expectedBytes s p)
            :: map Dat (chunk expectedBytes s p) ++ before).
    cbn [app]. now rewrite <- app_assoc.
  - intros s p peer Hrun Hsock Hel _. cbn [value trace fst snd after_wait bytesReceived].
    destruct (running_bounds expectedBytes s p Hrun) as (_ & He & Ht).
    split; [lia|]. now exists [].
  - intros s p peer Hrun Hsock Hel IH Hexit. cbn [value trace fst snd] in *.
    destruct (IH Hexit) as [Hlt (before & ->)]. split; [exact Hlt|].
    now exists (Delay 10 :: before).
Qed.

(** X12. A transfer that times out leaves the channel short.  The function
    returns false straight from the loop: the bus has seen the prepare
    command and the bytes received so far and nothing else, which is fewer
    bytes than were expected and fewer than TOTAL_BYTES; nothing is padded
    and no report is printed; the last things logged are the 10 ms delay
    and the timeout line. *)
Theorem X12_timeout_leaves_channel_short
    (http : HTTPClient) (channelCommand expectedBytes : Z) :
  stream_exit http expectedBytes = TimedOut ->
  let run := streamChannelToDisplay http channelCommand expectedBytes in
  let received := stream_received http expectedBytes in
  value run = false
  /\ panel (trace run) = Cmd channelCommand :: map Dat received
  /\ Z.of_nat (length (panel_data (trace run))) < Z.min expectedBytes TOTAL_BYTES
  /\ reports (trace run) = []
  /\ (forall missing, ~ In (Serial (Padding missing)) (trace run))
  /\ exists before, trace run = before ++ [Delay 10; Serial TimeoutWaiting].
Proof.
  intros Hexit run received.
  destruct (stream_timed_out http channelCommand expectedBytes Hexit) as [Hv Ht].
  pose proof (stream_panel_timed_out http channelCommand expectedBytes Hexit) as Hp.
  destruct (loop_timed_out expectedBytes (h_start http) (h_peer http) session0 Hexit)
    as [Hlt (before & Hlast)].
  fold (stream_final http expectedBytes) in Hlt.
  rewrite <- stream_received_length in Hlt. fold received in Hlt.
  split; [exact Hv|]. split; [exact Hp|]. split.
  { unfold run. rewrite <- panel_data_panel, Hp. cbn [panel_data].
    now rewrite panel_data_map_Dat. }
  split.
  { unfold run. rewrite Ht. cbn [reports]. apply loop_reports. }
  split.
  { intros missing. unfold run. rewrite Ht. intros [H|H]; [discriminate|].
    now apply loop_logs_only in H. }
  exists (Cmd channelCommand :: before). unfold run. rewrite Ht, Hlast. reflexivity.
Qed.

Lemma X12_witness :
  stream_exit http_stalled TOTAL_BYTES = TimedOut
  /\ panel (trace (streamChannelToDisplay http_stalled 0x10 TOTAL_BYTES))
     = Cmd 0x10 :: map Dat (stream_received http_stalled TOTAL_BYTES)
  /\ reports (trace (streamChannelToDisplay http_stalled 0x10 TOTAL_BYTES)) = [].
Proof.
  assert (H : stream_exit http_stalled TOTAL_BYTES = TimedOut)
    by (vm_compute; reflexivity).
  destruct (X12_timeout_leaves_channel_short http_stalled 0x10 TOTAL_BYTES H)
    as (_ & Hp & _ & Hr & _).
  exact (conj H (conj Hp Hr)).
Defined.

(** ** The deadline and the 32-bit clock *)

(** X13. The deadline is measured correctly across the wrap of the 32-bit
    millisecond clock: at a pass that finds the peer connected and the
    socket empty, [later] milliseconds (less than 2^32) after the loop was
    entered, the time the loop computes is exactly [later], whatever the
    clock read on entry; the loop gives up there if [later] exceeds 30000
    and goes on to the next pass otherwise. *)
Theorem X13_deadline_across_the_wrap
    (expectedBytes startTime later : Z) (peer : list poll) (s : session) :
  0 <= later < 2 ^ 32 ->
  let p := mkPoll true [] ((startTime + later) mod 2 ^ 32) in
  bytesReceived s < expectedBytes -> bytesReceived s < TOTAL_BYTES ->
  pending s = [] ->
  elapsed startTime p = later
  /\ (30000 < later ->
      stream_loop (p :: peer) expectedBytes startTime s
      = ((TimedOut, after_wait s p), [Delay 10; Serial TimeoutWaiting]))
  /\ (later <= 30000 ->
      stream_loop (p :: peer) expectedBytes startTime s
      = (value (stream_loop peer expectedBytes startTime (after_wait s p)),
         Delay 10 :: trace (stream_loop peer expectedBytes startTime (after_wait s p)))).
Proof.
  intros Hl p He Ht Hpend.
  assert (Hel : elapsed startTime p = later).
  { unfold elapsed, p. cbn [p_millis].
    rewrite Zminus_mod_idemp_l.
    replace (startTime + later - startTime) with later by lia.
    now apply Z.mod_small. }
  assert (Hrun : running expectedBytes s p = true).
  { unfold running, p. cbn [p_connected andb].
    destruct (Z.ltb_spec (bytesReceived s) expectedBytes); [|lia].
    destruct (Z.ltb_spec (bytesReceived s) TOTAL_BYTES); [reflexivity|lia]. }
  assert (Hsock : sock_at s p = []).
  { unfold sock_at, p. cbn [p_arrived]. now rewrite Hpend. }
  split; [exact Hel|]. split; intros H.
  - apply stream_loop_timeout; auto. lia.
  - apply stream_loop_wait; auto. lia.
Qed.

Lemma X13_witness :
  elapsed 4294967000 (mkPoll true [] ((4294967000 + 30001) mod 2 ^ 32)) = 30001
  /\ fst (value (stream_loop [mkPoll true [] ((4294967000 + 30001) mod 2 ^ 32)]
                   TOTAL_BYTES 4294967000 session0)) = TimedOut.
Proof.
  destruct (X13_deadline_across_the_wrap TOTAL_BYTES 4294967000 30001 [] session0)
    as (Hel & Hout & _);
    [change (2 ^ 32) with 4294967296; lia | reflexivity | reflexivity | reflexivity |].
  split; [exact Hel|]. now rewrite Hout by lia.
Defined.

(** ** The red channel: no answer and an empty answer *)

(** X14. A red request that fails and a red request that succeeds with an
    empty body put the same bytes on the bus -- the prepare command 0x13
    and TOTAL_BYTES times 0xFF -- but [downloadAndStreamRed] returns true
    for the first and false for the second. *)
Theorem X14_red_unavailable_or_empty (failed empty : HTTPClient) :
  h_code failed <> HTTP_CODE_OK ->
  h_code empty = HTTP_CODE_OK ->
  stream_exit empty (h_size empty) = LoopDone ->
  stream_received empty (h_size empty) = [] ->
  panel (trace (downloadAndStreamRed failed))
  = Cmd 0x13 :: map Dat (repeat 0xFF (Z.to_nat TOTAL_BYTES))
  /\ panel (trace (downloadAndStreamRed empty))
     = panel (trace (downloadAndStreamRed failed))
  /\ value (downloadAndStreamRed failed) = true
  /\ value (downloadAndStreamRed empty) = false.
Proof.
  intros Hfail Hok Hdone Hnone.
  destruct (red_request_failed failed Hfail) as [Hvf Htf].
  destruct (red_request_ok empty Hok) as [Hve Hte].
  assert (Hpf : panel (trace (downloadAndStreamRed failed))
                = Cmd 0x13 :: map Dat (repeat 0xFF (Z.to_nat TOTAL_BYTES))).
  { rewrite Htf, !panel_app, panel_map_Dat. reflexivity. }
  split; [exact Hpf|]. split; [|split; [exact Hvf|]].
  - rewrite Hpf, Hte.
    change (HttpGet ?u :: Serial ?d :: ?l) with ([HttpGet u; Serial d] ++ l).
    rewrite !panel_app, (stream_panel_done empty 0x13 (h_size empty) Hdone), Hnone.
    cbn [length Z.of_nat app]. rewrite Z.sub_0_r. reflexivity.
  - rewrite Hve. apply stream_false. now right.
Qed.

Lemma X14_witness :
  h_code (red_http world_red_404) <> HTTP_CODE_OK
  /\ h_code (bw_http world_bw_empty) = HTTP_CODE_OK
  /\ value (downloadAndStreamRed (red_http world_red_404)) = true
  /\ value (downloadAndStreamRed (bw_http world_bw_empty)) = false.
Proof.
  assert (H1 : h_code (red_http world_red_404) <> HTTP_CODE_OK) by discriminate.
  assert (H2 : h_code (bw_http world_bw_empty) = HTTP_CODE_OK) by reflexivity.
  assert (H3 : stream_exit (bw_http world_bw_empty) (h_size (bw_http world_bw_empty))
               = LoopDone) by reflexivity.
  assert (H4 : stream_received (bw_http world_bw_empty) (h_size (bw_http world_bw_empty))
               = []) by reflexivity.
  destruct (X14_red_unavailable_or_empty _ _ H1 H2 H3 H4) as (_ & _ & Ht & Hf).
  exact (conj H1 (conj H2 (conj Ht Hf))).
Defined.

(** ** The demo firmware *)




Lemma panel_commands_Cmd (b : Z) (l : list event) :
  panel_commands (Cmd b :: l) = b :: panel_commands l.
Proof. reflexivity. Qed.





Lemma waitForKey_panel (input : list bool) :
  panel (trace (DemoRun.waitForKey input)) = [].
Proof.
  induction input as [|k input IH]; [reflexivity|].
  destruct k; [reflexivity|].
  cbn [DemoRun.waitForKey]. rewrite trace_bind, panel_app, IH. reflexivity.
Qed.

Lemma drain_returns (input : list bool) :
  DemoRun.drain input = true
  <-> exists waiting after, input = repeat true waiting ++ false :: after.
Proof.
  induction input as [|k input IH].
  - split; [discriminate|]. intros (waiting & after & H).
    destruct waiting; discriminate.
  - destruct k; cbn [DemoRun.drain].
    + rewrite IH. split.
      * intros (waiting & after & ->). now exists (S waiting), after.
      * intros (waiting & after & H). destruct waiting as [|waiting];
          [discriminate|]. injection H as ->. now exists waiting, after.
    + split; [intros _; now exists 0%nat, input|reflexivity].
Qed.

(** The wait returns exactly on a key press: input that comes and is then
    read to its end. *)
Lemma waitForKey_returns (input : list bool) :
  value (DemoRun.waitForKey input) = true
  <-> exists idle waiting after, input = key_press idle waiting after.
Proof.
  unfold key_press. induction input as [|k input IH].
  - split; [discriminate|]. intros (idle & waiting & after & H).
    destruct idle; discriminate.
  - destruct k; cbn [DemoRun.waitForKey].
    + cbn [ret value fst]. rewrite drain_returns. split.
      * intros (waiting & after & ->). now exists 0%nat, waiting, after.
      * intros (idle & waiting & after & H). destruct idle as [|idle];
          [|discriminate]. injection H as ->. now exists waiting, after.
    + rewrite value_bind, IH. split.
      * intros (idle & waiting & after & ->). now exists (S idle), waiting, after.
      * intros (idle & waiting & after & H). destruct idle as [|idle];
          [discriminate|]. injection H as ->. now exists idle, waiting, after.
Qed.

Lemma pattern_commands (getPixelColor : Z -> Z) :
  panel_commands (trace (Demo.drawColorPattern getPixelColor)) = [0x10; 0x13; 0x12].
Proof.
  rewrite <- panel_commands_panel, pattern_panel.
  rewrite panel_commands_Cmd, panel_commands_app, panel_commands_map_Dat.
  rewrite app_nil_l.
  rewrite panel_commands_Cmd, panel_commands_app, panel_commands_map_Dat.
  reflexivity.
Qed.

Lemma drawn_commands (patterns : list (Z -> Z)) :
  panel_commands
    (flat_map (fun getPixelColor =>
                 init_panel ++ panel (trace (Demo.drawColorPattern getPixelColor)))
              patterns)
  = concat (repeat (init_commands ++ [0x10; 0x13; 0x12]) (length patterns)).
Proof.
  induction patterns as [|f patterns IH]; [reflexivity|].
  cbn [flat_map length repeat concat].
  rewrite !panel_commands_app, panel_commands_panel, pattern_commands, IH.
  now rewrite <- app_assoc.
Qed.

Lemma refreshes_counted (n : nat) :
  count_occ Z.eq_dec (concat (repeat (init_commands ++ [0x10; 0x13; 0x12]) n)) 0x12 = n.
Proof.
  induction n as [|n IH]; [reflexivity|].
  cbn [repeat concat]. rewrite count_occ_app, IH. reflexivity.
Qed.

(** X16. The demo on the bus, as far as it gets.  From boot, whatever the
    BUSY pin and the serial input do, the panel sees the demos that are
    drawn one after the other and nothing else: for each, the
    initialisation followed by both channels of the pattern and the
    refresh.  The first demo is always drawn; each further one is drawn
    only if the wait before it returns, which it does exactly on a key
    press (input that comes and is then read to its end); waiting writes
    nothing.  So the refresh command is sent once for every demo drawn:
    four times, with [setup] returning, exactly when all three waits
    return, and once when the first key never comes. *)
Theorem X16_demo_on_the_bus (busy input : nat -> list bool) :
  let drawn := demos_drawn input in
  (forall keys, value (DemoRun.waitForKey keys) = true
                <-> exists idle waiting after, keys = key_press idle waiting after)
  /\ (1 <= drawn <= 4)%nat
  /\ panel (trace (DemoRun.setup busy input))
     = flat_map (fun getPixelColor =>
                   init_panel ++ panel (trace (Demo.drawColorPattern getPixelColor)))
                (firstn drawn demo_patterns)
  /\ panel_commands (trace (DemoRun.setup busy input))
     = concat (repeat (init_commands ++ [0x10; 0x13; 0x12]) drawn)
  /\ count_occ Z.eq_dec (panel_commands (trace (DemoRun.setup busy input))) 0x12 = drawn
  /\ (value (DemoRun.setup busy input) = true <-> drawn = 4%nat).
Proof.
  intros drawn.
  assert (Hp : panel (trace (DemoRun.setup busy input))
               = flat_map (fun getPixelColor =>
                             init_panel
                             ++ panel (trace (Demo.drawColorPattern getPixelColor)))
                          (firstn drawn demo_patterns)
               /\ (value (DemoRun.setup busy input) = true <-> drawn = 4%nat)).
  { unfold drawn, demos_drawn, DemoRun.setup, DemoRun.runVictoryDemo.
    unfold Demo.drawVictoryBanner, Demo.drawColorStripes,
           Demo.drawRedBorderFrame, Demo.drawCheckerboard.
    rewrite !value_bind. rewrite !trace_bind, !panel_app, !init_panel_eq.
    rewrite !waitForKey_panel.
    destruct (value (DemoRun.waitForKey (input 0%nat))); cbn [negb].
    2:{ split; [|split; discriminate].
        unfold demo_patterns. cbn [firstn flat_map emit ret trace snd panel filter on_bus].
        now rewrite !app_nil_l, !app_nil_r. }
    rewrite !value_bind. rewrite !trace_bind, !panel_app, !init_panel_eq.
    rewrite !waitForKey_panel.
    destruct (value (DemoRun.waitForKey (input 1%nat))); cbn [negb].
    2:{ split; [|split; discriminate].
        unfold demo_patterns. cbn [firstn flat_map emit ret trace snd panel filter on_bus].
        now rewrite !app_nil_l, !app_nil_r, <- !app_assoc. }
    rewrite !value_bind. rewrite !trace_bind, !panel_app, !init_panel_eq.
    rewrite !waitForKey_panel.
    destruct (value (DemoRun.waitForKey (input 2%nat))); cbn [negb].
    2:{ split; [|split; discriminate].
        unfold demo_patterns. cbn [firstn flat_map emit ret trace snd panel filter on_bus].
        now rewrite !app_nil_l, !app_nil_r, <- !app_assoc. }
    rewrite !value_bind. rewrite !trace_bind, !panel_app, !init_panel_eq.
    split; [|split; reflexivity].
    unfold demo_patterns. cbn [firstn flat_map emit ret trace snd panel filter on_bus].
    now rewrite !app_nil_l, !app_nil_r, <- !app_assoc. }
  destruct Hp as [Hp Hret].
  assert (Hd : (1 <= drawn <= 4)%nat).
  { unfold drawn, demos_drawn.
    destruct (value (DemoRun.waitForKey (input 0%nat)));
      destruct (value (DemoRun.waitForKey (input 1%nat)));
      destruct (value (DemoRun.waitForKey (input 2%nat))); lia. }
  assert (Hc : panel_commands (trace (DemoRun.setup busy input))
               = concat (repeat (init_commands ++ [0x10; 0x13; 0x12]) drawn)).
  { rewrite <- panel_commands_panel, Hp, drawn_commands.
    rewrite length_firstn. unfold demo_patterns. cbn [length].
    now rewrite Nat.min_l by lia. }
  split; [exact waitForKey_returns|]. split; [exact Hd|]. split; [exact Hp|].
  split; [exact Hc|]. split; [|exact Hret].
  rewrite Hc. apply refreshes_counted.
Qed.

Lemma X16_witness :
  (exists idle waiting after, [false; true; false] = key_press idle waiting after)
  /\ value (DemoRun.waitForKey [false; true; false]) = true
  /\ count_occ Z.eq_dec
       (panel_commands (trace (DemoRun.setup (fun _ => []) (fun _ => [false; true; false]))))
       0x12 = 4%nat
  /\ count_occ Z.eq_dec
       (panel_commands (trace (DemoRun.setup (fun _ => []) (fun _ => [false; false]))))
       0x12 = 1%nat.
Proof.
  assert (H : exists idle waiting after,
             [false; true; false] = key_press idle waiting after)
    by (now exists 1%nat, 0%nat, []).
  destruct (X16_demo_on_the_bus (fun _ => []) (fun _ => [false; true; false]))
    as (Hkey & _ & _ & _ & Hfour & _).
  destruct (X16_demo_on_the_bus (fun _ => []) (fun _ => [false; false]))
    as (_ & _ & _ & _ & Hone & _).
  exact (conj H (conj (proj2 (Hkey _) H) (conj Hfour Hone))).
Defined.

(** ** One wake of the calendar firmware *)

Import System.

Lemma sleeps_app (l1 l2 : list action) : sleeps (l1 ++ l2) = sleeps l1 ++ sleeps l2.
Proof.
  induction l1 as [|a l1 IH]; [reflexivity|].
  destruct a; cbn [app sleeps]; now rewrite IH.
Qed.

Lemma updates_app (l1 l2 : list action) : updates (l1 ++ l2) = updates l1 ++ updates l2.
Proof.
  induction l1 as [|a l1 IH]; [reflexivity|].
  destruct a; cbn [app updates]; now rewrite IH.
Qed.

Lemma updates_map_Update (l : list event) : updates (map Update l) = l.
Proof. induction l as [|e l IH]; [reflexivity|]. cbn [map updates]. now rewrite IH. Qed.

Lemma sleeps_map_Update (l : list event) : sleeps (map Update l) = [].
Proof. induction l as [|e l IH]; [reflexivity|exact IH]. Qed.

Lemma waits_quiet (ms : Z) (n : nat) :
  sleeps (repeat (Wait ms) n) = [] /\ updates (repeat (Wait ms) n) = [].
Proof. induction n as [|n IH]; [now split|exact IH]. Qed.

(** The loop of [connectToWiFi]: one delay per call that finds no
    connection, until a call finds one or 20 delays have passed. *)
Lemma connect_loop_shape (status : nat -> bool) (remaining reads : nat) :
  exists k,
    (k <= remaining)%nat
    /\ connect_loop status reads remaining = (S (reads + k), repeat (Wait 500) k)
    /\ (forall j, (j < k)%nat -> status (reads + j)%nat = false)
    /\ ((k < remaining)%nat -> status (reads + k)%nat = true).
Proof.
  revert reads. induction remaining as [|remaining IH]; intros reads.
  - exists 0%nat. cbn [connect_loop]. rewrite Nat.add_0_r.
    destruct (status reads); repeat split; try lia.
  - cbn [connect_loop]. destruct (status reads) eqn:Hs.
    + exists 0%nat. rewrite Nat.add_0_r. repeat split; try lia. intros _. exact Hs.
    + destruct (IH (S reads)) as (k & Hk & -> & Hno & Hyes).
      exists (S k). cbn [fst snd repeat]. repeat split.
      * lia.
      * now rewrite Nat.add_succ_r.
      * intros j Hj. destruct j as [|j]; [now rewrite Nat.add_0_r|].
        rewrite Nat.add_succ_r. apply Hno. lia.
      * intros Hlt. rewrite Nat.add_succ_r. apply Hyes. lia.
Qed.

Lemma connect_shape (b : board) :
  exists k,
    (k <= 20)%nat
    /\ connectToWiFi b
       = (S (S k),
          WiFiBegin :: repeat (Wait 500) k
          ++ [Say (if wifi b (S k) then WiFiConnected else WiFiFailed)])
    /\ (forall j, (j < k)%nat -> wifi b j = false)
    /\ ((k < 20)%nat -> wifi b k = true).
Proof.
  destruct (connect_loop_shape (wifi b) 20 0) as (k & Hk & Hloop & Hno & Hyes).
  exists k. unfold connectToWiFi. rewrite Hloop. cbn [fst snd Nat.add].
  repeat split; auto.
Qed.

(** X17. [connectToWiFi] waits 500 ms after every call of [WiFi.status()]
    that finds no connection, and stops at the first call that finds one
    or after 20 waits, that is after at most 10 s; it then asks once more,
    for the line it prints.  In all it makes 2 calls more than it waits. *)
Theorem X17_connect_waits (b : board) :
  exists waits : nat,
    (waits <= 20)%nat
    /\ connectToWiFi b
       = (S (S waits),
          WiFiBegin :: repeat (Wait 500) waits
          ++ [Say (if wifi b (S waits) then WiFiConnected else WiFiFailed)])
    /\ (forall j, (j < waits)%nat -> wifi b j = false)
    /\ ((waits < 20)%nat -> wifi b waits = true).
Proof.
  destruct (connect_loop_shape (wifi b) 20 0) as (waits & Hle & Hloop & Hno & Hyes).
  exists waits. split; [exact Hle|]. split.
  - unfold connectToWiFi. rewrite Hloop. reflexivity.
  - split.
    + intros j Hj. exact (Hno j Hj).
    + intros Hlt. exact (Hyes Hlt).
Qed.

Lemma X17_witness :
  exists waits : nat,
    connectToWiFi board_offline
    = (S (S waits), WiFiBegin :: repeat (Wait 500) waits ++ [Say WiFiFailed])
    /\ ~ (waits < 20)%nat.
Proof.
  destruct (X17_connect_waits board_offline) as (waits & _ & Hc & _ & Hyes).
  exists waits. split; [exact Hc|].
  intros Hlt. specialize (Hyes Hlt). discriminate Hyes.
Defined.

Lemma connect_quiet (b : board) :
  sleeps (snd (connectToWiFi b)) = [] /\ updates (snd (connectToWiFi b)) = [].
Proof.
  destruct (connect_shape b) as (k & _ & -> & _). cbn [snd sleeps updates].
  rewrite sleeps_app, updates_app.
  destruct (waits_quiet 500 k) as [-> ->]. now split.
Qed.

(** [synchronizeTime] asks for no sleep and starts no update; when it
    returns true the time is set. *)
Lemma sync_quiet (b : board) (reads : nat) (r : option clock) (log : list action) :
  synchronizeTime b reads = Some (r, log) ->
  sleeps log = [] /\ updates log = []
  /\ (forall t, r = Some t -> timeSet t = true).
Proof.
  unfold synchronizeTime.
  destruct (wifi b reads); cbn [negb].
  2:{ intros [= <- <-]. repeat split. discriminate. }
  destruct (status_code b =? HTTP_CODE_OK); cbn [negb].
  2:{ intros [= <- <-]. repeat split. discriminate. }
  destruct (status_reply b) as [| |year month day hour minute second].
  - intros [= <- <-]. repeat split. discriminate.
  - intros [= <- <-]. repeat split. discriminate.
  - destruct (timestamp_of_fields year month day hour minute second);
      cbn [and_then]; [|discriminate].
    intros [= <- <-]. repeat split. now intros t [= <-].
Qed.

Lemma update_quiet (b : board) (reads : nat) :
  sleeps (updateCalendar b reads) = [].
Proof.
  unfold updateCalendar. destruct (wifi b reads); cbn [negb]; [|reflexivity].
  now rewrite sleeps_app, sleeps_map_Update.
Qed.

Lemma update_log (b : board) :
  updates (updateCalendar b (S (fst (connectToWiFi b))))
  = if wifi_at_update b then trace (downloadAndDisplayCalendar (update_world b))
    else [].
Proof.
  unfold updateCalendar, wifi_at_update.
  destruct (wifi b (S (fst (connectToWiFi b)))); cbn [negb]; [|reflexivity].
  rewrite updates_app, updates_map_Update. cbn [updates]. now rewrite app_nil_r.
Qed.

(** A minute count that [sleepMinutes] can give is never turned into a
    request for 0 microseconds. *)
Lemma sleep_micros_checked :
  forallb (fun minutes => 0 <? sleepMicros minutes) (range 1 899) = true.
Proof. vm_compute. reflexivity. Qed.

Lemma sleep_micros_positive (currentMinutes : Z) :
  -1 <= currentMinutes <= 1439 ->
  0 < sleepMicros (sleepMinutes currentMinutes) < 2 ^ 32.
Proof.
  intros Hc.
  assert (Hm : 1 <= sleepMinutes currentMinutes < 899).
  { unfold sleepMinutes. rewrite next_update_eq.
    pose proof (Z.div_mod (currentMinutes - 470) 30 ltac:(lia)) as E.
    pose proof (Z.mod_pos_bound (currentMinutes - 470) 30 ltac:(lia)) as B.
    set (q := (currentMinutes - 470) / 30) in *.
    set (r := (currentMinutes - 470) mod 30) in *.
    destruct (Z.ltb_spec currentMinutes 470);
      [|destruct (Z.ltb_spec currentMinutes 1010)];
      match goal with |- context [?a >? ?b] => destruct (Z.gtb_spec a b) end;
      lia. }
  pose proof sleep_micros_checked as H. rewrite forallb_forall in H.
  specialize (H (sleepMinutes currentMinutes)).
  assert (Hin : In (sleepMinutes currentMinutes) (range 1 899)).
  { apply count_up_in. change (Z.of_nat (Z.to_nat (899 - 1))) with 898. lia. }
  apply H in Hin. apply Z.ltb_lt in Hin. split; [exact Hin|].
  unfold sleepMicros. apply Z.mod_pos_bound. reflexivity.
Qed.

Lemma Some_inj {A : Type} (x y : A) : Some x = Some y -> x = y.
Proof. now intros [=]. Qed.

(** The shape of the log of a wake. *)
Lemma setup_shape (b : board) (l : list action) :
  setup b = Some l ->
  exists sync_log before micros,
    synchronizeTime b (fst (connectToWiFi b)) = Some (match synchronized b with
                                                       | Some r => r
                                                       | None => None
                                                       end, sync_log)
    /\ l = before ++ [DeepSleep micros]
    /\ sleeps before = []
    /\ updates before
       = (if match synchronized b with
             | Some (Some t) =>
                 shouldUpdateNow (getCurrentMinutesFromMidnight t (millis_check b))
             | _ => true
             end
          then updates (updateCalendar b (S (fst (connectToWiFi b))))
          else [])
    /\ micros
       = match synchronized b with
         | Some (Some t) =>
             sleepMicros (sleepMinutes
                            (getCurrentMinutesFromMidnight t (millis_sleep b)))
         | _ => 1800000000
         end.
Proof.
  unfold setup, synchronized.
  destruct (synchronizeTime b (fst (connectToWiFi b))) as [[r log]|] eqn:Hsync;
    cbn [and_then option_map fst snd]; [|discriminate].
  destruct (sync_quiet b _ r log Hsync) as (Hsl & Hul & _).
  destruct (connect_quiet b) as [Hsc Huc].
  pose proof (update_quiet b (S (fst (connectToWiFi b)))) as Hsu.
  destruct r as [t|]; intros Hl; apply Some_inj in Hl; subst l; exists log.
  - exists ((Wait 2000 :: map Pin Bus.initializeHardware)
            ++ snd (connectToWiFi b) ++ log
            ++ Say TimeSynchronized
            :: (if shouldUpdateNow (getCurrentMinutesFromMidnight t (millis_check b))
                then Say UpdateTime :: updateCalendar b (S (fst (connectToWiFi b)))
                else [Say NotUpdateTime])
            ++ [Say (Sleeping (sleepMinutes
                                 (getCurrentMinutesFromMidnight t (millis_sleep b))))]).
    exists (enterDeepSleepUntilNextUpdate t (millis_sleep b)).
    split; [reflexivity|]. split.
    { rewrite <- !app_assoc. cbn [app]. rewrite <- !app_assoc. reflexivity. }
    split.
    { rewrite !sleeps_app, Hsc, Hsl. cbn [sleeps app].
      rewrite sleeps_app.
      destruct (shouldUpdateNow _); cbn [sleeps]; [rewrite Hsu|]; reflexivity. }
    split; [|reflexivity].
    rewrite !updates_app, Huc, Hul. cbn [updates app].
    rewrite updates_app. cbn [updates].
    destruct (shouldUpdateNow _); cbn [updates]; now rewrite app_nil_r.
  - exists ((Wait 2000 :: map Pin Bus.initializeHardware)
            ++ snd (connectToWiFi b) ++ log
            ++ Say EmergencyUpdate
            :: updateCalendar b (S (fst (connectToWiFi b)))
            ++ [Say EmergencySleep]).
    exists 1800000000.
    split; [reflexivity|]. split.
    { rewrite <- !app_assoc. cbn [app]. rewrite <- !app_assoc. reflexivity. }
    split.
    { rewrite !sleeps_app, Hsc, Hsl. cbn [sleeps app].
      now rewrite sleeps_app, Hsu. }
    split; [|reflexivity].
    rewrite !updates_app, Huc, Hul. cbn [updates app].
    rewrite updates_app. cbn [updates]. now rewrite app_nil_r.
Qed.

Lemma synchronized_clock (b : board) (t : clock) :
  synchronized b = Some (Some t) ->
  timeSet t = true
  /\ forall millis, 0 <= getCurrentMinutesFromMidnight t millis <= 1439.
Proof.
  unfold synchronized.
  destruct (synchronizeTime b (fst (connectToWiFi b))) as [[r log]|] eqn:Hsync;
    cbn [option_map fst]; [|discriminate].
  intros [= ->]. destruct (sync_quiet b _ _ _ Hsync) as (_ & _ & Ht).
  specialize (Ht t eq_refl). split; [exact Ht|].
  intros millis. destruct (minutes_of_day_range t millis) as [_ Hon]. now apply Hon.
Qed.

(** X18. Every wake ends in deep sleep, and never in a sleep without end.
    Whenever [setup] has a defined result, the last thing it does is one
    call of [ESP.deepSleep]; nothing before it is one.  The argument is
    1 800 000 000 (30 minutes) when the time could not be synchronized and
    otherwise the 32-bit product of [enterDeepSleepUntilNextUpdate]; it is
    never 0, which would ask the chip to sleep until it is reset by hand. *)
Theorem X18_wake_ends_in_sleep (b : board) (l : list action) :
  setup b = Some l ->
  exists before micros,
    l = before ++ [DeepSleep micros]
    /\ sleeps before = []
    /\ sleeps l = [micros]
    /\ micros
       = match synchronized b with
         | Some (Some t) =>
             sleepMicros (sleepMinutes
                            (getCurrentMinutesFromMidnight t (millis_sleep b)))
         | _ => 1800000000
         end
    /\ 0 < micros < 2 ^ 32.
Proof.
  intros Hl.
  destruct (setup_shape b l Hl) as (log & before & micros & _ & -> & Hs & _ & Hm).
  exists before, micros. split; [reflexivity|]. split; [exact Hs|].
  split; [now rewrite sleeps_app, Hs|]. split; [exact Hm|].
  rewrite Hm. destruct (synchronized b) as [[t|]|] eqn:Hsync;
    try (change (2 ^ 32) with 4294967296; lia).
  destruct (synchronized_clock b t Hsync) as [_ Hc].
  apply sleep_micros_positive. specialize (Hc (millis_sleep b)). lia.
Qed.

Lemma X18_witness :
  exists l, setup board_morning = Some l /\ sleeps l = [1680000000].
Proof.
  assert (H : exists l, setup board_morning = Some l)
    by (eexists; vm_compute; reflexivity).
  destruct H as [l Hl]. exists l. split; [exact Hl|].
  destruct (X18_wake_ends_in_sleep board_morning l Hl)
    as (before & micros & _ & _ & -> & -> & _).
  vm_compute. reflexivity.
Defined.

Lemma connect_loop_offline (status : nat -> bool) (remaining reads : nat) :
  (forall n, status n = false) ->
  connect_loop status reads remaining
  = (S (reads + remaining), repeat (Wait 500) remaining).
Proof.
  intros Hoff. revert reads. induction remaining as [|remaining IH]; intros reads.
  - cbn [connect_loop]. now rewrite Hoff, Nat.add_0_r.
  - cbn [connect_loop]. rewrite Hoff, IH. cbn [fst snd repeat].
    now rewrite Nat.add_succ_r.
Qed.

(** X19. Without WiFi the panel is not touched.  On a board on which
    [WiFi.status()] never answers connected, a wake is: the 2 s start-up
    delay and the two pin writes, 20 waits of 500 ms, no status request,
    the emergency update that stops at its own WiFi check, and a deep
    sleep of exactly 30 minutes.  No update action is logged: the panel
    is neither reset nor written, and no bitplane is requested. *)
Theorem X19_offline_wake (b : board) :
  offline b ->
  setup b
  = Some ([Wait 2000; Pin (Bus.DigitalWrite Bus.CS_PIN true);
           Pin (Bus.DigitalWrite Bus.PIN_SPI_SCK false); WiFiBegin]
          ++ repeat (Wait 500) 20
          ++ [Say WiFiFailed; Say NoWiFiForTimeSync; Say EmergencyUpdate;
              Say SkippingUpdate; Say EmergencySleep; DeepSleep 1800000000])
  /\ forall l, setup b = Some l -> updates l = [] /\ sleeps l = [1800000000].
Proof.
  intros Hoff.
  assert (Hs : setup b
               = Some ([Wait 2000; Pin (Bus.DigitalWrite Bus.CS_PIN true);
                        Pin (Bus.DigitalWrite Bus.PIN_SPI_SCK false); WiFiBegin]
                       ++ repeat (Wait 500) 20
                       ++ [Say WiFiFailed; Say NoWiFiForTimeSync; Say EmergencyUpdate;
                           Say SkippingUpdate; Say EmergencySleep;
                           DeepSleep 1800000000])).
  { unfold setup, connectToWiFi.
    rewrite (connect_loop_offline (wifi b) 20 0 Hoff). cbn [fst snd Nat.add].
    unfold synchronizeTime, updateCalendar. rewrite !Hoff.
    reflexivity. }
  split; [exact Hs|].
  intros l Hl. rewrite Hs in Hl. apply Some_inj in Hl. subst l.
  split; reflexivity.
Qed.

Lemma X19_witness :
  offline board_offline
  /\ exists l, setup board_offline = Some l /\ updates l = [].
Proof.
  assert (H : offline board_offline) by (intros n; reflexivity).
  destruct (X19_offline_wake board_offline H) as [Hs Hl].
  exact (conj H (ex_intro _ _ (conj Hs (proj1 (Hl _ Hs))))).
Defined.

Lemma in_window_spec (currentMinutes : Z) :
  0 <= currentMinutes ->
  shouldUpdateNow currentMinutes = in_window currentMinutes.
Proof.
  intros Hc. unfold in_window.
  destruct (shouldUpdateNow currentMinutes) eqn:Hs.
  - apply (in_slots_window currentMinutes Hc) in Hs. destruct Hs as (Hr & Hm).
    symmetry. rewrite !andb_true_iff, !Z.leb_le. lia.
  - symmetry. apply not_true_is_false. intros Hw.
    rewrite !andb_true_iff, !Z.leb_le in Hw.
    assert (Hu : shouldUpdateNow currentMinutes = true)
      by (apply (in_slots_window currentMinutes Hc); lia).
    congruence.
Qed.

(** X20. What a wake does to the panel.  Whenever [setup] has a defined
    result: if the time was synchronized, the time is set and the minute
    of the day [setup] works on is between 0 and 1439, so that the branch
    of [shouldUpdateNow] for an unknown time is never taken; and the
    update actions in the log of the wake are exactly the log of one
    [downloadAndDisplayCalendar], when the wake gets as far as
    [updateCalendar] (the time could not be synchronized, or the minute is
    in an update window) and [WiFi.status()] answers connected there, and
    none otherwise. *)
Theorem X20_update_of_a_wake (b : board) (l : list action) :
  setup b = Some l ->
  (forall t, synchronized b = Some (Some t) ->
     timeSet t = true
     /\ 0 <= getCurrentMinutesFromMidnight t (millis_check b) <= 1439)
  /\ updates l
     = if attempted b && wifi_at_update b
       then trace (downloadAndDisplayCalendar (update_world b))
       else [].
Proof.
  intros Hl.
  assert (Hclock : forall t, synchronized b = Some (Some t) ->
            timeSet t = true
            /\ 0 <= getCurrentMinutesFromMidnight t (millis_check b) <= 1439).
  { intros t Ht. destruct (synchronized_clock b t Ht) as [Hset Hc].
    split; [exact Hset|apply Hc]. }
  split; [exact Hclock|].
  destruct (setup_shape b l Hl) as (log & before & micros & _ & -> & _ & Hu & _).
  rewrite updates_app, Hu. cbn [updates]. rewrite app_nil_r, update_log.
  unfold attempted.
  destruct (synchronized b) as [[t|]|] eqn:Hsync.
  - destruct (Hclock t eq_refl) as [_ Hc].
    rewrite in_window_spec by lia.
    now destruct (in_window _), (wifi_at_update b).
  - now destruct (wifi_at_update b).
  - now destruct (wifi_at_update b).
Qed.

Lemma X20_witness :
  exists l, setup board_morning = Some l
            /\ attempted board_morning = true
            /\ updates l = trace (downloadAndDisplayCalendar (update_world board_morning)).
Proof.
  assert (H : exists l, setup board_morning = Some l)
    by (eexists; vm_compute; reflexivity).
  destruct H as [l Hl]. exists l. split; [exact Hl|].
  split; [reflexivity|].
  destruct (X20_update_of_a_wake board_morning l Hl) as [_ ->].
  reflexivity.
Defined.

(** ** From one wake to the next *)

Lemma seconds_today_range (t : clock) (millis : Z) :
  0 <= seconds_today t millis < 86400.
Proof.
  unfold seconds_today. change (24 * 60 * 60) with 86400.
  apply Z.mod_pos_bound. lia.
Qed.

Lemma minutes_of_seconds (t : clock) (millis : Z) :
  timeSet t = true ->
  getCurrentMinutesFromMidnight t millis = seconds_today t millis / 60.
Proof.
  intros Hset. pose proof (seconds_today_range t millis) as B.
  unfold getCurrentMinutesFromMidnight. rewrite Hset. cbn [negb].
  cbv zeta. fold (seconds_today t millis).
  set (sec := seconds_today t millis) in *.
  pose proof (Z.div_mod sec 3600 ltac:(lia)) as E1.
  pose proof (Z.mod_pos_bound sec 3600 ltac:(lia)) as B1.
  set (h := sec / 3600) in *. set (rest := sec mod 3600) in *.
  pose proof (Z.div_mod rest 60 ltac:(lia)) as E2.
  pose proof (Z.mod_pos_bound rest 60 ltac:(lia)) as B2.
  set (m := rest / 60) in *. set (r := rest mod 60) in *.
  apply Z.div_unique with (r := r); lia.
Qed.

(** In the 30 minutes before a slot, that slot is the next one. *)
Lemma next_slot_of (slot currentMinutes : Z) :
  In slot update_slots ->
  slot - 30 <= currentMinutes < slot ->
  getNextUpdateMinutes currentMinutes = slot.
Proof.
  intros Hin Hm. rewrite update_slots_eq in Hin. rewrite next_update_eq.
  pose proof (Z.div_mod (currentMinutes - 470) 30 ltac:(lia)) as E.
  pose proof (Z.mod_pos_bound (currentMinutes - 470) 30 ltac:(lia)) as B.
  set (q := (currentMinutes - 470) / 30) in *.
  set (r := (currentMinutes - 470) mod 30) in *.
  destruct (Z.ltb_spec currentMinutes 470);
    [|destruct (Z.ltb_spec currentMinutes 1010)];
    repeat (destruct Hin as [<-|Hin]; [lia|]); destruct Hin.
Qed.

Lemma in_a_window (slot currentMinutes : Z) :
  In slot update_slots ->
  slot - 5 <= currentMinutes <= slot + 5 ->
  shouldUpdateNow currentMinutes = true.
Proof.
  intros Hin Hm. unfold shouldUpdateNow.
  destruct (currentMinutes <? 0); [reflexivity|].
  apply existsb_exists. exists slot. split; [exact Hin|].
  apply Z.leb_le. lia.
Qed.

Lemma wake_updates (b : board) (l : list action) :
  setup b = Some l ->
  updates l
  = if attempted b && wifi_at_update b
    then trace (downloadAndDisplayCalendar (update_world b))
    else [].
Proof.
  intros Hl.
  destruct (setup_shape b l Hl) as (log & before & micros & _ & -> & _ & Hu & _).
  rewrite updates_app, Hu. cbn [updates]. rewrite app_nil_r, update_log.
  unfold attempted.
  destruct (synchronized b) as [[t|]|] eqn:Hsync.
  - destruct (synchronized_clock b t Hsync) as [_ Hc].
    specialize (Hc (millis_check b)).
    rewrite in_window_spec by lia.
    now destruct (in_window _), (wifi_at_update b).
  - now destruct (wifi_at_update b).
  - now destruct (wifi_at_update b).
Qed.

(** X6. Waking 2 minutes early makes the next wake an update, also when
    the slot has already had one.  Take a wake that decides its sleep in
    the 30 minutes before a slot, and the wake that follows it: the one
    that checks the time [delay] seconds (at most 300, for start-up, WiFi
    and time synchronisation) after the sleep asked for has ended.  The
    sleep asked for is 60 000 000 microseconds times max(1, slot - now -
    2); the following wake checks the time between 2 minutes before the
    slot and 5 minutes after it, which is inside the window of the slot,
    so [setup] gets to [updateCalendar] and, with WiFi up, logs one
    [downloadAndDisplayCalendar].  That holds just as well when the first
    wake had itself come inside the window of the slot and updated: a
    wake at 2 minutes before the slot that decides its sleep before the
    slot is followed by another update for the same slot. *)
Theorem X6_early_wake_updates_again
    (b b' : board) (t t' : clock) (slot delay : Z) :
  synchronized b = Some (Some t) ->
  synchronized b' = Some (Some t') ->
  In slot update_slots ->
  slot - 30 <= getCurrentMinutesFromMidnight t (millis_sleep b) < slot ->
  0 <= delay <= 300 ->
  wakes_after b b' t t' delay ->
  let decided := getCurrentMinutesFromMidnight t (millis_sleep b) in
  let checked := getCurrentMinutesFromMidnight t' (millis_check b') in
  enterDeepSleepUntilNextUpdate t (millis_sleep b)
  = 60000000 * Z.max 1 (slot - decided - 2)
  /\ slot - 2 <= checked <= slot + 5
  /\ attempted b' = true
  /\ (forall l', setup b' = Some l' ->
        updates l'
        = if wifi_at_update b'
          then trace (downloadAndDisplayCalendar (update_world b'))
          else [])
  /\ (slot - 5 <= getCurrentMinutesFromMidnight t (millis_check b) <= slot + 5 ->
      attempted b = true).
Proof.
  intros Hsync Hsync' Hslot Hm Hdelay Hafter decided checked.
  destruct (synchronized_clock b t Hsync) as [Hset Hrange].
  destruct (synchronized_clock b' t' Hsync') as [Hset' Hrange'].
  fold decided in Hm.
  assert (Hslots : 470 <= slot <= 1010).
  { rewrite update_slots_eq in Hslot.
    repeat (destruct Hslot as [<-|Hslot]; [lia|]). destruct Hslot. }
  assert (Hsleep : sleepMinutes decided = Z.max 1 (slot - decided - 2)).
  { unfold sleepMinutes. rewrite (next_slot_of slot decided Hslot Hm).
    destruct (Z.gtb_spec slot decided); [reflexivity|lia]. }
  assert (Hmicros : enterDeepSleepUntilNextUpdate t (millis_sleep b)
                    = 60000000 * Z.max 1 (slot - decided - 2)).
  { unfold enterDeepSleepUntilNextUpdate. fold decided.
    rewrite Hsleep, sleepMicros_eq. change (2 ^ 32) with 4294967296.
    rewrite Z.mod_small by lia. lia. }
  split; [exact Hmicros|].
  assert (Hchecked : slot - 2 <= checked <= slot + 5).
  { unfold wakes_after in Hafter. rewrite Hmicros in Hafter.
    replace (60000000 * Z.max 1 (slot - decided - 2))
      with (60 * Z.max 1 (slot - decided - 2) * 1000000) in Hafter by lia.
    rewrite Z.div_mul in Hafter by lia.
    unfold checked, decided in *.
    rewrite (minutes_of_seconds t' _ Hset').
    rewrite (minutes_of_seconds t _ Hset) in Hm.
    pose proof (seconds_today_range t (millis_sleep b)) as B1.
    pose proof (seconds_today_range t' (millis_check b')) as B2.
    rewrite (minutes_of_seconds t (millis_sleep b) Hset) in Hafter.
    set (T1 := seconds_today t (millis_sleep b)) in *.
    set (T2 := seconds_today t' (millis_check b')) in *.
    pose proof (Z.div_mod T1 60 ltac:(lia)) as E1.
    pose proof (Z.mod_pos_bound T1 60 ltac:(lia)) as R1.
    pose proof (Z.div_mod T2 60 ltac:(lia)) as E2.
    pose proof (Z.mod_pos_bound T2 60 ltac:(lia)) as R2.
    set (m1 := T1 / 60) in *. set (r1 := T1 mod 60) in *.
    set (m2 := T2 / 60) in *. set (r2 := T2 mod 60) in *.
    lia. }
  split; [exact Hchecked|].
  assert (Hatt : attempted b' = true).
  { unfold attempted. rewrite Hsync'. fold checked.
    rewrite <- in_window_spec by lia. apply (in_a_window slot); [exact Hslot|lia]. }
  split; [exact Hatt|]. split.
  - intros l' Hl'. rewrite (wake_updates b' l' Hl'), Hatt. reflexivity.
  - intros Hc. unfold attempted. rewrite Hsync.
    rewrite <- in_window_spec by (specialize (Hrange (millis_check b)); lia).
    now apply (in_a_window slot).
Qed.

Lemma X6_witness :
  (500 - 5
   <= getCurrentMinutesFromMidnight (mkClock true 1748938725 60000)
        (millis_check board_before_slot)
   <= 500 + 5
   /\ attempted board_before_slot = true)
  /\ wakes_after board_before_slot board_at_slot
       (mkClock true 1748938725 60000) (mkClock true 1748938814 3000) 5
  /\ attempted board_at_slot = true.
Proof.
  assert (H1 : synchronized board_before_slot
               = Some (Some (mkClock true 1748938725 60000))) by reflexivity.
  assert (H2 : synchronized board_at_slot
               = Some (Some (mkClock true 1748938814 3000))) by reflexivity.
  assert (H3 : In 500 update_slots) by (rewrite update_slots_eq; cbn; tauto).
  assert (H4 : 500 - 30
               <= getCurrentMinutesFromMidnight (mkClock true 1748938725 60000)
                    (millis_sleep board_before_slot) < 500)
    by (vm_compute; split; [discriminate|reflexivity]).
  assert (H5 : 0 <= 5 <= 300) by lia.
  assert (H6 : wakes_after board_before_slot board_at_slot
                 (mkClock true 1748938725 60000) (mkClock true 1748938814 3000) 5)
    by (vm_compute; reflexivity).
  assert (H7 : 500 - 5
               <= getCurrentMinutesFromMidnight (mkClock true 1748938725 60000)
                    (millis_check board_before_slot)
               <= 500 + 5)
    by (vm_compute; split; discriminate).
  destruct (X6_early_wake_updates_again _ _ _ _ 500 5 H1 H2 H3 H4 H5 H6)
    as (_ & _ & Hnext & _ & Hfirst).
  exact (conj (conj H7 (Hfirst H7)) (conj H6 Hnext)).
Defined.
